(** * LVGL builder: the code generator, the document parser and the serializer

    A shallow embedding of [src/codeGenerator.ts] and of the component
    registry [src/components/lvglComponents.ts].

    - JavaScript strings are modelled by [string]; the case conversions are
      those of the ASCII letters.
    - Numbers are modelled by [Z]: the registry declares integral numeric
      properties only, and fractional numbers are outside the model.
    - Objects are association lists in the order [Object.entries] enumerates
      them, which for keys that are not array indices is the order of
      insertion.  An object literal read as a table is the list of its own
      keys.
    - The module-level variable [_componentCounter] is a natural number
      threaded through the calls; the clock and the random generator are a
      stream of texts.

    The embedding also covers the tree operations of the editor, which are
    written in the script that [src/lvglEditorProvider.ts] gives to its
    webview: finding, deleting and duplicating a node, dropping a component
    on the canvas, moving and resizing with the pointer.  The variables of
    the script ([nodes], [selectedNodeId], [draggedComponent]) are passed to
    the handlers and returned by them.  The coordinates of the pointer are
    rational numbers. *)

From Stdlib Require Import String Ascii List ZArith Bool Lia.
From Stdlib Require Import Numbers.DecimalString.
From Stdlib Require QArith.QArith QArith.Qround QArith.Qminmax.
Import ListNotations.
Open Scope string_scope.
Set Warnings "-register-all".

(** ** JavaScript strings *)

Module JsString.

Definition nl : string := String (ascii_of_nat 10) EmptyString.
Definition dquote : string := String (ascii_of_nat 34) EmptyString.
Definition backslash : string := String (ascii_of_nat 92) EmptyString.

(** [s.startsWith(p)] *)
Definition startsWith (s p : string) : bool := String.prefix p s.

(** [s.slice(n)] for [0 <= n] *)
Fixpoint slice (n : nat) (s : string) : string :=
  match n, s with
  | O, _ => s
  | S n', String _ s' => slice n' s'
  | S _, EmptyString => EmptyString
  end.

(** [s.includes(p)] *)
Fixpoint includes (s p : string) : bool :=
  String.prefix p s ||
  match s with
  | EmptyString => false
  | String _ s' => includes s' p
  end.

(** [s.replace(p, r)] with a string pattern: the first occurrence only. *)
Fixpoint replace (s p r : string) : string :=
  if String.prefix p s then r ++ slice (String.length p) s
  else match s with
       | EmptyString => EmptyString
       | String c s' => String c (replace s' p r)
       end.

(** [s.replace(/c/g, r)] for a one-character pattern [c]. *)
Fixpoint replaceAll (s : string) (c : ascii) (r : string) : string :=
  match s with
  | EmptyString => EmptyString
  | String d s' =>
      (if Ascii.eqb d c then r else String d EmptyString) ++ replaceAll s' c r
  end.

Definition upper_ascii (c : ascii) : ascii :=
  let n := nat_of_ascii c in
  if (97 <=? n)%nat && (n <=? 122)%nat then ascii_of_nat (n - 32) else c.

Definition lower_ascii (c : ascii) : ascii :=
  let n := nat_of_ascii c in
  if (65 <=? n)%nat && (n <=? 90)%nat then ascii_of_nat (n + 32) else c.

Fixpoint map_ascii (f : ascii -> ascii) (s : string) : string :=
  match s with
  | EmptyString => EmptyString
  | String c s' => String (f c) (map_ascii f s')
  end.

Definition toUpperCase : string -> string := map_ascii upper_ascii.
Definition toLowerCase : string -> string := map_ascii lower_ascii.

(** [String(n)] for an integral number. *)
Definition ofZ (z : Z) : string := NilZero.string_of_int (Z.to_int z).
Definition ofNat (n : nat) : string := ofZ (Z.of_nat n).

(** [a.join(sep)] *)
Fixpoint join (sep : string) (l : list string) : string :=
  match l with
  | [] => EmptyString
  | [x] => x
  | x :: rest => x ++ sep ++ join sep rest
  end.

(** The class [\s]: the white space of [trim] and of regular expressions. *)
Definition isSpace (c : ascii) : bool :=
  let n := nat_of_ascii c in
  ((9 <=? n) && (n <=? 13) || (n =? 32))%nat.

(** [s.trimStart()] *)
Fixpoint trimStart (s : string) : string :=
  match s with
  | String c s' => if isSpace c then trimStart s' else s
  | EmptyString => EmptyString
  end.

(** [s.trimEnd()] *)
Fixpoint trimEnd (s : string) : string :=
  match s with
  | EmptyString => EmptyString
  | String c s' =>
      match trimEnd s' with
      | EmptyString => if isSpace c then EmptyString else String c EmptyString
      | t => String c t
      end
  end.

(** [s.trim()] *)
Definition trim (s : string) : string := trimEnd (trimStart s).

End JsString.
Import JsString.

(** ** JavaScript values *)

Inductive JsVal : Type :=
| JUndef
| JNull
| JBool (b : bool)
| JNum (z : Z)
| JStr (s : string)
| JArr (items : list JsVal)
| JObj (entries : list (string * JsVal)).

(** [String(v)], which is also what a template literal does with [v]. *)
Fixpoint toStr (v : JsVal) : string :=
  match v with
  | JUndef => "undefined"
  | JNull => "null"
  | JBool true => "true"
  | JBool false => "false"
  | JNum z => ofZ z
  | JStr s => s
  | JArr items =>
      join "," ((fix each (l : list JsVal) : list string :=
                   match l with
                   | [] => []
                   | JUndef :: l' => EmptyString :: each l'
                   | JNull :: l' => EmptyString :: each l'
                   | x :: l' => toStr x :: each l'
                   end) items)
  | JObj _ => "[object Object]"
  end.

(** Truthiness: what [if (v)], [!v] and [v || w] test. *)
Definition truthy (v : JsVal) : bool :=
  match v with
  | JUndef | JNull => false
  | JBool b => b
  | JNum z => negb (Z.eqb z 0)
  | JStr s => negb (String.eqb s EmptyString)
  | JArr _ | JObj _ => true
  end.

(** [v || w] *)
Definition js_or (v w : JsVal) : JsVal := if truthy v then v else w.

(** [v ?? w] *)
Definition nullish (v w : JsVal) : JsVal :=
  match v with
  | JUndef | JNull => w
  | _ => v
  end.

(** [typeof v === 'object' && v !== null] *)
Definition isObject (v : JsVal) : bool :=
  match v with
  | JArr _ | JObj _ => true
  | _ => false
  end.

(** [o[k]] on the entries of an object; [undefined] when [k] is absent. *)
Fixpoint lookup (k : string) (o : list (string * JsVal)) : JsVal :=
  match o with
  | [] => JUndef
  | (k', v) :: o' => if String.eqb k' k then v else lookup k o'
  end.

(** [k in o] for an own key. *)
Definition hasKey (k : string) (o : list (string * JsVal)) : bool :=
  existsb (fun kv => String.eqb (fst kv) k) o.

(** [o[k] = v] for a key [k] of the object itself: an existing key keeps its
    place, a new key goes last. *)
Fixpoint assignOwn (k : string) (v : JsVal) (o : list (string * JsVal))
  : list (string * JsVal) :=
  match o with
  | [] => [(k, v)]
  | (k', v') :: o' =>
      if String.eqb k' k then (k, v) :: o' else (k', v') :: assignOwn k v o'
  end.

(** [o[k] = v] on an object made by an object literal.  The key [__proto__]
    is the accessor that the object inherits for its prototype: assigning to
    it stores no entry.  Any other key is a key of the object itself. *)
Definition assign (k : string) (v : JsVal) (o : list (string * JsVal))
  : list (string * JsVal) :=
  if String.eqb k "__proto__" then o else assignOwn k v o.

Example toStr_examples :
  toStr (JNum 0) = "0" /\ toStr (JNum 100) = "100" /\ toStr (JNum (-7)) = "-7"
  /\ toStr (JArr [JStr "a"; JNull; JNum 2]) = "a,,2".
Proof. repeat split; reflexivity. Qed.

(** ** The node model *)

Inductive LvglNode : Type := mkNode {
  id : string;
  type : string;
  name : string;
  properties : list (string * JsVal);
  children : list LvglNode
}.

Record GeneratedCode : Type := mkGenerated {
  headerContent : string;
  sourceContent : string
}.

(** ** The component registry ([lvglComponents.ts])

    [ctype] is the field [type] of [LvglComponent].  The icon and the
    property declarations of a component are not read by the generator and
    are left out. *)

Inductive Category : Type := basic | input | display | container | extra.

Record LvglComponent : Type := mkComponent {
  ctype : string;
  displayName : string;
  category : Category;
  canHaveChildren : bool;
  createCode : string
}.

Definition lvglComponents : list LvglComponent :=
  [ mkComponent "lv_obj" "Object" basic true "lv_obj_create";
    mkComponent "lv_label" "Label" display false "lv_label_create";
    mkComponent "lv_btn" "Button" input true "lv_btn_create";
    mkComponent "lv_btnmatrix" "Button Matrix" input false "lv_btnmatrix_create";
    mkComponent "lv_img" "Image" display false "lv_img_create";
    mkComponent "lv_line" "Line" display false "lv_line_create";
    mkComponent "lv_arc" "Arc" display false "lv_arc_create";
    mkComponent "lv_bar" "Bar" display false "lv_bar_create";
    mkComponent "lv_slider" "Slider" input false "lv_slider_create";
    mkComponent "lv_switch" "Switch" input false "lv_switch_create";
    mkComponent "lv_checkbox" "Checkbox" input false "lv_checkbox_create";
    mkComponent "lv_dropdown" "Dropdown" input false "lv_dropdown_create";
    mkComponent "lv_roller" "Roller" input false "lv_roller_create";
    mkComponent "lv_textarea" "Textarea" input false "lv_textarea_create";
    mkComponent "lv_table" "Table" display false "lv_table_create";
    mkComponent "lv_chart" "Chart" display false "lv_chart_create";
    mkComponent "lv_calendar" "Calendar" extra false "lv_calendar_create";
    mkComponent "lv_keyboard" "Keyboard" extra false "lv_keyboard_create";
    mkComponent "lv_list" "List" container true "lv_list_create";
    mkComponent "lv_msgbox" "Message Box" extra false "lv_msgbox_create";
    mkComponent "lv_spinbox" "Spinbox" input false "lv_spinbox_create";
    mkComponent "lv_spinner" "Spinner" display false "lv_spinner_create";
    mkComponent "lv_tabview" "Tabview" container true "lv_tabview_create";
    mkComponent "lv_tileview" "Tileview" container true "lv_tileview_create";
    mkComponent "lv_win" "Window" container true "lv_win_create";
    mkComponent "lv_animimg" "Animation Image" display false "lv_animimg_create";
    mkComponent "lv_canvas" "Canvas" display false "lv_canvas_create";
    mkComponent "lv_imgbtn" "Image Button" input false "lv_imgbtn_create";
    mkComponent "lv_led" "LED" display false "lv_led_create";
    mkComponent "lv_menu" "Menu" container true "lv_menu_create";
    mkComponent "lv_scale" "Scale" display false "lv_scale_create";
    mkComponent "lv_spangroup" "Span Group" display false "lv_spangroup_create";
    mkComponent "lv_colorwheel" "Color Wheel" input false "lv_colorwheel_create";
    mkComponent "lv_meter" "Meter" display false "lv_meter_create" ].

(** [lvglComponents.find(c => c.type === type)] *)
Definition getComponentByType (t : string) : option LvglComponent :=
  List.find (fun c => String.eqb (ctype c) t) lvglComponents.

(** ** The code generator *)

(** [propertyToCode] *)
Definition propertyToCode (propName : string) (value : JsVal) : string :=
  match value with
  | JBool b => if b then "true" else "false"
  | JStr s =>
      if includes propName "color" && startsWith s "#"
      then "lv_color_hex(0x" ++ slice 1 s ++ ")"
      else dquote
           ++ replaceAll (replaceAll s (ascii_of_nat 92) (backslash ++ backslash))
                         (ascii_of_nat 34) (backslash ++ dquote)
           ++ dquote
  | _ => toStr value
  end.

(** A table written as an object literal and read with [table[k] || dflt].
    Only the literal's own keys are modelled: a key that every object
    inherits, such as [constructor], is outside the model. *)
Fixpoint tableGet (table : list (string * string)) (k dflt : string) : string :=
  match table with
  | [] => dflt
  | (k', v) :: rest =>
      if String.eqb k' k
      then (if String.eqb v EmptyString then dflt else v)
      else tableGet rest k dflt
  end.

Definition styleMap : list (string * string) :=
  [ ("bg_color", "lv_obj_set_style_bg_color");
    ("bg_opa", "lv_obj_set_style_bg_opa");
    ("border_color", "lv_obj_set_style_border_color");
    ("border_width", "lv_obj_set_style_border_width");
    ("radius", "lv_obj_set_style_radius");
    ("text_color", "lv_obj_set_style_text_color");
    ("line_color", "lv_obj_set_style_line_color");
    ("line_width", "lv_obj_set_style_line_width");
    ("pad_top", "lv_obj_set_style_pad_top");
    ("pad_bottom", "lv_obj_set_style_pad_bottom");
    ("pad_left", "lv_obj_set_style_pad_left");
    ("pad_right", "lv_obj_set_style_pad_right");
    ("pad_row", "lv_obj_set_style_pad_row");
    ("pad_column", "lv_obj_set_style_pad_column") ].

(** [getStyleSetter] *)
Definition getStyleSetter (propName : string) : string :=
  tableGet styleMap propName EmptyString.

Definition modeMap : list (string * string) :=
  [ ("wrap", "LV_LABEL_LONG_WRAP");
    ("dot", "LV_LABEL_LONG_DOT");
    ("scroll", "LV_LABEL_LONG_SCROLL");
    ("scroll_circular", "LV_LABEL_LONG_SCROLL_CIRCULAR");
    ("clip", "LV_LABEL_LONG_CLIP") ].

Definition setterMap : list (string * string) :=
  [ ("lv_arc", "lv_arc_set_value");
    ("lv_bar", "lv_bar_set_value");
    ("lv_slider", "lv_slider_set_value") ].

Definition flowMap : list (string * string) :=
  [ ("row", "LV_FLEX_FLOW_ROW");
    ("column", "LV_FLEX_FLOW_COLUMN");
    ("row_wrap", "LV_FLEX_FLOW_ROW_WRAP");
    ("row_reverse", "LV_FLEX_FLOW_ROW_REVERSE");
    ("column_reverse", "LV_FLEX_FLOW_COLUMN_REVERSE");
    ("column_wrap", "LV_FLEX_FLOW_COLUMN_WRAP") ].

Definition strIn (s : string) (l : list string) : bool :=
  existsb (String.eqb s) l.

(** [value === true] *)
Definition isTrue (v : JsVal) : bool :=
  match v with JBool true => true | _ => false end.

(** [value === s] for a string literal [s] *)
Definition isStr (v : JsVal) (s : string) : bool :=
  match v with JStr s' => String.eqb s' s | _ => false end.

(** One turn of the loop over [Object.entries(node.properties)]: the text the
    turn appends to [code] (empty when the property is skipped). *)
Definition propertyCode (nodeType varName indent propName : string)
           (value : JsVal) : string :=
  if strIn propName ["x"; "y"; "width"; "height"; "name"] then EmptyString
  else
    let styleSetter := getStyleSetter propName in
    if negb (String.eqb styleSetter EmptyString) then
      if includes propName "color"
      then indent ++ styleSetter ++ "(" ++ varName ++ ", "
           ++ propertyToCode propName value ++ ", LV_PART_MAIN);" ++ nl
      else indent ++ styleSetter ++ "(" ++ varName ++ ", "
           ++ toStr value ++ ", LV_PART_MAIN);" ++ nl
    else if String.eqb nodeType "lv_label" then
      if String.eqb propName "text" then
        indent ++ "lv_label_set_text(" ++ varName ++ ", "
        ++ propertyToCode propName value ++ ");" ++ nl
      else if String.eqb propName "long_mode" then
        indent ++ "lv_label_set_long_mode(" ++ varName ++ ", "
        ++ tableGet modeMap (toStr value) "LV_LABEL_LONG_WRAP" ++ ");" ++ nl
      else EmptyString
    else if String.eqb nodeType "lv_btn" then EmptyString
    else if strIn nodeType ["lv_arc"; "lv_bar"; "lv_slider"] then
      if String.eqb propName "value" then
        indent ++ tableGet setterMap nodeType "undefined" ++ "(" ++ varName
        ++ ", " ++ toStr value ++ ", LV_ANIM_OFF);" ++ nl
      else EmptyString
    else if strIn nodeType ["lv_switch"; "lv_checkbox"] then
      (if String.eqb propName "checked" && isTrue value
       then indent ++ "lv_obj_add_state(" ++ varName ++ ", LV_STATE_CHECKED);" ++ nl
       else EmptyString)
      ++
      (if String.eqb propName "text" && String.eqb nodeType "lv_checkbox"
       then indent ++ "lv_checkbox_set_text(" ++ varName ++ ", "
            ++ propertyToCode propName value ++ ");" ++ nl
       else EmptyString)
    else if strIn nodeType ["lv_dropdown"; "lv_roller"] then
      if String.eqb propName "options" then
        let setter := if String.eqb nodeType "lv_dropdown"
                      then "lv_dropdown_set_options" else "lv_roller_set_options" in
        let mode := if String.eqb nodeType "lv_roller"
                    then ", LV_ROLLER_MODE_NORMAL" else EmptyString in
        indent ++ setter ++ "(" ++ varName ++ ", "
        ++ propertyToCode propName value ++ mode ++ ");" ++ nl
      else if String.eqb propName "selected" then
        let setter := if String.eqb nodeType "lv_dropdown"
                      then "lv_dropdown_set_selected" else "lv_roller_set_selected" in
        indent ++ setter ++ "(" ++ varName ++ ", " ++ toStr value
        ++ ", LV_ANIM_OFF);" ++ nl
      else EmptyString
    else if String.eqb nodeType "lv_textarea" then
      if String.eqb propName "text" then
        indent ++ "lv_textarea_set_text(" ++ varName ++ ", "
        ++ propertyToCode propName value ++ ");" ++ nl
      else if String.eqb propName "placeholder" then
        indent ++ "lv_textarea_set_placeholder_text(" ++ varName ++ ", "
        ++ propertyToCode propName value ++ ");" ++ nl
      else if String.eqb propName "one_line" && isTrue value then
        indent ++ "lv_textarea_set_one_line(" ++ varName ++ ", true);" ++ nl
      else if String.eqb propName "password_mode" && isTrue value then
        indent ++ "lv_textarea_set_password_mode(" ++ varName ++ ", true);" ++ nl
      else EmptyString
    else if String.eqb nodeType "lv_img" then
      if String.eqb propName "src" && truthy value then
        indent ++ "lv_img_set_src(" ++ varName ++ ", &" ++ toStr value ++ ");" ++ nl
      else if String.eqb propName "zoom" then
        indent ++ "lv_img_set_zoom(" ++ varName ++ ", " ++ toStr value ++ ");" ++ nl
      else if String.eqb propName "angle" then
        indent ++ "lv_img_set_angle(" ++ varName ++ ", " ++ toStr value ++ ");" ++ nl
      else EmptyString
    else if String.eqb nodeType "lv_spinner" then EmptyString
    else if String.eqb propName "layout" then
      if isStr value "flex" then
        indent ++ "lv_obj_set_layout(" ++ varName ++ ", LV_LAYOUT_FLEX);" ++ nl
      else if isStr value "grid" then
        indent ++ "lv_obj_set_layout(" ++ varName ++ ", LV_LAYOUT_GRID);" ++ nl
      else EmptyString
    else if String.eqb propName "flex_flow" then
      indent ++ "lv_obj_set_flex_flow(" ++ varName ++ ", "
      ++ tableGet flowMap (toStr value) "LV_FLEX_FLOW_ROW" ++ ");" ++ nl
    else EmptyString.

(** The whole loop over the properties. *)
Fixpoint propertiesCode (nodeType varName indent : string)
         (props : list (string * JsVal)) : string :=
  match props with
  | [] => EmptyString
  | (propName, value) :: rest =>
      propertyCode nodeType varName indent propName value
      ++ propertiesCode nodeType varName indent rest
  end.

(** [node.name || `${node.type.replace('lv_', '')}_${++_componentCounter}`]:
    the variable name and the counter after the expression. *)
Definition chooseVarName (node : LvglNode) (counter : nat) : string * nat :=
  if negb (String.eqb (name node) EmptyString) then (name node, counter)
  else (replace (type node) "lv_" EmptyString ++ "_" ++ ofNat (S counter),
        S counter).

(** The optional comment line, heading a component. *)
Definition createComment (generateComments : bool) (indent : string)
           (def : LvglComponent) (varName : string) : string :=
  if generateComments
  then indent ++ "/* Create " ++ displayName def ++ ": " ++ varName ++ " */" ++ nl
  else EmptyString.

(** The construction statement. *)
Definition createStatement (indent varName parentVar : string)
           (def : LvglComponent) : string :=
  indent ++ "lv_obj_t *" ++ varName ++ " = " ++ createCode def
  ++ "(" ++ parentVar ++ ");" ++ nl.

(** The two geometry statements. *)
Definition geometryStatements (indent varName : string)
           (props : list (string * JsVal)) : string :=
  let x := nullish (lookup "x" props) (JNum 0) in
  let y := nullish (lookup "y" props) (JNum 0) in
  let width := nullish (lookup "width" props) (JNum 100) in
  let height := nullish (lookup "height" props) (JNum 50) in
  indent ++ "lv_obj_set_pos(" ++ varName ++ ", " ++ toStr x ++ ", "
  ++ toStr y ++ ");" ++ nl
  ++ indent ++ "lv_obj_set_size(" ++ varName ++ ", " ++ toStr width ++ ", "
  ++ toStr height ++ ");" ++ nl.

(** [generateComponentCode]: the emitted text and the counter afterwards. *)
Fixpoint generateComponentCode (node : LvglNode) (parentVar indent : string)
         (generateComments : bool) (counter : nat) {struct node} : string * nat :=
  match getComponentByType (type node) with
  | None => (indent ++ "// Unknown component type: " ++ type node ++ nl, counter)
  | Some componentDef =>
      let '(varName, counter1) := chooseVarName node counter in
      let code :=
        createComment generateComments indent componentDef varName
        ++ createStatement indent varName parentVar componentDef
        ++ geometryStatements indent varName (properties node)
        ++ propertiesCode (type node) varName indent (properties node)
        ++ nl in
      (fix each (cs : list LvglNode) (code : string) (counter : nat)
         : string * nat :=
         match cs with
         | [] => (code, counter)
         | child :: cs' =>
             let '(childCode, counter') :=
               generateComponentCode child varName indent generateComments counter in
             each cs' (code ++ childCode) counter'
         end) (children node) code counter1
  end.

(** The loop of [generateComponentCode] over [node.children], on its own. *)
Fixpoint generateChildren (cs : list LvglNode) (varName indent : string)
         (generateComments : bool) (code : string) (counter : nat)
  : string * nat :=
  match cs with
  | [] => (code, counter)
  | child :: cs' =>
      let '(childCode, counter') :=
        generateComponentCode child varName indent generateComments counter in
      generateChildren cs' varName indent generateComments
                       (code ++ childCode) counter'
  end.

(** The statements of a node itself: construction, geometry, properties, with
    the comment that heads them. *)
Definition ownStatements (node : LvglNode) (componentDef : LvglComponent)
           (varName parentVar indent : string) (generateComments : bool) : string :=
  createComment generateComments indent componentDef varName
  ++ createStatement indent varName parentVar componentDef
  ++ geometryStatements indent varName (properties node)
  ++ propertiesCode (type node) varName indent (properties node).

(** The loop of [generateCode] over the root nodes. *)
Fixpoint generateRoots (rootNodes : list LvglNode) (indent : string)
         (generateComments : bool) (sourceContent : string) (counter : nat)
  : string * nat :=
  match rootNodes with
  | [] => (sourceContent, counter)
  | node :: rest =>
      let '(code, counter') :=
        generateComponentCode node "parent" indent generateComments counter in
      generateRoots rest indent generateComments (sourceContent ++ code) counter'
  end.

(** Text that is appended only when comments are asked for. *)
Definition whenComments (generateComments : bool) (text : string) : string :=
  if generateComments then text else EmptyString.

Definition headerOf (screenName : string) (generateComments : bool) : string :=
  let upperName := toUpperCase screenName in
  let lowerName := toLowerCase screenName in
  whenComments generateComments
    ("/**" ++ nl
     ++ " * @file " ++ lowerName ++ ".h" ++ nl
     ++ " * @brief " ++ screenName ++ " screen header" ++ nl
     ++ " * @note Auto-generated by LVGL Builder" ++ nl
     ++ " */" ++ nl ++ nl)
  ++ "#ifndef " ++ upperName ++ "_H" ++ nl
  ++ "#define " ++ upperName ++ "_H" ++ nl ++ nl
  ++ whenComments generateComments
       ("/*********************" ++ nl
        ++ " *      INCLUDES" ++ nl
        ++ " *********************/" ++ nl)
  ++ "#include " ++ dquote ++ "lvgl.h" ++ dquote ++ nl ++ nl
  ++ whenComments generateComments
       ("/*********************" ++ nl
        ++ " *      DEFINES" ++ nl
        ++ " *********************/" ++ nl ++ nl
        ++ "/**********************" ++ nl
        ++ " * GLOBAL PROTOTYPES" ++ nl
        ++ " **********************/" ++ nl)
  ++ "void " ++ lowerName ++ "_create(lv_obj_t *parent);" ++ nl ++ nl
  ++ "#endif /* " ++ upperName ++ "_H */" ++ nl.

(** The source file up to the opening brace. *)
Definition sourceProlog (screenName : string) (generateComments : bool) : string :=
  let lowerName := toLowerCase screenName in
  whenComments generateComments
    ("/**" ++ nl
     ++ " * @file " ++ lowerName ++ ".c" ++ nl
     ++ " * @brief " ++ screenName ++ " screen implementation" ++ nl
     ++ " * @note Auto-generated by LVGL Builder" ++ nl
     ++ " */" ++ nl ++ nl
     ++ "/*********************" ++ nl
     ++ " *      INCLUDES" ++ nl
     ++ " *********************/" ++ nl)
  ++ "#include " ++ dquote ++ lowerName ++ ".h" ++ dquote ++ nl ++ nl
  ++ whenComments generateComments
       ("/*********************" ++ nl
        ++ " *      DEFINES" ++ nl
        ++ " *********************/" ++ nl ++ nl
        ++ "/**********************" ++ nl
        ++ " *  STATIC VARIABLES" ++ nl
        ++ " **********************/" ++ nl ++ nl
        ++ "/**********************" ++ nl
        ++ " *  STATIC PROTOTYPES" ++ nl
        ++ " **********************/" ++ nl ++ nl
        ++ "/**********************" ++ nl
        ++ " * GLOBAL FUNCTIONS" ++ nl
        ++ " **********************/" ++ nl ++ nl
        ++ "/**" ++ nl
        ++ " * Create the " ++ screenName ++ " screen" ++ nl
        ++ " * @param parent pointer to parent object" ++ nl
        ++ " */" ++ nl)
  ++ "void " ++ lowerName ++ "_create(lv_obj_t *parent)" ++ nl
  ++ "{" ++ nl.

(** The source file after the component code. *)
Definition sourceEpilog (generateComments : bool) : string :=
  "}" ++ nl
  ++ whenComments generateComments
       (nl ++ "/**********************" ++ nl
        ++ " *  STATIC FUNCTIONS" ++ nl
        ++ " **********************/" ++ nl).

(** [generateCode], run with [_componentCounter = counter0]: the two files and
    the value the call leaves in [_componentCounter]. *)
Definition generateCode (rootNodes : list LvglNode) (screenName : string)
           (generateComments : bool) (counter0 : nat) : GeneratedCode * nat :=
  let counter := 0 in
  let headerContent := headerOf screenName generateComments in
  let sourceContent := sourceProlog screenName generateComments in
  let indent := "    " in
  let '(sourceContent, counter) :=
    generateRoots rootNodes indent generateComments sourceContent counter in
  let sourceContent := sourceContent ++ sourceEpilog generateComments in
  (mkGenerated headerContent sourceContent, counter).

(** ** The document parser

    [parser.parse] belongs to the library fast-xml-parser, which is not part of
    the sources: [parseXmlToNodes] takes it as [xmlParse], a function that
    either returns a JavaScript value or throws.  [Date.now()] and
    [Math.random()] are read through [stamp]: [stamp n] is the text
    [`${Date.now()}_${Math.random().toString(36).slice(2, 11)}`] of the
    [n]-th identifier the parser synthesizes, and the number of identifiers
    synthesized so far is threaded through the calls. *)

Inductive ParseResult : Type :=
| Returns (parsed : JsVal)
| Throws.

(** Computations that synthesize identifiers. *)
Definition Fresh (A : Type) : Type := nat -> A * nat.

Definition ret {A : Type} (a : A) : Fresh A := fun n => (a, n).

Definition bind {A B : Type} (m : Fresh A) (k : A -> Fresh B) : Fresh B :=
  fun n => let '(a, n') := m n in k a n'.

Notation "x <- m ;; k" := (bind m (fun x => k))
  (at level 61, m at next level, right associativity).

(** [Object.entries(a)] for an array [a], counting indices from [i]. *)
Fixpoint indexed (i : nat) (items : list JsVal) : list (string * JsVal) :=
  match items with
  | [] => []
  | v :: rest => (ofNat i, v) :: indexed (S i) rest
  end.

Fixpoint chars (s : string) : list JsVal :=
  match s with
  | EmptyString => []
  | String c s' => JStr (String c EmptyString) :: chars s'
  end.

(** [Object.entries(v)] for a value other than [null] and [undefined]. *)
Definition entriesOf (v : JsVal) : list (string * JsVal) :=
  match v with
  | JObj entries => entries
  | JArr items => indexed 0 items
  | JStr s => indexed 0 (chars s)
  | _ => []
  end.

(** [v[k]] for a key that is not an index *)
Definition getField (v : JsVal) (k : string) : JsVal :=
  match v with
  | JObj entries => lookup k entries
  | _ => JUndef
  end.

(** [key.startsWith('@') || key === '#text' || key === 'lvgl'] *)
Definition skippedKey (key : string) : bool :=
  startsWith key "@" || String.eqb key "#text" || String.eqb key "lvgl".

(** The loop "Extract properties" *)
Fixpoint extractProperties (entries props : list (string * JsVal))
  : list (string * JsVal) :=
  match entries with
  | [] => props
  | (propKey, propValue) :: rest =>
      if String.eqb propKey "id" || String.eqb propKey "name"
      then extractProperties rest props
      else if isObject propValue then extractProperties rest props
      else extractProperties rest (assign propKey propValue props)
  end.

(** [key.startsWith('lv_') ? key : `lv_${key}`] *)
Definition typeOfKey (key : string) : string :=
  if startsWith key "lv_" then key else "lv_" ++ key.

Section Parser.

Variable stamp : nat -> string.

(** [String(nodeItem['id'] || `${key}_${Date.now()}_${...}`)] *)
Definition chooseId (key : string) (idValue : JsVal) : Fresh string :=
  fun n =>
    if truthy idValue then (toStr idValue, n)
    else (key ++ "_" ++ stamp n, S n).

(** The loops of [parseChildren], over a function [item] that stands for
    the body of [for (const item of items)]. *)
Section Loops.

Variable item : string -> JsVal -> Fresh (list LvglNode).

Fixpoint itemsLoop (key : string) (items : list JsVal)
  : Fresh (list LvglNode) :=
  match items with
  | [] => ret []
  | x :: rest =>
      a <- item key x ;; b <- itemsLoop key rest ;; ret (a ++ b)%list
  end.

(** [const items = Array.isArray(value) ? value : [value]] and the loop
    over [items]. *)
Definition valueLoop (key : string) (value : JsVal) : Fresh (list LvglNode) :=
  match value with
  | JArr items => itemsLoop key items
  | _ => item key value
  end.

Fixpoint objectLoop (entries : list (string * JsVal))
  : Fresh (list LvglNode) :=
  match entries with
  | [] => ret []
  | (key, value) :: rest =>
      if skippedKey key then objectLoop rest
      else a <- valueLoop key value ;; b <- objectLoop rest ;; ret (a ++ b)%list
  end.

Fixpoint arrayLoop (i : nat) (items : list JsVal) : Fresh (list LvglNode) :=
  match items with
  | [] => ret []
  | value :: rest =>
      if skippedKey (ofNat i) then arrayLoop (S i) rest
      else a <- valueLoop (ofNat i) value ;;
           b <- arrayLoop (S i) rest ;; ret (a ++ b)%list
  end.

End Loops.

(** The body of [for (const item of items)]: no node for a value that is
    not an object, one node otherwise. *)
Fixpoint parseItem (key : string) (item : JsVal) {struct item}
  : Fresh (list LvglNode) :=
  match item with
  | JObj entries =>
      nodeId <- chooseId key (lookup "id" entries) ;;
      let nodeName := toStr (js_or (lookup "name" entries) (JStr key)) in
      let props := extractProperties entries [] in
      kids <- objectLoop (fun k v => parseItem k v) entries ;;
      ret [mkNode nodeId (typeOfKey key) nodeName props kids]
  | JArr items =>
      nodeId <- chooseId key JUndef ;;
      let nodeName := toStr (js_or JUndef (JStr key)) in
      let props := extractProperties (indexed 0 items) [] in
      kids <- arrayLoop (fun k v => parseItem k v) 0 items ;;
      ret [mkNode nodeId (typeOfKey key) nodeName props kids]
  | _ => ret []
  end.

(** [parseChildren] *)
Definition parseChildren (parent : JsVal) : Fresh (list LvglNode) :=
  objectLoop parseItem (entriesOf parent).

Variable xmlParse : string -> ParseResult.

(** [parseXmlToNodes]: every exception raised inside [try] ends in the
    [catch] that returns the empty forest. *)
Definition parseXmlToNodes (xmlContent : string) : Fresh (list LvglNode) :=
  match xmlParse xmlContent with
  | Throws => ret []
  | Returns JUndef | Returns JNull => ret []
  | Returns parsed =>
      let root := js_or (getField parsed "lvgl") parsed in
      if negb (truthy root) then ret [] else parseChildren root
  end.

End Parser.

(** ** Exceptions in [parseXmlToNodes]

    The statements of [parseXmlToNodes] once more, with what can throw in
    them written out, to state that no exception leaves the function.  A
    statement completes normally, with a value, or abruptly, by throwing. *)

Inductive Completion (A : Type) : Type :=
| Normal (a : A)
| Abrupt.
Arguments Normal {A} a.
Arguments Abrupt {A}.

(** The block of [try].  It throws when [parser.parse] throws, and when
    [parsed.lvgl] is read of [null] or [undefined]; [parseChildren] reads
    the entries of values and throws nothing. *)
Definition tryBlock (stamp : nat -> string) (xmlParse : string -> ParseResult)
           (xmlContent : string) : Fresh (Completion (list LvglNode)) :=
  match xmlParse xmlContent with
  | Throws => ret Abrupt
  | Returns JUndef | Returns JNull => ret Abrupt
  | Returns parsed =>
      let root := js_or (getField parsed "lvgl") parsed in
      if negb (truthy root) then ret (Normal [])
      else nodes <- parseChildren stamp root ;; ret (Normal nodes)
  end.

(** [try { block } catch { handler }] *)
Definition tryCatch {A : Type} (block handler : Fresh (Completion A))
  : Fresh (Completion A) :=
  fun n =>
    match block n with
    | (Normal a, n') => (Normal a, n')
    | (Abrupt, n') => handler n'
    end.

(** How a call of [parseXmlToNodes] completes. *)
Definition parseXmlToNodesCompletion
           (stamp : nat -> string) (xmlParse : string -> ParseResult)
           (xmlContent : string) : Fresh (Completion (list LvglNode)) :=
  tryCatch (tryBlock stamp xmlParse xmlContent) (ret (Normal [])).

(** ** The document serializer *)

(** The loop of [nodeToXml] over [Object.entries(node.properties)]. *)
Fixpoint propertiesToXml (props : list (string * JsVal)) : string :=
  match props with
  | [] => EmptyString
  | (key, value) :: rest =>
      match value with
      | JStr s =>
          " " ++ key ++ "=" ++ dquote
          ++ replaceAll s (ascii_of_nat 34) "&quot;" ++ dquote
      | _ => " " ++ key ++ "=" ++ dquote ++ toStr value ++ dquote
      end ++ propertiesToXml rest
  end.

(** [nodeToXml] *)
Fixpoint nodeToXml (node : LvglNode) (indent : string) {struct node} : string :=
  let tagName := replace (type node) "lv_" EmptyString in
  let xml :=
    indent ++ "<" ++ tagName
    ++ " id=" ++ dquote ++ id node ++ dquote
    ++ " name=" ++ dquote ++ name node ++ dquote
    ++ propertiesToXml (properties node) in
  match children node with
  | [] => xml ++ "/>" ++ nl
  | _ :: _ =>
      xml ++ ">" ++ nl
      ++ (fix each (cs : list LvglNode) : string :=
            match cs with
            | [] => EmptyString
            | child :: cs' => nodeToXml child (indent ++ "  ") ++ each cs'
            end) (children node)
      ++ indent ++ "</" ++ tagName ++ ">" ++ nl
  end.

Fixpoint nodesToXmlLoop (nodes : list LvglNode) : string :=
  match nodes with
  | [] => EmptyString
  | node :: rest => nodeToXml node "  " ++ nodesToXmlLoop rest
  end.

(** [nodesToXml] *)
Definition nodesToXml (nodes : list LvglNode) : string :=
  "<?xml version=" ++ dquote ++ "1.0" ++ dquote
  ++ " encoding=" ++ dquote ++ "UTF-8" ++ dquote ++ "?>" ++ nl
  ++ "<lvgl version=" ++ dquote ++ "1.0" ++ dquote ++ ">" ++ nl
  ++ nodesToXmlLoop nodes
  ++ "</lvgl>" ++ nl.

(** ** A model of the XML library

    [new XMLParser({ignoreAttributes: false, attributeNamePrefix: '',
    allowBooleanAttributes: true}).parse] of fast-xml-parser, version 4, on a
    fragment of its input language.  The library is a dependency of the
    repository and not part of its sources; this model follows the library's
    documented behaviour under the three options above and its defaults for
    the others (attribute values are trimmed, have the predefined entities
    replaced and are not converted to numbers or booleans; elements of a
    parent that share a tag name are collected, in one array, under the key
    of the first of them; the attributes of an element are assigned after its
    child elements; an element with neither attributes nor content is the
    empty string).

    The fragment: the XML declaration, start tags, end tags and empty-element
    tags with quoted or valueless attributes, and white space between tags.
    [Beyond] is the answer on text outside the fragment and says nothing
    about the library. *)

Module FastXml.

Inductive Outcome (A : Type) : Type :=
| Ok (a : A)
| Thrown
| Beyond.
Arguments Ok {A} a.
Arguments Thrown {A}.
Arguments Beyond {A}.

Inductive Xml : Type :=
| Elem (tag : string) (attrs : list (string * JsVal)) (kids : list Xml).

Definition tagOf (x : Xml) : string :=
  match x with Elem tag _ _ => tag end.

(** The longest prefix of characters satisfying [p], and the rest. *)
Fixpoint span (p : ascii -> bool) (s : string) : string * string :=
  match s with
  | String c s' =>
      if p c then let '(a, b) := span p s' in (String c a, b)
      else (EmptyString, s)
  | EmptyString => (EmptyString, EmptyString)
  end.

(** The text before the first [c], and the text after it. *)
Fixpoint upTo (c : ascii) (s : string) : option (string * string) :=
  match s with
  | EmptyString => None
  | String d s' =>
      if Ascii.eqb d c then Some (EmptyString, s')
      else match upTo c s' with
           | Some (a, b) => Some (String d a, b)
           | None => None
           end
  end.

(** The tag expression that ends at the first [>] outside quotes ([pi] is
    set for a processing instruction, which ends at [?>]), with tabs turned
    into spaces, and the text after the tag. *)
Fixpoint tagExpression (pi : bool) (boundary : option ascii) (s : string)
  : option (string * string) :=
  match s with
  | EmptyString => None
  | String c s' =>
      let keep (b : option ascii) (c : ascii) :=
        match tagExpression pi b s' with
        | Some (e, r) => Some (String c e, r)
        | None => None
        end in
      match boundary with
      | Some q => keep (if Ascii.eqb c q then None else Some q) c
      | None =>
          if Ascii.eqb c (ascii_of_nat 34) || Ascii.eqb c "'" then keep (Some c) c
          else if pi then
            if Ascii.eqb c "?" then
              match s' with
              | String ">" r => Some (EmptyString, r)
              | _ => keep None c
              end
            else keep None (if Ascii.eqb c (ascii_of_nat 9) then " "%char else c)
          else if Ascii.eqb c ">" then Some (EmptyString, s')
          else keep None (if Ascii.eqb c (ascii_of_nat 9) then " "%char else c)
      end
  end.

(** The predefined entities of an attribute value; [skip] counts the
    characters of an entity still to be dropped.  [None] for a character
    reference, which is outside the fragment. *)
Fixpoint replaceEntities (skip : nat) (s : string) : option string :=
  match s with
  | EmptyString => Some EmptyString
  | String c s' =>
      match skip with
      | S k => replaceEntities k s'
      | O =>
          if Ascii.eqb c "&" then
            if String.prefix "#" s' then None
            else if String.prefix "quot;" s'
            then option_map (append dquote) (replaceEntities 5 s')
            else if String.prefix "apos;" s'
            then option_map (append "'") (replaceEntities 5 s')
            else if String.prefix "amp;" s'
            then option_map (append "&") (replaceEntities 4 s')
            else if String.prefix "lt;" s'
            then option_map (append "<") (replaceEntities 3 s')
            else if String.prefix "gt;" s'
            then option_map (append ">") (replaceEntities 3 s')
            else option_map (String c) (replaceEntities 0 s')
          else option_map (String c) (replaceEntities 0 s')
      end
  end.

Definition nameChar (c : ascii) : bool := negb (isSpace c || Ascii.eqb c "=").

(** The attributes of a tag: the successive matches of the library's
    pattern for one attribute, a name (characters other than white space
    and [=]) followed or not by [=] and a quoted value; an attribute
    without a value is [true]. *)
Fixpoint buildAttributesMap (fuel : nat) (attrExp : string)
         (attrs : list (string * JsVal)) : option (list (string * JsVal)) :=
  match fuel with
  | O => Some attrs
  | S fuel' =>
      let '(_, s1) := span (fun c => negb (nameChar c)) attrExp in
      match s1 with
      | EmptyString => Some attrs
      | _ =>
          let '(attrName, s2) := span nameChar s1 in
          let s3 := trimStart s2 in
          let valueless :=
            buildAttributesMap fuel' s3 (assignOwn attrName (JBool true) attrs) in
          match s3 with
          | String "=" s4 =>
              match trimStart s4 with
              | String q s5 =>
                  if Ascii.eqb q (ascii_of_nat 34) || Ascii.eqb q "'" then
                    match upTo q s5 with
                    | Some (oldVal, s6) =>
                        match replaceEntities 0 (trim oldVal) with
                        | Some newVal =>
                            buildAttributesMap fuel' s6
                              (assignOwn attrName (JStr newVal) attrs)
                        | None => None
                        end
                    | None => valueless
                    end
                  else valueless
              | EmptyString => valueless
              end
          | _ => valueless
          end
      end
  end.

(** [compressedObj[property] = val], or the array of the values of
    [property] when there is one already. *)
Fixpoint addChild (property : string) (val : JsVal)
         (obj : list (string * JsVal)) : list (string * JsVal) :=
  match obj with
  | [] => [(property, val)]
  | (k, v) :: obj' =>
      if String.eqb k property then
        match v with
        | JArr items => (k, JArr (items ++ [val])) :: obj'
        | _ => (k, JArr [v; val]) :: obj'
        end
      else (k, v) :: addChild property val obj'
  end.

(** The JavaScript value of an element. *)
Fixpoint valueOf (x : Xml) : JsVal :=
  match x with
  | Elem _ attrs kids =>
      let obj :=
        (fix compress (ks : list Xml) (obj : list (string * JsVal)) :=
           match ks with
           | [] => obj
           | k :: ks' => compress ks' (addChild (tagOf k) (valueOf k) obj)
           end) kids [] in
      match attrs, obj with
      | [], [] => JStr EmptyString
      | [], _ => JObj obj
      | _, _ =>
          JObj (fold_left (fun o kv => assignOwn (fst kv) (snd kv) o) attrs obj)
      end
  end.

Fixpoint compress (ks : list Xml) (obj : list (string * JsVal))
  : list (string * JsVal) :=
  match ks with
  | [] => obj
  | k :: ks' => compress ks' (addChild (tagOf k) (valueOf k) obj)
  end.

(** Tag name and attributes of a tag expression, and whether the tag is an
    empty-element tag. *)
Definition readTag (tagExp : string)
  : option (string * list (string * JsVal) * bool) :=
  let '(tagName, afterName) := span (fun c => negb (isSpace c)) tagExp in
  let attrExp :=
    match afterName with
    | EmptyString => tagName
    | String _ r => trimStart r
    end in
  let endsWithSlash (s : string) :=
    String.eqb (slice (String.length s - 1) s) "/" in
  let dropLast (s : string) := substring 0 (String.length s - 1) s in
  let withAttrs (tagName attrExp : string) (selfClosing : bool) :=
    if String.eqb tagName attrExp then Some (tagName, [], selfClosing)
    else match buildAttributesMap (S (String.length attrExp)) attrExp [] with
         | Some attrs => Some (tagName, attrs, selfClosing)
         | None => None
         end in
  if endsWithSlash attrExp then
    if endsWithSlash tagName
    then Some (dropLast tagName, [], true)
    else withAttrs tagName (dropLast attrExp) true
  else withAttrs tagName attrExp false.

(** The elements that start in [s], up to the end of the text or to an end
    tag, whose name is then returned with the text after it. *)
Fixpoint content (fuel : nat) (s : string)
  : Outcome (list Xml * option (string * string)) :=
  match fuel with
  | O => Beyond
  | S fuel' =>
      match trimStart s with
      | EmptyString => Ok ([], None)
      | String "<" (String "/" r) =>
          match upTo ">" r with
          | Some (closing, rest) => Ok ([], Some (trim closing, rest))
          | None => Thrown
          end
      | String "<" (String "!" _) => Beyond
      | String "<" r =>
          let pi := String.prefix "?" r in
          match tagExpression pi None r with
          | None => Thrown
          | Some (tagExp, rest) =>
              match readTag tagExp with
              | None => Beyond
              | Some (tagName, attrs, selfClosing) =>
                  let andSiblings (x : Xml) (rest : string) :=
                    match content fuel' rest with
                    | Ok (xs, closing) => Ok (x :: xs, closing)
                    | Thrown => Thrown
                    | Beyond => Beyond
                    end in
                  if String.eqb tagName EmptyString then Beyond
                  else if pi then
                    if selfClosing then Beyond
                    else andSiblings (Elem tagName attrs []) rest
                  else if selfClosing then andSiblings (Elem tagName attrs []) rest
                  else
                    match content fuel' rest with
                    | Ok (kids, Some (closing, rest')) =>
                        if String.eqb closing tagName
                        then andSiblings (Elem tagName attrs kids) rest'
                        else Beyond
                    | Ok (_, None) => Beyond
                    | Thrown => Thrown
                    | Beyond => Beyond
                    end
              end
          end
      | _ => Beyond
      end
  end.

(** The model of [parser.parse]. *)
Definition parseModel (xmlData : string) : Outcome JsVal :=
  match content (S (String.length xmlData)) xmlData with
  | Ok (xs, None) => Ok (JObj (compress xs []))
  | Ok (_, Some _) => Beyond
  | Thrown => Thrown
  | Beyond => Beyond
  end.

(** [parser.parse] as [parseXmlToNodes] takes it. *)
Definition parse (xmlData : string) : ParseResult :=
  match parseModel xmlData with
  | Ok v => Returns v
  | _ => Throws
  end.

End FastXml.

(** ** Vocabulary of the properties *)

(** [s.split('\n')] *)
Fixpoint splitLines (s : string) : list string :=
  match s with
  | EmptyString => [EmptyString]
  | String c s' =>
      if Ascii.eqb c (ascii_of_nat 10) then EmptyString :: splitLines s'
      else match splitLines s' with
           | [] => [String c EmptyString]
           | l :: ls => String c l :: ls
           end
  end.

(** A text without a line break. *)
Fixpoint singleLine (s : string) : bool :=
  match s with
  | EmptyString => true
  | String c s' => negb (Ascii.eqb c (ascii_of_nat 10)) && singleLine s'
  end.

(** A line of a block comment: after its indentation it opens a comment or
    continues one. *)
Definition isCommentLine (l : string) : bool :=
  let t := trimStart l in
  startsWith t "/*" || startsWith t "*".

Definition isBlankLine (l : string) : bool :=
  String.eqb (trimStart l) EmptyString.

(** The text with every comment line deleted. *)
Definition withoutComments (s : string) : list string :=
  filter (fun l => negb (isCommentLine l)) (splitLines s).

(** The lines of a text that are neither comment lines nor blank. *)
Definition codeLines (s : string) : list string :=
  filter (fun l => negb (isCommentLine l || isBlankLine l)) (splitLines s).

(** Text made of whole lines. *)
Definition endsLine (s : string) : Prop :=
  s = EmptyString \/ exists s0, s = s0 ++ nl.

(** Joining a piece of a line to the first of the lines that follow. *)
Definition joinFirst (a : string) (ls : list string) : list string :=
  match ls with
  | [] => [a]
  | l :: ls' => (a ++ l) :: ls'
  end.

(** What the two settings of the flag have in common, for the text of a node
    or of a list of nodes: the counter afterwards, and the code lines; both
    texts are made of whole lines. *)
Definition sameCode (withComments without : string * nat) : Prop :=
  snd withComments = snd without
  /\ endsLine (fst withComments)
  /\ endsLine (fst without)
  /\ codeLines (fst withComments) = codeLines (fst without).

(** The names of all nodes of a forest are single lines. *)
Fixpoint namesSingleLine (node : LvglNode) : bool :=
  singleLine (name node)
  && (fix each (cs : list LvglNode) : bool :=
        match cs with
        | [] => true
        | c :: cs' => namesSingleLine c && each cs'
        end) (children node).

(** Sample data *)

Definition sample_stamp (n : nat) : string := "1700000000000_r" ++ ofNat n.

Definition sample_label : LvglNode :=
  mkNode "t" "lv_label" "title" [("text", JStr "Hi")] [].

Definition sample_panel : LvglNode :=
  mkNode "p" "lv_obj" "panel" [] [sample_label].

Definition sample_gauge : LvglNode :=
  mkNode "g" "lv_gauge" "gauge" [("x", JNum 5); ("value", JNum 40)] [sample_label].

(** Documents.  Attribute values are written between single quotes, which
    XML allows as well as double quotes. *)

Definition blank_doc : string := "  " ++ nl ++ " ".

Definition truncated_doc : string := "<lvgl version='1.0'><label id='t' name=".

(** Two root elements: not a well-formed document. *)
Definition two_roots_doc : string :=
  "<lvgl version='1.0'><label id='t' name='title'/></lvgl><stray/>".

Definition switch_doc : string :=
  "<lvgl version='1.0'><switch id='s' name='sw' checked='true' width='120'/></lvgl>".

Definition two_labels_doc : string :=
  "<lvgl version='1.0'><label id='a' text='A'/><label id='b' text='B'/></lvgl>".

Definition mixed_doc : string :=
  "<lvgl version='1.0'><lv_label id='a' name='first'/><btn id='b' name='ok'/>"
  ++ "<label id='c' name='second'/></lvgl>".

(** A label whose text is the four characters [&lt;]. *)
Definition entity_doc : string :=
  "<lvgl version='1.0'><label id='e' name='sign' text='&amp;lt;'/></lvgl>".

Definition label_first : LvglNode := mkNode "a" "lv_label" "first" [] [].
Definition btn_ok : LvglNode := mkNode "b" "lv_btn" "ok" [] [].
Definition label_second : LvglNode := mkNode "c" "lv_label" "second" [] [].

(** [parseXmlToNodes] with the model of the library, forgetting the count of
    synthesized identifiers. *)
Definition parseWithModel (xmlContent : string) : list LvglNode :=
  fst (parseXmlToNodes sample_stamp FastXml.parse xmlContent 0).

(** ** More of the registry ([lvglComponents.ts]) *)





(** ** The editor provider ([lvglEditorProvider.ts]) *)

(** [[a-zA-Z0-9_]] *)
Definition isWordChar (c : ascii) : bool :=
  let n := nat_of_ascii c in
  ((97 <=? n) && (n <=? 122) || (65 <=? n) && (n <=? 90)
   || (48 <=? n) && (n <=? 57) || (n =? 95))%nat.

(** [fileName.replace(/[^a-zA-Z0-9_]/g, '_')], the screen name that
    [handleGenerateCode] passes to [generateCode]. *)
Fixpoint screenNameOf (fileName : string) : string :=
  match fileName with
  | EmptyString => EmptyString
  | String c rest =>
      String (if isWordChar c then c else "_"%char) (screenNameOf rest)
  end.

(** ** The tree operations of the webview (the script of
    [lvglEditorProvider.ts]) *)


(** The body of the loop of [findNode] for one node: the node itself, then
    its children.  [None] is [null]. *)
Fixpoint findNodeFrom (nodeId : string) (node : LvglNode) {struct node}
  : option LvglNode :=
  if String.eqb (id node) nodeId then Some node
  else (fix each (cs : list LvglNode) : option LvglNode :=
          match cs with
          | [] => None
          | child :: cs' =>
              match findNodeFrom nodeId child with
              | Some found => Some found
              | None => each cs'
              end
          end) (children node).

(** [findNode(nodeId, nodeList)] *)
Fixpoint findNode (nodeId : string) (nodeList : list LvglNode)
  : option LvglNode :=
  match nodeList with
  | [] => None
  | node :: rest =>
      match findNodeFrom nodeId node with
      | Some found => Some found
      | None => findNode nodeId rest
      end
  end.

(** [deleteNode(nodeId, node.children)] for one node: the node with the
    children the call leaves, and the boolean the call returns. *)
Fixpoint deleteNodeUnder (nodeId : string) (node : LvglNode) {struct node}
  : LvglNode * bool :=
  let '(kids, deleted) :=
    (fix each (cs : list LvglNode) : list LvglNode * bool :=
       match cs with
       | [] => ([], false)
       | child :: cs' =>
           if String.eqb (id child) nodeId then (cs', true)
           else
             let '(child', deleted) := deleteNodeUnder nodeId child in
             if deleted then (child' :: cs', true)
             else let '(cs'', deleted') := each cs' in (child :: cs'', deleted')
       end) (children node) in
  (mkNode (id node) (type node) (name node) (properties node) kids, deleted).

(** [deleteNode(nodeId, nodeList)]: the list the call leaves and the boolean
    it returns. *)
Fixpoint deleteNode (nodeId : string) (nodeList : list LvglNode)
  : list LvglNode * bool :=
  match nodeList with
  | [] => ([], false)
  | node :: rest =>
      if String.eqb (id node) nodeId then (rest, true)
      else
        let '(node', deleted) := deleteNodeUnder nodeId node in
        if deleted then (node' :: rest, true)
        else let '(rest', deleted') := deleteNode nodeId rest in
             (node :: rest', deleted')
  end.

(** [JSON.parse(JSON.stringify(v))]: an entry whose value is [undefined] is
    left out of an object, and [undefined] in an array becomes [null]. *)
Fixpoint jsonValue (v : JsVal) : JsVal :=
  match v with
  | JArr items =>
      JArr (map (fun x => match x with JUndef => JNull | _ => jsonValue x end)
                items)
  | JObj entries =>
      JObj ((fix each (es : list (string * JsVal)) : list (string * JsVal) :=
               match es with
               | [] => []
               | (k, JUndef) :: es' => each es'
               | (k, x) :: es' => (k, jsonValue x) :: each es'
               end) entries)
  | _ => v
  end.

(** The entries of [JSON.parse(JSON.stringify(node.properties))]. *)
Fixpoint jsonProperties (props : list (string * JsVal)) : list (string * JsVal) :=
  match props with
  | [] => []
  | (k, JUndef) :: rest => jsonProperties rest
  | (k, x) :: rest => (k, jsonValue x) :: jsonProperties rest
  end.

(** [JSON.parse(JSON.stringify(node))] *)
Fixpoint jsonNode (node : LvglNode) : LvglNode :=
  mkNode (id node) (type node) (name node) (jsonProperties (properties node))
         (map jsonNode (children node)).

(** [(v || 0) + 20]: numbers are added, texts are joined. *)
Definition plus20 (v : JsVal) : JsVal :=
  match js_or v (JNum 0) with
  | JNum z => JNum (z + 20)
  | JStr s => JStr (s ++ "20")
  | JBool true => JNum 21
  | JArr items => JStr (toStr (JArr items) ++ "20")
  | JObj entries => JStr (toStr (JObj entries) ++ "20")
  | _ => JNum 20
  end.

Section Webview.

Variable stamp : nat -> string.

(** [generateId]: [stamp n] is the text
    [Date.now() + '_' + Math.random().toString(36).slice(2, 11)] of the
    [n]-th call. *)
Definition generateId : Fresh string :=
  fun n => ("node_" ++ stamp n, S n).

(** One turn of the loop of [updateChildIds]: [child.id = generateId()],
    then [updateChildIds(child)]. *)
Fixpoint renewIds (child : LvglNode) {struct child} : Fresh LvglNode :=
  newId <- generateId ;;
  kids <- (fix each (cs : list LvglNode) : Fresh (list LvglNode) :=
             match cs with
             | [] => ret []
             | c :: cs' => c' <- renewIds c ;; cs'' <- each cs' ;; ret (c' :: cs'')
             end) (children child) ;;
  ret (mkNode newId (type child) (name child) (properties child) kids).

Fixpoint renewAll (cs : list LvglNode) : Fresh (list LvglNode) :=
  match cs with
  | [] => ret []
  | c :: cs' => c' <- renewIds c ;; cs'' <- renewAll cs' ;; ret (c' :: cs'')
  end.

(** [updateChildIds] *)
Definition updateChildIds (node : LvglNode) : Fresh LvglNode :=
  kids <- renewAll (children node) ;;
  ret (mkNode (id node) (type node) (name node) (properties node) kids).

(** The copy that the handler of the duplicate button makes of [node]. *)
Definition duplicateOf (node : LvglNode) : Fresh LvglNode :=
  let newNode := jsonNode node in
  newId <- generateId ;;
  let props :=
    assign "y" (plus20 (lookup "y" (properties node)))
      (assign "x" (plus20 (lookup "x" (properties node)))
         (properties newNode)) in
  updateChildIds
    (mkNode newId (type newNode) (name node ++ "_copy") props (children newNode)).

(** The handler of the duplicate button, on [selectedNodeId] ([None] is
    [null]) and [nodes]: what the two variables hold afterwards. *)
Definition duplicateSelected (selectedNodeId : option string)
           (nodes : list LvglNode) : Fresh (option string * list LvglNode) :=
  match selectedNodeId with
  | None => ret (selectedNodeId, nodes)
  | Some nodeId =>
      if String.eqb nodeId EmptyString then ret (selectedNodeId, nodes)
      else match findNode nodeId nodes with
           | None => ret (selectedNodeId, nodes)
           | Some node =>
               newNode <- duplicateOf node ;;
               ret (Some (id newNode), (nodes ++ [newNode])%list)
           end
  end.

End Webview.

(** The handler of the delete button. *)
Definition deleteSelected (selectedNodeId : option string)
           (nodes : list LvglNode) : option string * list LvglNode :=
  match selectedNodeId with
  | None => (selectedNodeId, nodes)
  | Some nodeId =>
      if String.eqb nodeId EmptyString then (selectedNodeId, nodes)
      else (None, fst (deleteNode nodeId nodes))
  end.

(** ** More vocabulary *)

(** The nodes of a forest in document order. *)
Fixpoint nodesOf (node : LvglNode) : list LvglNode :=
  node :: (fix each (cs : list LvglNode) : list LvglNode :=
             match cs with
             | [] => []
             | c :: cs' => (nodesOf c ++ each cs')%list
             end) (children node).

Definition nodesOfForest (forest : list LvglNode) : list LvglNode :=
  flat_map nodesOf forest.

(** A node with the identifiers of its whole subtree blanked. *)
Fixpoint withoutIds (node : LvglNode) : LvglNode :=
  mkNode EmptyString (type node) (name node) (properties node)
         (map withoutIds (children node)).



(** The number of names that code generation makes up for a node and its
    descendants: one for each node of a registered kind with an empty name
    that has no ancestor of an unregistered kind. *)
Fixpoint generatedNames (node : LvglNode) : nat :=
  match getComponentByType (type node) with
  | None => 0
  | Some _ =>
      (if String.eqb (name node) EmptyString then 1 else 0)
      + (fix each (cs : list LvglNode) : nat :=
           match cs with
           | [] => 0
           | c :: cs' => generatedNames c + each cs'
           end) (children node)
  end.

(** ** Vocabulary of the further properties *)

(** The properties that have a style setter: the keys of [styleMap]. *)
Definition styleNames : list string :=
  [ "bg_color"; "bg_opa"; "border_color"; "border_width"; "radius";
    "text_color"; "line_color"; "line_width"; "pad_top"; "pad_bottom";
    "pad_left"; "pad_right"; "pad_row"; "pad_column" ].

(** The entries that become properties: those with a key other than [id]
    and [name] and a value that is not an object, but for an entry with the
    key [__proto__], which is assigned and not stored. *)
Definition isProperty (kv : string * JsVal) : bool :=
  negb (String.eqb (fst kv) "id" || String.eqb (fst kv) "name")
  && negb (isObject (snd kv))
  && negb (String.eqb (fst kv) "__proto__").

(** A node without its children, and the nodes of a forest in document
    order, each without its children. *)
Definition withoutChildren (node : LvglNode) : LvglNode :=
  mkNode (id node) (type node) (name node) (properties node) [].

Definition headsOf (forest : list LvglNode) : list LvglNode :=
  map withoutChildren (nodesOfForest forest).

(** What [deleteNode] does to a forest: nothing, with [false], when no node
    has the identifier; otherwise, with [true], the first node in document
    order that has it goes, with its descendants, and the other nodes stay
    in their order. *)
Definition deletion (nodeId : string) (forest forest' : list LvglNode)
           (deleted : bool) : Prop :=
  (deleted = false
   /\ forest' = forest
   /\ Forall (fun n => String.eqb (id n) nodeId = false) (headsOf forest))
  \/ (deleted = true
      /\ exists pre node post,
          headsOf forest = (pre ++ headsOf [node] ++ post)%list
          /\ headsOf forest' = (pre ++ post)%list
          /\ id node = nodeId
          /\ Forall (fun n => String.eqb (id n) nodeId = false) pre).

(** [removal nodeId removed forest forest']: [removed] is the first node of
    [forest], in document order, whose identifier is [nodeId], and [forest']
    is [forest] without [removed] and its descendants.  The node is taken
    out of the list that holds it, the roots or the children of its parent;
    its ancestors have the children that are left and are otherwise as they
    were; every other node is as it was, at its place. *)
Inductive removal (nodeId : string) (removed : LvglNode)
  : list LvglNode -> list LvglNode -> Prop :=
| removal_here (rest : list LvglNode) :
    id removed = nodeId ->
    removal nodeId removed (removed :: rest) rest
| removal_under (parent : LvglNode) (kids' rest : list LvglNode) :
    String.eqb (id parent) nodeId = false ->
    removal nodeId removed (children parent) kids' ->
    removal nodeId removed (parent :: rest)
            (mkNode (id parent) (type parent) (name parent)
                    (properties parent) kids' :: rest)
| removal_later (node : LvglNode) (rest rest' : list LvglNode) :
    Forall (fun n => String.eqb (id n) nodeId = false) (nodesOf node) ->
    removal nodeId removed rest rest' ->
    removal nodeId removed (node :: rest) (node :: rest').

(** What [renewIds] and [renewAll] do: the identifiers, in document order,
    are the next values of [generateId]; everything else stays. *)
Definition renewed (stamp : nat -> string) (before after : list LvglNode)
           (n n' : nat) : Prop :=
  n' = n + length (nodesOfForest before)
  /\ map id (nodesOfForest after)
     = map (fun k => "node_" ++ stamp k) (seq n (length (nodesOfForest before)))
  /\ map withoutIds after = map withoutIds before.

(** ** The property declarations of the registry ([lvglComponents.ts]) *)

Inductive PropertyType : Type :=
  string_type | number_type | boolean_type | color_type | select_type | enum_type.

Inductive PropertyCategory : Type :=
  basic_props | style_props | layout_props | event_props.

(** [LvglProperty]; the fields are [name], [type], [default], [options],
    [min], [max] and [category], and [None] is an absent field. *)
Record LvglProperty : Type := mkProperty {
  pname : string;
  ptype : PropertyType;
  pdefault : option JsVal;
  poptions : option (list string);
  pmin : option Z;
  pmax : option Z;
  pcategory : PropertyCategory
}.

(** [commonStyleProperties] *)
Definition commonStyleProperties : list LvglProperty :=
  [ mkProperty "x" number_type (Some (JNum 0)) None None None basic_props;
    mkProperty "y" number_type (Some (JNum 0)) None None None basic_props;
    mkProperty "width" number_type (Some (JNum 100)) None None None basic_props;
    mkProperty "height" number_type (Some (JNum 50)) None None None basic_props;
    mkProperty "bg_color" color_type (Some (JStr "#ffffff")) None None None style_props;
    mkProperty "bg_opa" number_type (Some (JNum 255)) None (Some 0%Z) (Some 255%Z) style_props;
    mkProperty "border_color" color_type (Some (JStr "#000000")) None None None style_props;
    mkProperty "border_width" number_type (Some (JNum 0)) None (Some 0%Z) None style_props;
    mkProperty "radius" number_type (Some (JNum 0)) None (Some 0%Z) None style_props;
    mkProperty "pad_top" number_type (Some (JNum 0)) None None None style_props;
    mkProperty "pad_bottom" number_type (Some (JNum 0)) None None None style_props;
    mkProperty "pad_left" number_type (Some (JNum 0)) None None None style_props;
    mkProperty "pad_right" number_type (Some (JNum 0)) None None None style_props ].

(** [layoutProperties] *)
Definition layoutProperties : list LvglProperty :=
  [ mkProperty "layout" select_type (Some (JStr "none"))
      (Some ["none"; "flex"; "grid"])
      None None layout_props;
    mkProperty "flex_flow" select_type (Some (JStr "row"))
        (Some ["row"; "column"; "row_wrap"; "row_reverse"; "column_reverse"; "column_wrap"])
        None None layout_props;
    mkProperty "flex_main_place" select_type (Some (JStr "start"))
        (Some ["start"; "end"; "center"; "space_evenly"; "space_around"; "space_between"])
        None None layout_props;
    mkProperty "flex_cross_place" select_type (Some (JStr "start"))
        (Some ["start"; "end"; "center"])
        None None layout_props;
    mkProperty "flex_track_place" select_type (Some (JStr "start"))
        (Some ["start"; "end"; "center"; "space_evenly"; "space_around"; "space_between"])
        None None layout_props;
    mkProperty "pad_row" number_type (Some (JNum 0)) None (Some 0%Z) None layout_props;
    mkProperty "pad_column" number_type (Some (JNum 0)) None (Some 0%Z) None layout_props ].

(** The field [properties] of every component of [lvglComponents], by the
    field [type] of the component, in the order of the registry.  [year] is
    the value of [new Date().getFullYear()] when the module is loaded. *)
Definition componentProperties (year : Z)
  : list (string * list LvglProperty) :=
  [
    ("lv_obj",
     ([ mkProperty "name" string_type (Some (JStr "obj")) None None None basic_props ]
      ++ commonStyleProperties
      ++ layoutProperties)%list);
    ("lv_label",
     ([ mkProperty "name" string_type (Some (JStr "label")) None None None basic_props;
        mkProperty "text" string_type (Some (JStr "Label")) None None None basic_props;
        mkProperty "long_mode" select_type (Some (JStr "wrap"))
            (Some ["wrap"; "dot"; "scroll"; "scroll_circular"; "clip"])
            None None basic_props;
        mkProperty "text_color" color_type (Some (JStr "#000000")) None None None style_props ]
      ++ commonStyleProperties)%list);
    ("lv_btn",
     ([ mkProperty "name" string_type (Some (JStr "btn")) None None None basic_props ]
      ++ commonStyleProperties
      ++ layoutProperties)%list);
    ("lv_btnmatrix",
     ([ mkProperty "name" string_type (Some (JStr "btnmatrix")) None None None basic_props;
        mkProperty "map" string_type (Some (JStr "Btn1\nBtn2\nBtn3\n")) None None None basic_props;
        mkProperty "one_checked" boolean_type (Some (JBool false)) None None None basic_props ]
      ++ commonStyleProperties)%list);
    ("lv_img",
     ([ mkProperty "name" string_type (Some (JStr "img")) None None None basic_props;
        mkProperty "src" string_type (Some (JStr EmptyString)) None None None basic_props;
        mkProperty "zoom" number_type (Some (JNum 256)) None (Some 0%Z) None style_props;
        mkProperty "angle" number_type (Some (JNum 0)) None (Some 0%Z) (Some 3600%Z) style_props ]
      ++ commonStyleProperties)%list);
    ("lv_line",
     ([ mkProperty "name" string_type (Some (JStr "line")) None None None basic_props;
        mkProperty "line_color" color_type (Some (JStr "#000000")) None None None style_props;
        mkProperty "line_width" number_type (Some (JNum 1)) None (Some 1%Z) None style_props ]
      ++ commonStyleProperties)%list);
    ("lv_arc",
     ([ mkProperty "name" string_type (Some (JStr "arc")) None None None basic_props;
        mkProperty "start_angle" number_type (Some (JNum 135)) None (Some 0%Z) (Some 360%Z) basic_props;
        mkProperty "end_angle" number_type (Some (JNum 45)) None (Some 0%Z) (Some 360%Z) basic_props;
        mkProperty "bg_start_angle" number_type (Some (JNum 135)) None (Some 0%Z) (Some 360%Z) basic_props;
        mkProperty "bg_end_angle" number_type (Some (JNum 45)) None (Some 0%Z) (Some 360%Z) basic_props;
        mkProperty "value" number_type (Some (JNum 0)) None None None basic_props;
        mkProperty "min" number_type (Some (JNum 0)) None None None basic_props;
        mkProperty "max" number_type (Some (JNum 100)) None None None basic_props;
        mkProperty "mode" select_type (Some (JStr "normal"))
            (Some ["normal"; "symmetrical"; "reverse"])
            None None basic_props ]
      ++ commonStyleProperties)%list);
    ("lv_bar",
     ([ mkProperty "name" string_type (Some (JStr "bar")) None None None basic_props;
        mkProperty "value" number_type (Some (JNum 0)) None None None basic_props;
        mkProperty "min" number_type (Some (JNum 0)) None None None basic_props;
        mkProperty "max" number_type (Some (JNum 100)) None None None basic_props;
        mkProperty "mode" select_type (Some (JStr "normal"))
            (Some ["normal"; "symmetrical"; "range"])
            None None basic_props ]
      ++ commonStyleProperties)%list);
    ("lv_slider",
     ([ mkProperty "name" string_type (Some (JStr "slider")) None None None basic_props;
        mkProperty "value" number_type (Some (JNum 0)) None None None basic_props;
        mkProperty "min" number_type (Some (JNum 0)) None None None basic_props;
        mkProperty "max" number_type (Some (JNum 100)) None None None basic_props;
        mkProperty "mode" select_type (Some (JStr "normal"))
            (Some ["normal"; "symmetrical"; "range"])
            None None basic_props ]
      ++ commonStyleProperties)%list);
    ("lv_switch",
     ([ mkProperty "name" string_type (Some (JStr "sw")) None None None basic_props;
        mkProperty "checked" boolean_type (Some (JBool false)) None None None basic_props ]
      ++ commonStyleProperties)%list);
    ("lv_checkbox",
     ([ mkProperty "name" string_type (Some (JStr "cb")) None None None basic_props;
        mkProperty "text" string_type (Some (JStr "Checkbox")) None None None basic_props;
        mkProperty "checked" boolean_type (Some (JBool false)) None None None basic_props ]
      ++ commonStyleProperties)%list);
    ("lv_dropdown",
     ([ mkProperty "name" string_type (Some (JStr "dropdown")) None None None basic_props;
        mkProperty "options" string_type (Some (JStr "Option 1\nOption 2\nOption 3")) None None None basic_props;
        mkProperty "selected" number_type (Some (JNum 0)) None (Some 0%Z) None basic_props;
        mkProperty "dir" select_type (Some (JStr "bottom"))
            (Some ["bottom"; "top"; "left"; "right"])
            None None basic_props ]
      ++ commonStyleProperties)%list);
    ("lv_roller",
     ([ mkProperty "name" string_type (Some (JStr "roller")) None None None basic_props;
        mkProperty "options" string_type (Some (JStr "Option 1\nOption 2\nOption 3")) None None None basic_props;
        mkProperty "selected" number_type (Some (JNum 0)) None (Some 0%Z) None basic_props;
        mkProperty "visible_row_count" number_type (Some (JNum 3)) None (Some 1%Z) None basic_props;
        mkProperty "mode" select_type (Some (JStr "normal"))
            (Some ["normal"; "infinite"])
            None None basic_props ]
      ++ commonStyleProperties)%list);
    ("lv_textarea",
     ([ mkProperty "name" string_type (Some (JStr "ta")) None None None basic_props;
        mkProperty "text" string_type (Some (JStr EmptyString)) None None None basic_props;
        mkProperty "placeholder" string_type (Some (JStr "Type here...")) None None None basic_props;
        mkProperty "one_line" boolean_type (Some (JBool false)) None None None basic_props;
        mkProperty "password_mode" boolean_type (Some (JBool false)) None None None basic_props;
        mkProperty "max_length" number_type (Some (JNum 0)) None (Some 0%Z) None basic_props ]
      ++ commonStyleProperties)%list);
    ("lv_table",
     ([ mkProperty "name" string_type (Some (JStr "table")) None None None basic_props;
        mkProperty "row_count" number_type (Some (JNum 2)) None (Some 1%Z) None basic_props;
        mkProperty "col_count" number_type (Some (JNum 2)) None (Some 1%Z) None basic_props ]
      ++ commonStyleProperties)%list);
    ("lv_chart",
     ([ mkProperty "name" string_type (Some (JStr "chart")) None None None basic_props;
        mkProperty "type" select_type (Some (JStr "line"))
            (Some ["line"; "bar"; "scatter"])
            None None basic_props;
        mkProperty "point_count" number_type (Some (JNum 10)) None (Some 1%Z) None basic_props;
        mkProperty "range_min" number_type (Some (JNum 0)) None None None basic_props;
        mkProperty "range_max" number_type (Some (JNum 100)) None None None basic_props ]
      ++ commonStyleProperties)%list);
    ("lv_calendar",
     ([ mkProperty "name" string_type (Some (JStr "calendar")) None None None basic_props;
        mkProperty "today_year" number_type (Some (JNum year)) None None None basic_props;
        mkProperty "today_month" number_type (Some (JNum 1)) None (Some 1%Z) (Some 12%Z) basic_props;
        mkProperty "today_day" number_type (Some (JNum 1)) None (Some 1%Z) (Some 31%Z) basic_props ]
      ++ commonStyleProperties)%list);
    ("lv_keyboard",
     ([ mkProperty "name" string_type (Some (JStr "kb")) None None None basic_props;
        mkProperty "mode" select_type (Some (JStr "text_lower"))
            (Some ["text_lower"; "text_upper"; "special"; "number"])
            None None basic_props ]
      ++ commonStyleProperties)%list);
    ("lv_list",
     ([ mkProperty "name" string_type (Some (JStr "list")) None None None basic_props ]
      ++ commonStyleProperties
      ++ layoutProperties)%list);
    ("lv_msgbox",
     ([ mkProperty "name" string_type (Some (JStr "msgbox")) None None None basic_props;
        mkProperty "title" string_type (Some (JStr "Title")) None None None basic_props;
        mkProperty "text" string_type (Some (JStr "Message content")) None None None basic_props;
        mkProperty "close_button" boolean_type (Some (JBool true)) None None None basic_props ]
      ++ commonStyleProperties)%list);
    ("lv_spinbox",
     ([ mkProperty "name" string_type (Some (JStr "spinbox")) None None None basic_props;
        mkProperty "value" number_type (Some (JNum 0)) None None None basic_props;
        mkProperty "min" number_type (Some (JNum (-9999))) None None None basic_props;
        mkProperty "max" number_type (Some (JNum 9999)) None None None basic_props;
        mkProperty "step" number_type (Some (JNum 1)) None (Some 1%Z) None basic_props;
        mkProperty "digit_count" number_type (Some (JNum 5)) None (Some 1%Z) (Some 10%Z) basic_props;
        mkProperty "separator_position" number_type (Some (JNum 0)) None (Some 0%Z) None basic_props ]
      ++ commonStyleProperties)%list);
    ("lv_spinner",
     ([ mkProperty "name" string_type (Some (JStr "spinner")) None None None basic_props;
        mkProperty "time" number_type (Some (JNum 1000)) None (Some 100%Z) None basic_props;
        mkProperty "arc_length" number_type (Some (JNum 60)) None (Some 1%Z) (Some 360%Z) basic_props ]
      ++ commonStyleProperties)%list);
    ("lv_tabview",
     ([ mkProperty "name" string_type (Some (JStr "tabview")) None None None basic_props;
        mkProperty "tab_pos" select_type (Some (JStr "top"))
            (Some ["top"; "bottom"; "left"; "right"])
            None None basic_props;
        mkProperty "tab_size" number_type (Some (JNum 40)) None (Some 20%Z) None basic_props ]
      ++ commonStyleProperties)%list);
    ("lv_tileview",
     ([ mkProperty "name" string_type (Some (JStr "tileview")) None None None basic_props ]
      ++ commonStyleProperties)%list);
    ("lv_win",
     ([ mkProperty "name" string_type (Some (JStr "win")) None None None basic_props;
        mkProperty "title" string_type (Some (JStr "Window")) None None None basic_props;
        mkProperty "header_height" number_type (Some (JNum 40)) None (Some 20%Z) None basic_props ]
      ++ commonStyleProperties)%list);
    ("lv_animimg",
     ([ mkProperty "name" string_type (Some (JStr "animimg")) None None None basic_props;
        mkProperty "duration" number_type (Some (JNum 1000)) None (Some 100%Z) None basic_props;
        mkProperty "repeat_count" number_type (Some (JNum (-1))) None None None basic_props ]
      ++ commonStyleProperties)%list);
    ("lv_canvas",
     ([ mkProperty "name" string_type (Some (JStr "canvas")) None None None basic_props ]
      ++ commonStyleProperties)%list);
    ("lv_imgbtn",
     ([ mkProperty "name" string_type (Some (JStr "imgbtn")) None None None basic_props;
        mkProperty "src_left" string_type (Some (JStr EmptyString)) None None None basic_props;
        mkProperty "src_mid" string_type (Some (JStr EmptyString)) None None None basic_props;
        mkProperty "src_right" string_type (Some (JStr EmptyString)) None None None basic_props ]
      ++ commonStyleProperties)%list);
    ("lv_led",
     ([ mkProperty "name" string_type (Some (JStr "led")) None None None basic_props;
        mkProperty "brightness" number_type (Some (JNum 255)) None (Some 0%Z) (Some 255%Z) basic_props;
        mkProperty "color" color_type (Some (JStr "#00ff00")) None None None style_props ]
      ++ commonStyleProperties)%list);
    ("lv_menu",
     ([ mkProperty "name" string_type (Some (JStr "menu")) None None None basic_props;
        mkProperty "mode_header" select_type (Some (JStr "top_fixed"))
            (Some ["top_fixed"; "top_static"; "bottom_fixed"])
            None None basic_props;
        mkProperty "mode_root_back_btn" select_type (Some (JStr "enabled"))
            (Some ["enabled"; "disabled"])
            None None basic_props ]
      ++ commonStyleProperties
      ++ layoutProperties)%list);
    ("lv_scale",
     ([ mkProperty "name" string_type (Some (JStr "scale")) None None None basic_props;
        mkProperty "mode" select_type (Some (JStr "horizontal_bottom"))
            (Some ["horizontal_top"; "horizontal_bottom"; "vertical_left";
                   "vertical_right"; "round_inner"; "round_outer"])
            None None basic_props;
        mkProperty "total_tick_count" number_type (Some (JNum 11)) None (Some 2%Z) None basic_props;
        mkProperty "major_tick_every" number_type (Some (JNum 5)) None (Some 1%Z) None basic_props;
        mkProperty "range_min" number_type (Some (JNum 0)) None None None basic_props;
        mkProperty "range_max" number_type (Some (JNum 100)) None None None basic_props ]
      ++ commonStyleProperties)%list);
    ("lv_spangroup",
     ([ mkProperty "name" string_type (Some (JStr "spangroup")) None None None basic_props;
        mkProperty "align" select_type (Some (JStr "left"))
            (Some ["left"; "center"; "right"])
            None None basic_props;
        mkProperty "overflow" select_type (Some (JStr "clip"))
            (Some ["clip"; "ellipsis"])
            None None basic_props;
        mkProperty "indent" number_type (Some (JNum 0)) None (Some 0%Z) None basic_props;
        mkProperty "mode" select_type (Some (JStr "expand"))
            (Some ["expand"; "break"; "fixed"])
            None None basic_props ]
      ++ commonStyleProperties)%list);
    ("lv_colorwheel",
     ([ mkProperty "name" string_type (Some (JStr "colorwheel")) None None None basic_props;
        mkProperty "mode" select_type (Some (JStr "hue"))
            (Some ["hue"; "saturation"; "value"])
            None None basic_props;
        mkProperty "mode_fixed" boolean_type (Some (JBool false)) None None None basic_props ]
      ++ commonStyleProperties)%list);
    ("lv_meter",
     ([ mkProperty "name" string_type (Some (JStr "meter")) None None None basic_props ]
      ++ commonStyleProperties)%list) ].

(** ** Dropping a component on the canvas (the script of
    [lvglEditorProvider.ts]) *)

(** The loop of the drop handler over [draggedComponent.properties]. *)
Fixpoint copyDefaults (props : list LvglProperty)
         (properties : list (string * JsVal)) : list (string * JsVal) :=
  match props with
  | [] => properties
  | prop :: rest =>
      match pdefault prop with
      | Some value =>
          if negb (String.eqb (pname prop) "name")
          then copyDefaults rest (assign (pname prop) value properties)
          else copyDefaults rest properties
      | None => copyDefaults rest properties
      end
  end.

(** The handler of [drop] on the canvas.  [draggedComponent] holds the
    fields [type] and [properties] of the component being dragged, or [None]
    for [null]; [x] and [y] are the values of [Math.round(x)] and
    [Math.round(y)].  The result is what [selectedNodeId], [draggedComponent]
    and [nodes] hold afterwards. *)
Definition dropOnCanvas (stamp : nat -> string)
           (selectedNodeId : option string)
           (draggedComponent : option (string * list LvglProperty))
           (x y : Z) (nodes : list LvglNode)
  : Fresh (option string * option (string * list LvglProperty) * list LvglNode) :=
  match draggedComponent with
  | None => ret (selectedNodeId, draggedComponent, nodes)
  | Some (draggedType, draggedProperties) =>
      newId <- generateId stamp ;;
      let newNode :=
        mkNode newId draggedType
               (replace draggedType "lv_" EmptyString ++ "_"
                ++ ofNat (length nodes + 1))
               (copyDefaults draggedProperties
                  [("x", JNum x); ("y", JNum y);
                   ("width", JNum 100); ("height", JNum 50)])
               [] in
      ret (Some (id newNode), None, (nodes ++ [newNode])%list)
  end.

(** The defaults that the registry declares for the properties of a
    component other than its name and its geometry, in the order of the
    declarations. *)
Definition otherDefaults (props : list LvglProperty) : list (string * JsVal) :=
  flat_map (fun prop =>
              match pdefault prop with
              | Some value =>
                  if strIn (pname prop) ["name"; "x"; "y"; "width"; "height"]
                  then [] else [(pname prop, value)]
              | None => []
              end) props.

(** A text of the form [#rrggbb]. *)
Definition isHexDigit (c : ascii) : bool :=
  let n := nat_of_ascii c in
  ((48 <=? n)%nat && (n <=? 57)%nat) || ((65 <=? n)%nat && (n <=? 70)%nat)
  || ((97 <=? n)%nat && (n <=? 102)%nat).

Definition isHexColor (s : string) : bool :=
  match s with
  | String c digits =>
      Ascii.eqb c "#" && (String.length digits =? 6)%nat
      && forallb isHexDigit (list_ascii_of_string digits)
  | EmptyString => false
  end.

(** A declaration whose default is of the declared type: a number that
    [min] and [max] allow, one of the options of a select, a boolean, a text,
    or a color of the form [#rrggbb]; and that has options exactly when it
    is a select. *)
Definition defaultAgrees (prop : LvglProperty) : bool :=
  match ptype prop, pdefault prop, poptions prop with
  | number_type, Some (JNum z), None =>
      match pmin prop with Some lo => (lo <=? z)%Z | None => true end
      && match pmax prop with Some hi => (z <=? hi)%Z | None => true end
  | select_type, Some (JStr s), Some options => strIn s options
  | boolean_type, Some (JBool _), None => true
  | string_type, Some (JStr _), None => true
  | color_type, Some (JStr s), None => isHexColor s
  | _, _, _ => false
  end.

Definition firstIsName (props : list LvglProperty) : bool :=
  match props with
  | prop :: _ => String.eqb (pname prop) "name"
  | [] => false
  end.

(** ** Moving and resizing with the pointer (the script of
    [lvglEditorProvider.ts]) *)

(** [Math.round] on a rational number. *)
Definition mathRound (q : QArith_base.Q) : Z :=
  Qround.Qfloor (QArith_base.Qplus q (QArith_base.Qmake 1 2)).

(** The coordinate that the move handler of [startDrag] stores:
    [Math.round(Math.max(0, Math.min(wanted, canvasSize - elSize)))], where
    [wanted] is the value of [e.clientX - canvasRect.left - dragOffset.x]
    and the sizes are [offsetWidth] of the canvas and of the element (or the
    same with [clientY], [top], [y] and [offsetHeight]). *)
Definition draggedTo (wanted : QArith_base.Q) (canvasSize elSize : Z) : Z :=
  mathRound
    (Qminmax.Qmax (QArith_base.inject_Z 0)
       (Qminmax.Qmin wanted (QArith_base.inject_Z (canvasSize - elSize)))).

(** The size that the move handler of [startResize] stores:
    [Math.round(Math.max(20, startSize + d))], where [d] is the value of
    [e.clientX - startX] (or of [e.clientY - startY]). *)
Definition resizedTo (startSize : Z) (d : QArith_base.Q) : Z :=
  mathRound
    (Qminmax.Qmax (QArith_base.inject_Z 20)
       (QArith_base.Qplus (QArith_base.inject_Z startSize) d)).

(** * Properties *)

(** ** The embedding at work

    The scenarios of the specification, run on the embedding. *)

Example scenario_label :
  parseWithModel
    "<lvgl version='1.0'><label id='t' name='title' text='Hi'/></lvgl>"
  = [sample_label]
  /\ sourceContent (fst (generateCode [sample_label] "main" false 0))
     = "#include " ++ dquote ++ "main.h" ++ dquote ++ nl
       ++ nl
       ++ "void main_create(lv_obj_t *parent)" ++ nl
       ++ "{" ++ nl
       ++ "    lv_obj_t *title = lv_label_create(parent);" ++ nl
       ++ "    lv_obj_set_pos(title, 0, 0);" ++ nl
       ++ "    lv_obj_set_size(title, 100, 50);" ++ nl
       ++ "    lv_label_set_text(title, " ++ dquote ++ "Hi" ++ dquote ++ ");" ++ nl
       ++ nl
       ++ "}" ++ nl.
Proof. split; vm_compute; reflexivity. Qed.

Example scenario_switch :
  propertyCode "lv_switch" "sw" "    " "checked" (JBool true)
  = "    lv_obj_add_state(sw, LV_STATE_CHECKED);" ++ nl
  /\ propertyCode "lv_switch" "sw" "    " "checked" (JBool false) = EmptyString.
Proof. split; reflexivity. Qed.

Example scenario_color :
  propertyCode "lv_obj" "panel" "    " "bg_color" (JStr "#112233")
  = "    lv_obj_set_style_bg_color(panel, lv_color_hex(0x112233), LV_PART_MAIN);"
    ++ nl.
Proof. reflexivity. Qed.

Example scenario_serialize :
  nodesToXml [sample_panel]
  = "<?xml version=" ++ dquote ++ "1.0" ++ dquote
    ++ " encoding=" ++ dquote ++ "UTF-8" ++ dquote ++ "?>" ++ nl
    ++ "<lvgl version=" ++ dquote ++ "1.0" ++ dquote ++ ">" ++ nl
    ++ "  <obj id=" ++ dquote ++ "p" ++ dquote
    ++ " name=" ++ dquote ++ "panel" ++ dquote ++ ">" ++ nl
    ++ "    <label id=" ++ dquote ++ "t" ++ dquote
    ++ " name=" ++ dquote ++ "title" ++ dquote
    ++ " text=" ++ dquote ++ "Hi" ++ dquote ++ "/>" ++ nl
    ++ "  </obj>" ++ nl
    ++ "</lvgl>" ++ nl.
Proof. vm_compute. reflexivity. Qed.

Example scenario_synthesized_id :
  parseWithModel "<lvgl version='1.0'><btn width='80'><label text='Go'/></btn></lvgl>"
  = [ mkNode "btn_1700000000000_r0" "lv_btn" "btn" [("width", JStr "80")]
        [ mkNode "label_1700000000000_r1" "lv_label" "label"
            [("text", JStr "Go")] [] ] ].
Proof. vm_compute. reflexivity. Qed.

(** ** Strings *)

Lemma append_nil_r (s : string) : s ++ EmptyString = s.
Proof. induction s as [|c s IH]; simpl; [reflexivity | now rewrite IH]. Qed.

Lemma append_assoc (a b c : string) : (a ++ b) ++ c = a ++ (b ++ c).
Proof. induction a as [|x a IH]; simpl; [reflexivity | now rewrite IH]. Qed.

(** ** The generator, one node at a time *)

Lemma node_ind' (P : LvglNode -> Prop) :
  (forall i t n p cs, Forall P cs -> P (mkNode i t n p cs)) ->
  forall node, P node.
Proof.
  intros H. fix IH 1. intros [i t n p cs]. apply H.
  induction cs as [|c cs IHcs]; constructor; [apply IH | exact IHcs].
Qed.

Lemma generateComponentCode_unfold node parentVar indent gc counter :
  generateComponentCode node parentVar indent gc counter =
  match getComponentByType (type node) with
  | None => (indent ++ "// Unknown component type: " ++ type node ++ nl, counter)
  | Some componentDef =>
      let '(varName, counter1) := chooseVarName node counter in
      generateChildren (children node) varName indent gc
        (ownStatements node componentDef varName parentVar indent gc ++ nl)
        counter1
  end.
Proof.
  destruct node as [i t n p cs]; simpl.
  destruct (getComponentByType t) as [def|]; [|reflexivity].
  destruct (chooseVarName _ _) as [v c1].
  unfold ownStatements; simpl.
  rewrite !append_assoc.
  generalize (createComment gc indent def v ++
              createStatement indent v parentVar def ++
              geometryStatements indent v p ++
              propertiesCode t v indent p ++ nl) as code.
  revert c1. induction cs as [|c cs IH]; intros c1 code; simpl; [reflexivity|].
  destruct (generateComponentCode c v indent gc c1) as [cc c']. apply IH.
Qed.

Lemma generateChildren_acc cs varName indent gc code counter :
  generateChildren cs varName indent gc code counter =
  (code ++ fst (generateChildren cs varName indent gc EmptyString counter),
   snd (generateChildren cs varName indent gc EmptyString counter)).
Proof.
  revert code counter. induction cs as [|c cs IH]; intros code counter; simpl.
  - now rewrite append_nil_r.
  - destruct (generateComponentCode c varName indent gc counter) as [cc c'].
    rewrite (IH (code ++ cc)), (IH cc). simpl. now rewrite append_assoc.
Qed.

(** ** Lines *)

Lemma splitLines_nonempty (s : string) : splitLines s <> [].
Proof.
  destruct s as [|c s]; simpl; [discriminate|].
  destruct (Ascii.eqb c (ascii_of_nat 10)); [discriminate|].
  destruct (splitLines s); discriminate.
Qed.

Lemma splitLines_append (a b : string) :
  splitLines (a ++ nl ++ b) = (splitLines a ++ splitLines b)%list.
Proof.
  induction a as [|c a IH]; simpl.
  - reflexivity.
  - destruct (Ascii.eqb c (ascii_of_nat 10)).
    + simpl. now rewrite <- IH.
    + change (String (ascii_of_nat 10) b) with (nl ++ b). rewrite IH.
      destruct (splitLines a) eqn:E; [|reflexivity].
      now destruct (splitLines_nonempty a).
Qed.

Lemma splitLines_single (a : string) :
  singleLine a = true -> splitLines a = [a].
Proof.
  induction a as [|c a IH]; simpl; [reflexivity|].
  destruct (Ascii.eqb c (ascii_of_nat 10)); simpl; [discriminate|].
  intros H. now rewrite (IH H).
Qed.

Lemma singleLine_append (a b : string) :
  singleLine (a ++ b) = singleLine a && singleLine b.
Proof.
  induction a as [|c a IH]; simpl; [reflexivity|].
  now rewrite IH, andb_assoc.
Qed.

(** ** Unknown component types *)

(** C5.  A node whose type is not in the registry yields the comment line
    that names the type and nothing else: the text does not depend on the
    properties and the children of the node, the counter is left as it was,
    and among the children of a parent the node contributes that line only.
    When the type and the indentation hold no line break the text is one
    line. *)
Theorem unknown_type_emits_one_comment_line
        (node : LvglNode) (parentVar indent : string) (gc : bool) (counter : nat) :
  getComponentByType (type node) = None ->
  generateComponentCode node parentVar indent gc counter
  = (indent ++ "// Unknown component type: " ++ type node ++ nl, counter)
  /\ (forall siblings code,
         generateChildren (node :: siblings) parentVar indent gc code counter
         = generateChildren siblings parentVar indent gc
             (code ++ indent ++ "// Unknown component type: " ++ type node ++ nl)
             counter)
  /\ (singleLine indent = true -> singleLine (type node) = true ->
      splitLines (fst (generateComponentCode node parentVar indent gc counter))
      = [indent ++ "// Unknown component type: " ++ type node; EmptyString]).
Proof.
  intros Hunknown.
  assert (E : generateComponentCode node parentVar indent gc counter
              = (indent ++ "// Unknown component type: " ++ type node ++ nl,
                 counter)).
  { rewrite generateComponentCode_unfold, Hunknown. reflexivity. }
  split; [exact E|]. split.
  - intros siblings code. simpl. rewrite E. reflexivity.
  - intros Hi Ht. rewrite E. cbn [fst].
    assert (L : indent ++ "// Unknown component type: " ++ type node ++ nl
                = (indent ++ "// Unknown component type: " ++ type node)
                    ++ nl ++ EmptyString).
    { rewrite !append_assoc. reflexivity. }
    rewrite L, splitLines_append, splitLines_single; [reflexivity|].
    rewrite !singleLine_append, Hi, Ht. reflexivity.
Qed.

Lemma unknown_type_emits_one_comment_line_witness :
  getComponentByType (type sample_gauge) = None
  /\ generateComponentCode sample_gauge "parent" "    " true 3
     = ("    // Unknown component type: lv_gauge" ++ nl, 3).
Proof.
  split; [reflexivity|].
  apply (unknown_type_emits_one_comment_line sample_gauge "parent" "    " true 3).
  reflexivity.
Defined.

(** ** The counter *)

Lemma generateComponentCode_known node def parentVar indent gc counter :
  getComponentByType (type node) = Some def ->
  generateComponentCode node parentVar indent gc counter =
  (ownStatements node def (fst (chooseVarName node counter)) parentVar indent gc
   ++ nl
   ++ fst (generateChildren (children node) (fst (chooseVarName node counter))
             indent gc EmptyString (snd (chooseVarName node counter))),
   snd (generateChildren (children node) (fst (chooseVarName node counter))
          indent gc EmptyString (snd (chooseVarName node counter)))).
Proof.
  intros Hdef. rewrite generateComponentCode_unfold, Hdef.
  destruct (chooseVarName node counter) as [v c1]. simpl fst. simpl snd.
  rewrite generateChildren_acc. now rewrite append_assoc.
Qed.

Lemma generateRoots_acc rootNodes indent gc code counter :
  generateRoots rootNodes indent gc code counter
  = (code ++ fst (generateRoots rootNodes indent gc EmptyString counter),
     snd (generateRoots rootNodes indent gc EmptyString counter)).
Proof.
  revert code counter.
  induction rootNodes as [|node rest IH]; intros code counter; simpl.
  - now rewrite append_nil_r.
  - destruct (generateComponentCode node "parent" indent gc counter) as [cc c'].
    rewrite (IH (code ++ cc)), (IH cc). simpl. now rewrite append_assoc.
Qed.

(** C6.  [generateCode] sets the counter to zero before anything else.
    Whatever value the counter has when the call starts, the header is the
    header of the screen, the source is the prolog, the text of the root
    nodes generated from the counter 0 and the epilog, and the counter is
    left where that generation has left it.  So the name made up for a first
    root of a registered kind with an empty name ends with [_1], whatever
    the counter was; and a second call with the same arguments, started from
    the counter the first call has left, returns the same two files. *)
Theorem generateCode_resets_counter
        (rootNodes : list LvglNode) (screenName : string) (gc : bool)
        (counter0 : nat) :
  let result := generateCode rootNodes screenName gc counter0 in
  (headerContent (fst result) = headerOf screenName gc
   /\ sourceContent (fst result)
      = sourceProlog screenName gc
        ++ fst (generateRoots rootNodes "    " gc EmptyString 0)
        ++ sourceEpilog gc
   /\ snd result = snd (generateRoots rootNodes "    " gc EmptyString 0))
  /\ (forall first rest def,
         rootNodes = first :: rest ->
         getComponentByType (type first) = Some def ->
         name first = EmptyString ->
         let varName := replace (type first) "lv_" EmptyString ++ "_1" in
         exists tail,
           sourceContent (fst result)
           = sourceProlog screenName gc
             ++ createComment gc "    " def varName
             ++ createStatement "    " varName "parent" def
             ++ tail)
  /\ fst (generateCode rootNodes screenName gc (snd result)) = fst result.
Proof.
  intros result.
  assert (E : result
              = (mkGenerated (headerOf screenName gc)
                   (sourceProlog screenName gc
                    ++ fst (generateRoots rootNodes "    " gc EmptyString 0)
                    ++ sourceEpilog gc),
                 snd (generateRoots rootNodes "    " gc EmptyString 0))).
  { unfold result, generateCode. rewrite generateRoots_acc.
    now rewrite append_assoc. }
  split; [|split].
  - rewrite E. repeat split.
  - intros first rest def -> Hdef Hname varName. rewrite E.
    cbn [fst sourceContent].
    assert (H : generateComponentCode first "parent" "    " gc 0
                = (ownStatements first def varName "parent" "    " gc ++ nl
                   ++ fst (generateChildren (children first) varName "    " gc
                             EmptyString 1),
                   snd (generateChildren (children first) varName "    " gc
                          EmptyString 1))).
    { rewrite (generateComponentCode_known _ def) by exact Hdef.
      unfold chooseVarName. rewrite Hname. reflexivity. }
    cbn [generateRoots]. rewrite H. rewrite generateRoots_acc. cbn [fst].
    unfold ownStatements. eexists. rewrite !append_assoc. reflexivity.
  - unfold generateCode. fold (generateCode rootNodes screenName gc counter0).
    fold result. rewrite E. reflexivity.
Qed.

(** ** Geometry *)

(** C7.  For every node of a registered kind the construction statement is
    followed at once by the position statement and the size statement.  The
    arguments of the two statements are the values of [x], [y], [width] and
    [height]: a key that the properties do not have gives 0, 0, 100 and 50
    in that order, and a key that has a value (other than [null] and
    [undefined]) gives that value.  So when the properties have none of the
    four keys the statements are [lv_obj_set_pos(v, 0, 0)] and
    [lv_obj_set_size(v, 100, 50)]. *)
Theorem geometry_defaults
        (node : LvglNode) (def : LvglComponent) (parentVar indent : string)
        (gc : bool) (counter : nat) :
  getComponentByType (type node) = Some def ->
  let varName := fst (chooseVarName node counter) in
  let argument (key : string) (default : Z) : string :=
    toStr (nullish (lookup key (properties node)) (JNum default)) in
  (exists rest,
      fst (generateComponentCode node parentVar indent gc counter)
      = createComment gc indent def varName
        ++ createStatement indent varName parentVar def
        ++ indent ++ "lv_obj_set_pos(" ++ varName ++ ", "
        ++ argument "x" 0%Z ++ ", " ++ argument "y" 0%Z ++ ");" ++ nl
        ++ indent ++ "lv_obj_set_size(" ++ varName ++ ", "
        ++ argument "width" 100%Z ++ ", " ++ argument "height" 50%Z ++ ");" ++ nl
        ++ rest)
  /\ (hasKey "x" (properties node) = false -> argument "x" 0%Z = "0")
  /\ (hasKey "y" (properties node) = false -> argument "y" 0%Z = "0")
  /\ (hasKey "width" (properties node) = false -> argument "width" 100%Z = "100")
  /\ (hasKey "height" (properties node) = false -> argument "height" 50%Z = "50")
  /\ (forall key default,
         lookup key (properties node) <> JUndef ->
         lookup key (properties node) <> JNull ->
         argument key default = toStr (lookup key (properties node)))
  /\ (hasKey "x" (properties node) = false ->
      hasKey "y" (properties node) = false ->
      hasKey "width" (properties node) = false ->
      hasKey "height" (properties node) = false ->
      exists rest,
        fst (generateComponentCode node parentVar indent gc counter)
        = createComment gc indent def varName
          ++ createStatement indent varName parentVar def
          ++ indent ++ "lv_obj_set_pos(" ++ varName ++ ", 0, 0);" ++ nl
          ++ indent ++ "lv_obj_set_size(" ++ varName ++ ", 100, 50);" ++ nl
          ++ rest).
Proof.
  intros Hdef varName argument.
  assert (Habsent : forall k props, hasKey k props = false -> lookup k props = JUndef).
  { intros k props. unfold hasKey.
    induction props as [|[k' v] props IH]; simpl; [reflexivity|].
    destruct (String.eqb k' k); simpl; [discriminate | exact IH]. }
  assert (Hdefault : forall k d,
             hasKey k (properties node) = false -> argument k d = toStr (JNum d)).
  { intros k d H. unfold argument. now rewrite (Habsent _ _ H). }
  assert (Htext : exists rest,
      fst (generateComponentCode node parentVar indent gc counter)
      = createComment gc indent def varName
        ++ createStatement indent varName parentVar def
        ++ indent ++ "lv_obj_set_pos(" ++ varName ++ ", "
        ++ argument "x" 0%Z ++ ", " ++ argument "y" 0%Z ++ ");" ++ nl
        ++ indent ++ "lv_obj_set_size(" ++ varName ++ ", "
        ++ argument "width" 100%Z ++ ", " ++ argument "height" 50%Z ++ ");" ++ nl
        ++ rest).
  { rewrite (generateComponentCode_known _ def) by exact Hdef.
    cbn [fst]. fold varName. unfold ownStatements, geometryStatements.
    fold (argument "x" 0%Z) (argument "y" 0%Z)
         (argument "width" 100%Z) (argument "height" 50%Z).
    eexists. rewrite !append_assoc. reflexivity. }
  split; [exact Htext|].
  split; [intros H; exact (Hdefault "x" 0%Z H)|].
  split; [intros H; exact (Hdefault "y" 0%Z H)|].
  split; [intros H; exact (Hdefault "width" 100%Z H)|].
  split; [intros H; exact (Hdefault "height" 50%Z H)|].
  split.
  - intros key d Hu Hn. unfold argument.
    destruct (lookup key (properties node)); try reflexivity; contradiction.
  - intros Hx Hy Hw Hh. destruct Htext as [rest Htext].
    rewrite (Hdefault "x" 0%Z Hx), (Hdefault "y" 0%Z Hy),
      (Hdefault "width" 100%Z Hw), (Hdefault "height" 50%Z Hh) in Htext.
    exists rest. exact Htext.
Qed.

Lemma geometry_defaults_witness :
  exists rest,
    fst (generateComponentCode
           (mkNode "s" "lv_slider" "vol" [("x", JNum 5); ("value", JNum 40)] [])
           "parent" "    " false 0)
    = "    lv_obj_t *vol = lv_slider_create(parent);" ++ nl
      ++ "    lv_obj_set_pos(vol, 5, 0);" ++ nl
      ++ "    lv_obj_set_size(vol, 100, 50);" ++ nl
      ++ rest.
Proof.
  exact (proj1 (geometry_defaults
                  (mkNode "s" "lv_slider" "vol"
                          [("x", JNum 5); ("value", JNum 40)] [])
                  (mkComponent "lv_slider" "Slider" input false "lv_slider_create")
                  "parent" "    " false 0 eq_refl)).
Defined.

(** ** The blank line of a node *)

(** C8, as stated, fails: the blank line of [panel] stands between its own
    statements and the statements of its child [title]; the construction of
    [title] does not follow the last statement of [panel] directly, and after
    the statements of [title] comes the blank line of [title] alone. *)
Lemma blank_line_precedes_children :
  splitLines (fst (generateComponentCode sample_panel "parent" "    " false 0))
  = [ "    lv_obj_t *panel = lv_obj_create(parent);";
      "    lv_obj_set_pos(panel, 0, 0);";
      "    lv_obj_set_size(panel, 100, 50);";
      EmptyString;
      "    lv_obj_t *title = lv_label_create(panel);";
      "    lv_obj_set_pos(title, 0, 0);";
      "    lv_obj_set_size(title, 100, 50);";
      "    lv_label_set_text(title, " ++ dquote ++ "Hi" ++ dquote ++ ");";
      EmptyString;
      EmptyString ]
  /\ includes (fst (generateComponentCode sample_panel "parent" "    " false 0))
              ("    lv_obj_set_size(panel, 100, 50);" ++ nl
               ++ "    lv_obj_t *title = lv_label_create(panel);") = false
  /\ includes (fst (generateComponentCode sample_panel "parent" "    " false 0))
              ("    lv_obj_set_size(panel, 100, 50);" ++ nl ++ nl
               ++ "    lv_obj_t *title = lv_label_create(panel);") = true.
Proof. repeat split; vm_compute; reflexivity. Qed.

(** Text that ends with the semicolon of a statement and a line break. *)
Lemma statement_tail (a b : string) :
  (exists b0, b = b0 ++ ";" ++ nl) -> exists s0, a ++ b = s0 ++ ";" ++ nl.
Proof. intros [b0 ->]. exists (a ++ b0). now rewrite append_assoc. Qed.

Ltac ends_statement :=
  repeat first
    [ match goal with
      | |- exists b0, ?lit ++ nl = b0 ++ ";" ++ nl =>
          exists (substring 0 (String.length lit - 1) lit); reflexivity
      end
    | apply statement_tail ].

Lemma propertyCode_statement
      (nodeType varName indent propName : string) (value : JsVal) :
  propertyCode nodeType varName indent propName value = EmptyString
  \/ exists body,
      propertyCode nodeType varName indent propName value = body ++ ";" ++ nl.
Proof.
  unfold propertyCode.
  repeat match goal with
         | |- context [if ?c then _ else _] => destruct c
         end;
    rewrite ?append_nil_r;
    first [ left; reflexivity | right; ends_statement ].
Qed.

Lemma propertiesCode_statement
      (nodeType varName indent : string) (props : list (string * JsVal)) :
  propertiesCode nodeType varName indent props = EmptyString
  \/ exists body,
      propertiesCode nodeType varName indent props = body ++ ";" ++ nl.
Proof.
  induction props as [|[k v] props IH]; cbn [propertiesCode]; [now left|].
  destruct IH as [->|IH].
  - rewrite append_nil_r. apply propertyCode_statement.
  - right. now apply statement_tail.
Qed.

Lemma ownStatements_statement
      (node : LvglNode) (def : LvglComponent)
      (varName parentVar indent : string) (gc : bool) :
  exists body,
    ownStatements node def varName parentVar indent gc = body ++ ";" ++ nl.
Proof.
  unfold ownStatements.
  destruct (propertiesCode_statement (type node) varName indent (properties node))
    as [->|H].
  - rewrite append_nil_r. unfold geometryStatements. ends_statement.
  - now do 3 apply statement_tail.
Qed.

Lemma generateChildren_head (child : LvglNode) (rest : list LvglNode)
      (varName indent : string) (gc : bool) (counter : nat) :
  exists c t,
    fst (generateChildren (child :: rest) varName indent gc EmptyString counter)
    = indent ++ String c t
    /\ isSpace c = false.
Proof.
  cbn [generateChildren]. rewrite generateComponentCode_unfold.
  destruct (getComponentByType (type child)) as [def|].
  - destruct (chooseVarName child counter) as [v c1].
    rewrite generateChildren_acc. cbn [fst append].
    rewrite generateChildren_acc. cbn [fst].
    unfold ownStatements, createComment, createStatement.
    destruct gc.
    + exists "/"%char. eexists. split; [|reflexivity].
      rewrite !append_assoc. reflexivity.
    + exists "l"%char. eexists. split; [|reflexivity].
      cbn [append]. rewrite !append_assoc. reflexivity.
  - rewrite generateChildren_acc. cbn [fst append].
    exists "/"%char. eexists. split; [|reflexivity].
    rewrite !append_assoc. reflexivity.
Qed.

(** C8, amended.  The text of a node of a registered kind is its own
    statements, then one blank line, then the text of its children in order,
    and nothing after it.  The own statements end with the semicolon of the
    last of them and a line break, so the line break that follows them is an
    empty line; the text of the children is empty when there is none, and
    otherwise it starts with the indentation and a character that is not
    white space, the first of the comment or of the statement that heads the
    first child: the blank line separates the node's own statements from
    the statements of its first child (or from whatever follows the node,
    when it has no child). *)
Theorem blank_line_follows_own_statements
        (node : LvglNode) (def : LvglComponent) (parentVar indent : string)
        (gc : bool) (counter : nat) :
  getComponentByType (type node) = Some def ->
  let varName := fst (chooseVarName node counter) in
  let counter1 := snd (chooseVarName node counter) in
  let own := ownStatements node def varName parentVar indent gc in
  let kids :=
    fst (generateChildren (children node) varName indent gc EmptyString counter1) in
  fst (generateComponentCode node parentVar indent gc counter)
  = own ++ nl ++ kids
  /\ (exists body, own = body ++ ";" ++ nl)
  /\ (children node = [] -> kids = EmptyString)
  /\ (children node <> [] ->
      exists c t, kids = indent ++ String c t /\ isSpace c = false).
Proof.
  intros Hdef varName counter1 own kids.
  split; [|split; [|split]].
  - now rewrite (generateComponentCode_known _ def) by exact Hdef.
  - apply ownStatements_statement.
  - intros H. unfold kids. rewrite H. reflexivity.
  - intros H. unfold kids. destruct (children node) as [|child rest];
      [contradiction|]. apply generateChildren_head.
Qed.

Lemma blank_line_follows_own_statements_witness :
  fst (generateComponentCode sample_panel "parent" "    " false 0)
  = ("    lv_obj_t *panel = lv_obj_create(parent);" ++ nl
     ++ "    lv_obj_set_pos(panel, 0, 0);" ++ nl
     ++ "    lv_obj_set_size(panel, 100, 50);" ++ nl)
    ++ nl
    ++ fst (generateChildren [sample_label] "panel" "    " false EmptyString 0).
Proof.
  exact (proj1 (blank_line_follows_own_statements sample_panel
                  (mkComponent "lv_obj" "Object" basic true "lv_obj_create")
                  "parent" "    " false 0 eq_refl)).
Defined.

(** ** The comments flag *)

(** C10, as stated, fails: a comment block is followed (or preceded) by a
    blank line that goes with it, so deleting the comment lines of the header
    generated with comments does not give the header generated without. *)
Lemma comments_flag_adds_blank_lines :
  withoutComments (headerContent (fst (generateCode [] "main" true 0)))
  = [ EmptyString;
      "#ifndef MAIN_H";
      "#define MAIN_H";
      EmptyString;
      "#include " ++ dquote ++ "lvgl.h" ++ dquote;
      EmptyString;
      EmptyString;
      "void main_create(lv_obj_t *parent);";
      EmptyString;
      "#endif /* MAIN_H */";
      EmptyString ]
  /\ splitLines (headerContent (fst (generateCode [] "main" false 0)))
     = [ "#ifndef MAIN_H";
         "#define MAIN_H";
         EmptyString;
         "#include " ++ dquote ++ "lvgl.h" ++ dquote;
         EmptyString;
         "void main_create(lv_obj_t *parent);";
         EmptyString;
         "#endif /* MAIN_H */";
         EmptyString ]
  /\ withoutComments (headerContent (fst (generateCode [] "main" true 0)))
     <> splitLines (headerContent (fst (generateCode [] "main" false 0))).
Proof.
  split; [vm_compute; reflexivity|].
  split; [vm_compute; reflexivity|].
  vm_compute. discriminate.
Qed.

Lemma endsLine_append (a b : string) :
  endsLine a -> endsLine b -> endsLine (a ++ b).
Proof.
  intros Ha [->|[b0 ->]].
  - now rewrite append_nil_r.
  - right. exists (a ++ b0). now rewrite append_assoc.
Qed.

Lemma endsLine_tail (a b : string) :
  (exists b0, b = b0 ++ nl) -> exists s0, a ++ b = s0 ++ nl.
Proof. intros [b0 ->]. exists (a ++ b0). now rewrite append_assoc. Qed.

Ltac ends_line :=
  repeat first [ now (exists EmptyString)
               | (eexists; reflexivity)
               | apply endsLine_tail ].

Lemma splitLines_piece (a b : string) :
  singleLine a = true -> splitLines (a ++ b) = joinFirst a (splitLines b).
Proof.
  induction a as [|c a IH]; simpl.
  - intros _. destruct (splitLines b) eqn:E; [|reflexivity].
    now destruct (splitLines_nonempty b).
  - destruct (Ascii.eqb c (ascii_of_nat 10)); simpl; [discriminate|].
    intros H. rewrite (IH H). destruct (splitLines b); reflexivity.
Qed.

Lemma splitLines_nl (b : string) :
  splitLines (nl ++ b) = EmptyString :: splitLines b.
Proof. reflexivity. Qed.

Lemma codeLines_append (a b : string) :
  endsLine a -> codeLines (a ++ b) = (codeLines a ++ codeLines b)%list.
Proof.
  unfold codeLines. intros [->|[a0 ->]].
  - reflexivity.
  - rewrite append_assoc, splitLines_append, filter_app.
    replace (a0 ++ nl) with (a0 ++ nl ++ EmptyString) by reflexivity.
    rewrite splitLines_append, filter_app. simpl. now rewrite app_nil_r.
Qed.

Lemma upper_ascii_newline (c : ascii) :
  Ascii.eqb (upper_ascii c) (ascii_of_nat 10) = Ascii.eqb c (ascii_of_nat 10).
Proof. destruct c as [[] [] [] [] [] [] [] []]; reflexivity. Qed.

Lemma lower_ascii_newline (c : ascii) :
  Ascii.eqb (lower_ascii c) (ascii_of_nat 10) = Ascii.eqb c (ascii_of_nat 10).
Proof. destruct c as [[] [] [] [] [] [] [] []]; reflexivity. Qed.

Lemma singleLine_toUpperCase (s : string) :
  singleLine (toUpperCase s) = singleLine s.
Proof.
  unfold toUpperCase. induction s as [|c s IH]; simpl; [reflexivity|].
  now rewrite upper_ascii_newline, IH.
Qed.

Lemma singleLine_toLowerCase (s : string) :
  singleLine (toLowerCase s) = singleLine s.
Proof.
  unfold toLowerCase. induction s as [|c s IH]; simpl; [reflexivity|].
  now rewrite lower_ascii_newline, IH.
Qed.

Ltac split_lines :=
  repeat first
    [ rewrite splitLines_nl
    | rewrite splitLines_piece
        by (first [ reflexivity | assumption
                  | (rewrite singleLine_toUpperCase; assumption)
                  | (rewrite singleLine_toLowerCase; assumption) ]) ].

Lemma codeLines_header (screenName : string) (gc : bool) :
  singleLine screenName = true ->
  codeLines (headerOf screenName gc)
  = [ "#ifndef " ++ toUpperCase screenName ++ "_H";
      "#define " ++ toUpperCase screenName ++ "_H";
      "#include " ++ dquote ++ "lvgl.h" ++ dquote;
      "void " ++ toLowerCase screenName ++ "_create(lv_obj_t *parent);";
      "#endif /* " ++ toUpperCase screenName ++ "_H */" ].
Proof.
  intros Hs. unfold codeLines, headerOf, whenComments.
  destruct gc; rewrite ?append_assoc; split_lines; vm_compute; reflexivity.
Qed.

Lemma codeLines_sourceProlog (screenName : string) (gc : bool) :
  singleLine screenName = true ->
  codeLines (sourceProlog screenName gc)
  = [ "#include " ++ dquote ++ toLowerCase screenName ++ ".h" ++ dquote;
      "void " ++ toLowerCase screenName ++ "_create(lv_obj_t *parent)";
      "{" ].
Proof.
  intros Hs. unfold codeLines, sourceProlog, whenComments.
  destruct gc; rewrite ?append_assoc; split_lines; vm_compute; reflexivity.
Qed.

Lemma endsLine_sourceProlog (screenName : string) (gc : bool) :
  endsLine (sourceProlog screenName gc).
Proof.
  right. unfold sourceProlog, whenComments.
  destruct gc; rewrite ?append_assoc; ends_line.
Qed.

Lemma codeLines_sourceEpilog (gc : bool) : codeLines (sourceEpilog gc) = ["}"].
Proof. destruct gc; reflexivity. Qed.

Lemma singleLine_ofNat (k : nat) : singleLine (ofNat k) = true.
Proof.
  unfold ofNat, ofZ.
  assert (U : forall d, singleLine (NilEmpty.string_of_uint d) = true).
  { induction d; simpl; auto. }
  destruct (Z.to_int (Z.of_nat k)) as [d|d]; simpl.
  - destruct d; simpl; auto; apply U.
  - destruct d; simpl; auto; apply U.
Qed.

Lemma registry_singleLine (t : string) (def : LvglComponent) :
  getComponentByType t = Some def ->
  singleLine (displayName def) = true
  /\ singleLine (replace t "lv_" EmptyString) = true.
Proof.
  intros H. unfold getComponentByType, lvglComponents in H.
  cbn [find ctype] in H.
  repeat match type of H with
         | context [String.eqb ?a t] =>
             destruct (String.eqb_spec a t) as [<-|_];
             [injection H as <-; split; reflexivity|]
         end.
  discriminate.
Qed.

Lemma singleLine_chooseVarName (node : LvglNode) (def : LvglComponent) (counter : nat) :
  getComponentByType (type node) = Some def ->
  singleLine (name node) = true ->
  singleLine (fst (chooseVarName node counter)) = true.
Proof.
  intros Hdef Hname. unfold chooseVarName.
  destruct (negb (String.eqb (name node) EmptyString)); cbn [fst]; [exact Hname|].
  destruct (registry_singleLine _ _ Hdef) as [_ Ht].
  rewrite !singleLine_append, Ht, singleLine_ofNat. reflexivity.
Qed.

Lemma codeLines_createComment (def : LvglComponent) (varName : string) :
  singleLine (displayName def) = true ->
  singleLine varName = true ->
  codeLines (createComment true "    " def varName) = [].
Proof.
  intros Hd Hv. unfold codeLines, createComment.
  split_lines. vm_compute. reflexivity.
Qed.

Lemma namesSingleLine_unfold (node : LvglNode) :
  namesSingleLine node
  = singleLine (name node) && forallb namesSingleLine (children node).
Proof.
  destruct node as [i t n p cs]. reflexivity.
Qed.

Lemma sameCode_children (cs : list LvglNode) (varName : string) :
  Forall (fun node =>
            namesSingleLine node = true ->
            forall parentVar counter,
              sameCode (generateComponentCode node parentVar "    " true counter)
                       (generateComponentCode node parentVar "    " false counter))
         cs ->
  forallb namesSingleLine cs = true ->
  forall counter,
    sameCode (generateChildren cs varName "    " true EmptyString counter)
             (generateChildren cs varName "    " false EmptyString counter).
Proof.
  induction 1 as [|c cs Hc _ IH]; intros Hnames counter.
  - simpl. repeat split; now left.
  - simpl in Hnames. apply andb_prop in Hnames as [Hn Hns].
    specialize (Hc Hn varName counter). specialize (IH Hns).
    simpl.
    destruct (generateComponentCode c varName "    " true counter) as [t ct].
    destruct (generateComponentCode c varName "    " false counter) as [f cf].
    destruct Hc as (Hcount & Et & Ef & Hlines). simpl in *. subst cf.
    rewrite (generateChildren_acc cs _ _ true), (generateChildren_acc cs _ _ false).
    destruct (IH ct) as (Hcount' & Et' & Ef' & Hlines').
    repeat split; simpl.
    + exact Hcount'.
    + now apply endsLine_append.
    + now apply endsLine_append.
    + rewrite !codeLines_append by assumption. now rewrite Hlines, Hlines'.
Qed.

Lemma sameCode_node (node : LvglNode) :
  namesSingleLine node = true ->
  forall parentVar counter,
    sameCode (generateComponentCode node parentVar "    " true counter)
             (generateComponentCode node parentVar "    " false counter).
Proof.
  induction node as [i t n p cs IH] using node_ind'.
  intros Hnames parentVar counter.
  rewrite namesSingleLine_unfold in Hnames. simpl in Hnames.
  apply andb_prop in Hnames as [Hn Hcs].
  destruct (getComponentByType t) as [def|] eqn:Hdef.
  - rewrite !(generateComponentCode_known _ def) by exact Hdef.
    set (node := mkNode i t n p cs).
    set (v := fst (chooseVarName node counter)).
    set (c1 := snd (chooseVarName node counter)).
    assert (Hv : singleLine v = true)
      by (apply (singleLine_chooseVarName node def); assumption).
    destruct (registry_singleLine _ _ Hdef) as [Hd _].
    destruct (sameCode_children cs v IH Hcs c1) as (Hcount & Et & Ef & Hlines).
    unfold ownStatements. simpl children.
    set (S := createStatement "    " v parentVar def
              ++ geometryStatements "    " v (properties node)
              ++ propertiesCode (type node) v "    " (properties node)).
    assert (ES : endsLine (S ++ nl)) by (right; now exists S).
    assert (EC : endsLine (createComment true "    " def v)).
    { right. unfold createComment. ends_line. }
    set (Kt := fst (generateChildren cs v "    " true EmptyString c1)) in *.
    set (Kf := fst (generateChildren cs v "    " false EmptyString c1)) in *.
    set (C := createComment true "    " def v) in *.
    change (createComment false "    " def v) with EmptyString.
    change (EmptyString ++ S) with S.
    replace ((C ++ S) ++ nl ++ Kt) with (C ++ (S ++ nl) ++ Kt)
      by (now rewrite !append_assoc).
    replace (S ++ nl ++ Kf) with ((S ++ nl) ++ Kf)
      by (now rewrite !append_assoc).
    repeat split; cbn [fst snd].
    + exact Hcount.
    + apply endsLine_append; [exact EC | now apply endsLine_append].
    + now apply endsLine_append.
    + rewrite (codeLines_append C) by exact EC.
      unfold C. rewrite codeLines_createComment by assumption.
      rewrite !(codeLines_append (S ++ nl)) by exact ES.
      now rewrite Hlines.
  - rewrite !generateComponentCode_unfold. simpl type. rewrite Hdef.
    repeat split; try reflexivity; right; ends_line.
Qed.

Lemma generateRoots_children rootNodes indent gc code counter :
  generateRoots rootNodes indent gc code counter
  = generateChildren rootNodes "parent" indent gc code counter.
Proof.
  revert code counter.
  induction rootNodes as [|node rest IH]; intros code counter; simpl.
  - reflexivity.
  - destruct (generateComponentCode node "parent" indent gc counter). apply IH.
Qed.

(** C10, amended.  For a screen name and node names without line breaks, the
    header and the source generated with comments have the code lines of the
    header and the source generated without, in the same order, a code line
    being a line that is neither a comment line nor blank: the flag adds
    comment lines and the blank lines that go with the comment blocks, and
    nothing else. *)
Theorem comments_flag_keeps_code_lines
        (rootNodes : list LvglNode) (screenName : string) (counter0 counter0' : nat) :
  singleLine screenName = true ->
  forallb namesSingleLine rootNodes = true ->
  let withComments := fst (generateCode rootNodes screenName true counter0) in
  let without := fst (generateCode rootNodes screenName false counter0') in
  codeLines (headerContent withComments) = codeLines (headerContent without)
  /\ codeLines (sourceContent withComments) = codeLines (sourceContent without).
Proof.
  intros Hs Hnames. unfold generateCode.
  rewrite !generateRoots_children.
  rewrite (generateChildren_acc _ _ _ true (sourceProlog screenName true)).
  rewrite (generateChildren_acc _ _ _ false (sourceProlog screenName false)).
  cbn [fst snd].
  cbn [headerContent sourceContent]. split.
  - now rewrite !codeLines_header.
  - assert (HF : Forall (fun node =>
                           namesSingleLine node = true ->
                           forall parentVar counter,
                             sameCode
                               (generateComponentCode node parentVar "    " true counter)
                               (generateComponentCode node parentVar "    " false counter))
                        rootNodes).
    { apply Forall_forall. intros node _. apply sameCode_node. }
    destruct (sameCode_children rootNodes "parent" HF Hnames 0)
      as (_ & Et & Ef & Hlines).
    rewrite !append_assoc.
    rewrite !(codeLines_append (sourceProlog screenName _))
      by apply endsLine_sourceProlog.
    rewrite !codeLines_append by assumption.
    now rewrite !codeLines_sourceProlog, !codeLines_sourceEpilog, Hlines.
Qed.

Lemma comments_flag_keeps_code_lines_witness :
  codeLines (headerContent (fst (generateCode [sample_panel] "main" true 0)))
  = codeLines (headerContent (fst (generateCode [sample_panel] "main" false 0)))
  /\ codeLines (sourceContent (fst (generateCode [sample_panel] "main" true 0)))
     = codeLines (sourceContent (fst (generateCode [sample_panel] "main" false 0))).
Proof.
  exact (comments_flag_keeps_code_lines [sample_panel] "main" 0 0 eq_refl eq_refl).
Defined.

(** ** The parser *)

Lemma arrayLoop_indexed (item : string -> JsVal -> Fresh (list LvglNode))
      (i : nat) (items : list JsVal) :
  objectLoop item (indexed i items) = arrayLoop item i items.
Proof.
  revert i. induction items as [|v items IH]; intros i; simpl.
  - reflexivity.
  - now rewrite IH.
Qed.

(** The node of an item, in the words of the source: the identifier, the
    type, the name, the extracted properties, and [parseChildren(nodeItem)]
    for the children. *)
Lemma parseItem_node (stamp : nat -> string) (key : string) (item : JsVal) (n : nat) :
  isObject item = true ->
  parseItem stamp key item n
  = let '(nodeId, n1) := chooseId stamp key (getField item "id") n in
    let '(kids, n2) := parseChildren stamp item n1 in
    ([ mkNode nodeId (typeOfKey key)
         (toStr (js_or (getField item "name") (JStr key)))
         (extractProperties (entriesOf item) []) kids ], n2).
Proof.
  destruct item; try discriminate; intros _;
    cbn [parseItem getField entriesOf]; unfold bind, ret, parseChildren;
    cbn [entriesOf]; rewrite ?arrayLoop_indexed; reflexivity.
Qed.

(** C4, as stated, fails: the library does not validate the text it reads.
    [two_roots_doc] has two root elements; the library answers with an
    object that has both, and the forest holds the label. *)
Lemma malformed_markup_may_parse :
  FastXml.parseModel two_roots_doc
  = FastXml.Ok
      (JObj [ ("lvgl",
               JObj [ ("label", JObj [("id", JStr "t"); ("name", JStr "title")]);
                      ("version", JStr "1.0") ]);
              ("stray", JStr EmptyString) ])
  /\ parseWithModel two_roots_doc = [mkNode "t" "lv_label" "title" [] []]
  /\ parseWithModel two_roots_doc <> [].
Proof.
  split; [vm_compute; reflexivity|].
  split; [vm_compute; reflexivity|].
  vm_compute. discriminate.
Qed.

Lemma trimStart_head (s : string) (c : ascii) (r : string) :
  trimStart s = String c r -> isSpace c = false.
Proof.
  induction s as [|d s IH]; cbn [trimStart]; [discriminate|].
  destruct (isSpace d) eqn:E; [exact IH|]. intros [= <- _]. exact E.
Qed.

Lemma trim_blank (s : string) : trim s = EmptyString -> trimStart s = EmptyString.
Proof.
  unfold trim. destruct (trimStart s) as [|c r] eqn:E; [reflexivity|].
  apply trimStart_head in E. cbn [trimEnd]. rewrite E.
  now destruct (trimEnd r).
Qed.

(** The library, as modelled, answers a blank text with the empty object. *)
Lemma parse_blank (xmlContent : string) :
  trim xmlContent = EmptyString ->
  FastXml.parse xmlContent = Returns (JObj []).
Proof.
  intros H. apply trim_blank in H.
  unfold FastXml.parse, FastXml.parseModel. cbn [FastXml.content].
  rewrite H. reflexivity.
Qed.

(** C4, amended.  No exception leaves [parseXmlToNodes], whatever the library
    does with the text: the call completes normally, with the forest that
    [parseXmlToNodes] is here.  When the library throws, as it does on
    markup it cannot read, the block of [try] throws and the forest is empty
    (and no identifier has been synthesized).  On an empty or blank text,
    which the library answers with the empty object, the forest is
    empty. *)
Theorem parseXmlToNodes_never_throws
        (stamp : nat -> string) (xmlParse : string -> ParseResult)
        (xmlContent : string) (n : nat) :
  parseXmlToNodesCompletion stamp xmlParse xmlContent n
  = (Normal (fst (parseXmlToNodes stamp xmlParse xmlContent n)),
     snd (parseXmlToNodes stamp xmlParse xmlContent n))
  /\ (xmlParse xmlContent = Throws ->
      tryBlock stamp xmlParse xmlContent n = (Abrupt, n)
      /\ parseXmlToNodes stamp xmlParse xmlContent n = ([], n))
  /\ (trim xmlContent = EmptyString ->
      parseXmlToNodes stamp FastXml.parse xmlContent n = ([], n)).
Proof.
  split; [|split].
  - unfold parseXmlToNodesCompletion, tryCatch, tryBlock, parseXmlToNodes.
    destruct (xmlParse xmlContent) as [parsed|]; [|reflexivity].
    destruct parsed as [| |b|z|t|items|entries]; try reflexivity;
      match goal with
      | |- context [js_or ?a ?b] =>
          destruct (negb (truthy (js_or a b))); [reflexivity|];
          unfold bind, ret;
          destruct (parseChildren stamp (js_or a b) n); reflexivity
      end.
  - intros H. unfold tryBlock, parseXmlToNodes. rewrite H. now split.
  - intros H. unfold parseXmlToNodes. rewrite (parse_blank _ H). reflexivity.
Qed.

Lemma parseXmlToNodes_never_throws_witness :
  (FastXml.parseModel truncated_doc = FastXml.Thrown
   /\ parseXmlToNodes sample_stamp FastXml.parse truncated_doc 0 = ([], 0))
  /\ (trim blank_doc = EmptyString
      /\ parseXmlToNodes sample_stamp FastXml.parse blank_doc 0 = ([], 0)).
Proof.
  split; (split; [reflexivity|]).
  - apply (proj1 (proj2 (parseXmlToNodes_never_throws
                           sample_stamp FastXml.parse truncated_doc 0))).
    reflexivity.
  - apply (proj2 (proj2 (parseXmlToNodes_never_throws
                           sample_stamp FastXml.parse blank_doc 0))).
    reflexivity.
Defined.

Lemma Forall_assign (P : string * JsVal -> Prop) k v props :
  P (k, v) -> Forall P props -> Forall P (assign k v props).
Proof.
  intros Hkv Hprops. unfold assign.
  destruct (String.eqb k "__proto__"); [exact Hprops|].
  induction Hprops as [|[k' v'] props Hx Hprops IH]; simpl.
  - now constructor.
  - destruct (String.eqb k' k); constructor; assumption.
Qed.

Lemma extractProperties_verbatim (all entries props : list (string * JsVal)) :
  (forall kv, In kv entries -> In kv all) ->
  Forall (fun kv => In kv all /\ isObject (snd kv) = false) props ->
  Forall (fun kv => In kv all /\ isObject (snd kv) = false)
         (extractProperties entries props).
Proof.
  revert props. induction entries as [|[k v] entries IH]; intros props Hin Hp; simpl.
  - exact Hp.
  - assert (Hrest : forall kv, In kv entries -> In kv all)
      by (intros kv H; apply Hin; now right).
    destruct (String.eqb k "id" || String.eqb k "name"); [now apply IH|].
    destruct (isObject v) eqn:Hv; [now apply IH|].
    apply IH; [exact Hrest|]. apply Forall_assign; [|exact Hp].
    split; [apply Hin; now left | exact Hv].
Qed.

(** C2, on the code.  The parser stores every attribute value as the library
    has delivered it: each property of a node is an entry of the parsed
    object, with the value it has there.  The library, as the parser
    configures it, delivers the attribute values as strings: for the switch
    of [switch_doc] the values of [checked] and [width] are the strings
    ["true"] and ["120"], not [true] and [120], and the generator, which
    tests [value === true], emits no statement for [checked]. *)
Theorem attribute_values_are_not_coerced :
  (forall entries,
      Forall (fun kv => In kv entries /\ isObject (snd kv) = false)
             (extractProperties entries []))
  /\ parseWithModel switch_doc
     = [ mkNode "s" "lv_switch" "sw"
           [("checked", JStr "true"); ("width", JStr "120")] [] ]
  /\ includes (sourceContent
                 (fst (generateCode (parseWithModel switch_doc) "main" false 0)))
              "lv_obj_add_state" = false
  /\ includes (sourceContent
                 (fst (generateCode
                         [ mkNode "s" "lv_switch" "sw"
                             [("checked", JBool true); ("width", JNum 120)] [] ]
                         "main" false 0)))
              "lv_obj_add_state" = true.
Proof.
  split.
  - intros entries. apply extractProperties_verbatim; [auto | constructor].
  - repeat split; vm_compute; reflexivity.
Qed.

(** C1, on the code.  [mixed_doc] parses to the forest [first; ok; second].
    In the serialization of that forest the two labels share the tag [label];
    the library answers with both of them in one array under the key [label],
    ahead of the key [btn], and the parser, which walks the keys, returns
    [first; second; ok].  Besides, the serializer writes a text value with
    its quotes escaped and its ampersands as they are: the text [&lt;] of
    [entity_doc] comes back as [<]. *)
Theorem roundtrip_reorders_siblings :
  parseWithModel mixed_doc = [label_first; btn_ok; label_second]
  /\ FastXml.parseModel (nodesToXml [label_first; btn_ok; label_second])
     = FastXml.Ok
         (JObj
            [ ("?xml", JObj [("version", JStr "1.0"); ("encoding", JStr "UTF-8")]);
              ("lvgl",
               JObj
                 [ ("label",
                    JArr [ JObj [("id", JStr "a"); ("name", JStr "first")];
                           JObj [("id", JStr "c"); ("name", JStr "second")] ]);
                   ("btn", JObj [("id", JStr "b"); ("name", JStr "ok")]);
                   ("version", JStr "1.0") ]) ])
  /\ parseWithModel (nodesToXml (parseWithModel mixed_doc))
     = [label_first; label_second; btn_ok]
  /\ parseWithModel (nodesToXml (parseWithModel mixed_doc))
     <> parseWithModel mixed_doc
  /\ parseWithModel entity_doc
     = [mkNode "e" "lv_label" "sign" [("text", JStr "&lt;")] []]
  /\ parseWithModel (nodesToXml (parseWithModel entity_doc))
     = [mkNode "e" "lv_label" "sign" [("text", JStr "<")] []].
Proof.
  split; [vm_compute; reflexivity|].
  split; [vm_compute; reflexivity|].
  split; [vm_compute; reflexivity|].
  split; [vm_compute; discriminate|].
  split; vm_compute; reflexivity.
Qed.

(** C3, on the code.  Serializing the forest [first; ok; second], parsing
    the text and serializing again gives a text in which the second label
    has moved before the button. *)
Theorem serialize_parse_serialize_differs :
  nodesToXml [label_first; btn_ok; label_second]
  = "<?xml version=" ++ dquote ++ "1.0" ++ dquote
    ++ " encoding=" ++ dquote ++ "UTF-8" ++ dquote ++ "?>" ++ nl
    ++ "<lvgl version=" ++ dquote ++ "1.0" ++ dquote ++ ">" ++ nl
    ++ "  <label id=" ++ dquote ++ "a" ++ dquote
    ++ " name=" ++ dquote ++ "first" ++ dquote ++ "/>" ++ nl
    ++ "  <btn id=" ++ dquote ++ "b" ++ dquote
    ++ " name=" ++ dquote ++ "ok" ++ dquote ++ "/>" ++ nl
    ++ "  <label id=" ++ dquote ++ "c" ++ dquote
    ++ " name=" ++ dquote ++ "second" ++ dquote ++ "/>" ++ nl
    ++ "</lvgl>" ++ nl
  /\ nodesToXml (parseWithModel (nodesToXml [label_first; btn_ok; label_second]))
     = "<?xml version=" ++ dquote ++ "1.0" ++ dquote
       ++ " encoding=" ++ dquote ++ "UTF-8" ++ dquote ++ "?>" ++ nl
       ++ "<lvgl version=" ++ dquote ++ "1.0" ++ dquote ++ ">" ++ nl
       ++ "  <label id=" ++ dquote ++ "a" ++ dquote
       ++ " name=" ++ dquote ++ "first" ++ dquote ++ "/>" ++ nl
       ++ "  <label id=" ++ dquote ++ "c" ++ dquote
       ++ " name=" ++ dquote ++ "second" ++ dquote ++ "/>" ++ nl
       ++ "  <btn id=" ++ dquote ++ "b" ++ dquote
       ++ " name=" ++ dquote ++ "ok" ++ dquote ++ "/>" ++ nl
       ++ "</lvgl>" ++ nl
  /\ nodesToXml (parseWithModel (nodesToXml [label_first; btn_ok; label_second]))
     <> nodesToXml [label_first; btn_ok; label_second].
Proof.
  split; [vm_compute; reflexivity|].
  split; [vm_compute; reflexivity|].
  vm_compute. discriminate.
Qed.

(** ** Variable names *)

(** C9, as stated, fails: the two labels of [two_labels_doc] carry no [name]
    attribute, the parser names both of them [label], after their tag, and
    the generator declares both under that name; no generated name occurs. *)
Lemma parsed_siblings_share_the_tag_name :
  map name (parseWithModel two_labels_doc) = ["label"; "label"]
  /\ sourceContent
       (fst (generateCode (parseWithModel two_labels_doc) "main" false 0))
     = "#include " ++ dquote ++ "main.h" ++ dquote ++ nl
       ++ nl
       ++ "void main_create(lv_obj_t *parent)" ++ nl
       ++ "{" ++ nl
       ++ "    lv_obj_t *label = lv_label_create(parent);" ++ nl
       ++ "    lv_obj_set_pos(label, 0, 0);" ++ nl
       ++ "    lv_obj_set_size(label, 100, 50);" ++ nl
       ++ "    lv_label_set_text(label, " ++ dquote ++ "A" ++ dquote ++ ");" ++ nl
       ++ nl
       ++ "    lv_obj_t *label = lv_label_create(parent);" ++ nl
       ++ "    lv_obj_set_pos(label, 0, 0);" ++ nl
       ++ "    lv_obj_set_size(label, 100, 50);" ++ nl
       ++ "    lv_label_set_text(label, " ++ dquote ++ "B" ++ dquote ++ ");" ++ nl
       ++ nl
       ++ "}" ++ nl
  /\ includes
       (sourceContent
          (fst (generateCode (parseWithModel two_labels_doc) "main" false 0)))
       "_1" = false
  /\ includes
       (sourceContent
          (fst (generateCode (parseWithModel two_labels_doc) "main" false 0)))
       "_2" = false.
Proof. repeat split; vm_compute; reflexivity. Qed.

Lemma parseItem_object (stamp : nat -> string) (key : string)
      (entries : list (string * JsVal)) (n : nat) :
  exists nodeId kids n',
    parseItem stamp key (JObj entries) n
    = ([ mkNode nodeId (typeOfKey key)
           (toStr (js_or (lookup "name" entries) (JStr key)))
           (extractProperties entries []) kids ], n').
Proof.
  cbn [parseItem]. unfold bind, ret.
  destruct (chooseId stamp key (lookup "id" entries) n) as [nodeId n1].
  destruct (objectLoop _ entries n1) as [kids n2].
  now exists nodeId, kids, n2.
Qed.

(** C9, amended.  Two sibling elements of the same tag reach the parser as
    the array of their objects under that tag.  When neither has a [name]
    the parser gives both nodes the tag as their name, and the generator
    declares each under that name, whatever the counter is.  Generated names
    ending in [_1] and [_2], in document order, are those of two nodes whose
    name is empty: for two such childless nodes of a registered kind at the
    head of the forest, the text is the statements of the first under
    [<kind>_1], a blank line, the statements of the second under [<kind>_2],
    a blank line. *)
Theorem sibling_variable_names
        (stamp : nat -> string) (key : string)
        (entries1 entries2 : list (string * JsVal)) (n : nat)
        (def : LvglComponent) (gc : bool) :
  key <> EmptyString ->
  truthy (lookup "name" entries1) = false ->
  truthy (lookup "name" entries2) = false ->
  getComponentByType (typeOfKey key) = Some def ->
  (exists node1 node2,
      fst (valueLoop (parseItem stamp) key (JArr [JObj entries1; JObj entries2]) n)
      = [node1; node2]
      /\ name node1 = key /\ name node2 = key
      /\ forall counter,
          chooseVarName node1 counter = (key, counter)
          /\ chooseVarName node2 counter = (key, counter))
  /\ (forall id1 id2 props1 props2,
         let kind := replace (typeOfKey key) "lv_" EmptyString in
         let node1 := mkNode id1 (typeOfKey key) EmptyString props1 [] in
         let node2 := mkNode id2 (typeOfKey key) EmptyString props2 [] in
         generateRoots [node1; node2] "    " gc EmptyString 0
         = (ownStatements node1 def (kind ++ "_1") "parent" "    " gc ++ nl
            ++ ownStatements node2 def (kind ++ "_2") "parent" "    " gc ++ nl,
            2)).
Proof.
  intros Hkey Hname1 Hname2 Hdef. split.
  - destruct (parseItem_object stamp key entries1 n) as (i1 & kids1 & n1 & E1).
    destruct (parseItem_object stamp key entries2 n1) as (i2 & kids2 & n2 & E2).
    assert (Hvar : forall i t p cs counter,
               chooseVarName (mkNode i t key p cs) counter = (key, counter)).
    { intros. unfold chooseVarName. cbn [name].
      destruct (String.eqb_spec key EmptyString); [contradiction | reflexivity]. }
    unfold js_or in E1, E2. rewrite Hname1 in E1. rewrite Hname2 in E2.
    cbn [toStr] in E1, E2.
    eexists _, _. cbn [valueLoop itemsLoop]. unfold bind, ret.
    rewrite E1, E2. cbn [fst app]. repeat split; apply Hvar.
  - intros id1 id2 props1 props2 kind node1 node2.
    assert (E : forall node counter,
               type node = typeOfKey key -> name node = EmptyString ->
               children node = [] ->
               generateComponentCode node "parent" "    " gc counter
               = (ownStatements node def (kind ++ "_" ++ ofNat (S counter))
                    "parent" "    " gc ++ nl, S counter)).
    { intros node counter Ht Hn Hc.
      rewrite generateComponentCode_unfold, Ht, Hdef.
      unfold chooseVarName. rewrite Hn, Hc, Ht. reflexivity. }
    cbn [generateRoots].
    rewrite (E node1 0), (E node2 1) by reflexivity.
    change (ofNat 1) with "1". change (ofNat 2) with "2".
    cbn [append]. now rewrite !append_assoc.
Qed.

Lemma sibling_variable_names_witness :
  (exists node1 node2,
      fst (valueLoop (parseItem sample_stamp) "label"
             (JArr [ JObj [("id", JStr "a"); ("text", JStr "A")];
                     JObj [("id", JStr "b"); ("text", JStr "B")] ]) 0)
      = [node1; node2]
      /\ name node1 = "label" /\ name node2 = "label"
      /\ forall counter,
          chooseVarName node1 counter = ("label", counter)
          /\ chooseVarName node2 counter = ("label", counter))
  /\ (forall id1 id2 props1 props2,
         let kind := replace (typeOfKey "label") "lv_" EmptyString in
         let node1 := mkNode id1 (typeOfKey "label") EmptyString props1 [] in
         let node2 := mkNode id2 (typeOfKey "label") EmptyString props2 [] in
         generateRoots [node1; node2] "    " false EmptyString 0
         = (ownStatements node1
              (mkComponent "lv_label" "Label" display false "lv_label_create")
              (kind ++ "_1") "parent" "    " false ++ nl
            ++ ownStatements node2
                 (mkComponent "lv_label" "Label" display false "lv_label_create")
                 (kind ++ "_2") "parent" "    " false ++ nl,
            2)).
Proof.
  apply (sibling_variable_names sample_stamp "label"
           [("id", JStr "a"); ("text", JStr "A")]
           [("id", JStr "b"); ("text", JStr "B")] 0
           (mkComponent "lv_label" "Label" display false "lv_label_create") false).
  - discriminate.
  - reflexivity.
  - reflexivity.
  - reflexivity.
Defined.

(** * Further properties *)

(** ** String literals *)





(** ** Style properties *)

Lemma getStyleSetter_style (propName : string) :
  strIn propName styleNames = true ->
  getStyleSetter propName = "lv_obj_set_style_" ++ propName.
Proof.
  unfold getStyleSetter, styleMap, styleNames, strIn.
  cbn [tableGet existsb]. intros H.
  repeat match goal with
         | |- context [String.eqb ?a propName] =>
             destruct (String.eqb_spec a propName) as [<-|?];
             [reflexivity|]
         end.
  exfalso. revert H.
  repeat match goal with
         | |- context [String.eqb propName ?a] =>
             destruct (String.eqb_spec propName a) as [->|?];
             [congruence|]
         end.
  discriminate.
Qed.

Lemma propertyCode_style
      (nodeType varName indent propName : string) (value : JsVal) :
  strIn propName styleNames = true ->
  propertyCode nodeType varName indent propName value
  = indent ++ "lv_obj_set_style_" ++ propName ++ "(" ++ varName ++ ", "
    ++ (if includes propName "color"
        then propertyToCode propName value else toStr value)
    ++ ", LV_PART_MAIN);" ++ nl.
Proof.
  intros Hstyle.
  unfold propertyCode. rewrite (getStyleSetter_style propName Hstyle).
  assert (Hgeo : strIn propName ["x"; "y"; "width"; "height"; "name"] = false).
  { unfold styleNames, strIn in *. cbn [existsb] in *.
    repeat match goal with
           | |- context [String.eqb propName ?a] =>
               destruct (String.eqb_spec propName a) as [->|?];
               [discriminate Hstyle|]
           end.
    reflexivity. }
  rewrite Hgeo.
  destruct (includes propName "color"); rewrite ?append_assoc; reflexivity.
Qed.

Lemma propertiesCode_app (nodeType varName indent : string)
      (a b : list (string * JsVal)) :
  propertiesCode nodeType varName indent (a ++ b)
  = propertiesCode nodeType varName indent a
    ++ propertiesCode nodeType varName indent b.
Proof.
  induction a as [|[k v] a IH]; cbn [app propertiesCode]; [reflexivity|].
  now rewrite IH, append_assoc.
Qed.

(** X2.  In the text of a node of a registered kind, a property that has a
    style setter is emitted by that setter, at the place of the property
    among the properties and whatever the kind of the node is: after the
    construction, the geometry and the statements of the properties before
    it stands the setter applied to the variable of the node, the value and
    [LV_PART_MAIN], the value being converted by [propertyToCode] when the
    name of the property holds [color] and written as it is otherwise; the
    statements of the properties after it, the blank line and the text of
    the children follow. *)
Theorem style_property_statement
        (node : LvglNode) (def : LvglComponent) (parentVar indent : string)
        (gc : bool) (counter : nat)
        (before after : list (string * JsVal))
        (propName : string) (value : JsVal) :
  getComponentByType (type node) = Some def ->
  properties node = (before ++ (propName, value) :: after)%list ->
  strIn propName styleNames = true ->
  let varName := fst (chooseVarName node counter) in
  fst (generateComponentCode node parentVar indent gc counter)
  = createComment gc indent def varName
    ++ createStatement indent varName parentVar def
    ++ geometryStatements indent varName (properties node)
    ++ propertiesCode (type node) varName indent before
    ++ (indent ++ "lv_obj_set_style_" ++ propName ++ "(" ++ varName ++ ", "
        ++ (if includes propName "color"
            then propertyToCode propName value else toStr value)
        ++ ", LV_PART_MAIN);" ++ nl)
    ++ propertiesCode (type node) varName indent after
    ++ nl
    ++ fst (generateChildren (children node) varName indent gc EmptyString
              (snd (chooseVarName node counter))).
Proof.
  intros Hdef Hprops Hstyle varName.
  rewrite (generateComponentCode_known _ def) by exact Hdef.
  cbn [fst]. fold varName. unfold ownStatements.
  rewrite Hprops at 2. rewrite propertiesCode_app. cbn [propertiesCode].
  rewrite (propertyCode_style _ _ _ _ _ Hstyle).
  rewrite !append_assoc. reflexivity.
Qed.

Lemma style_property_statement_witness :
  fst (generateComponentCode
         (mkNode "b" "lv_btn" "ok"
                 [("x", JNum 4); ("radius", JNum 8); ("bg_color", JStr "#ff0000")]
                 [])
         "parent" "    " false 0)
  = "    lv_obj_t *ok = lv_btn_create(parent);" ++ nl
    ++ "    lv_obj_set_pos(ok, 4, 0);" ++ nl
    ++ "    lv_obj_set_size(ok, 100, 50);" ++ nl
    ++ "    lv_obj_set_style_radius(ok, 8, LV_PART_MAIN);" ++ nl
    ++ "    lv_obj_set_style_bg_color(ok, lv_color_hex(0xff0000), LV_PART_MAIN);"
    ++ nl ++ nl.
Proof.
  exact (style_property_statement
           (mkNode "b" "lv_btn" "ok"
                   [("x", JNum 4); ("radius", JNum 8);
                    ("bg_color", JStr "#ff0000")] [])
           (mkComponent "lv_btn" "Button" input true "lv_btn_create")
           "parent" "    " false 0
           [("x", JNum 4)] [("bg_color", JStr "#ff0000")] "radius" (JNum 8)
           eq_refl eq_refl eq_refl).
Defined.

(** ** The counter and the layout of the text *)

Lemma generatedNames_unfold (node : LvglNode) :
  generatedNames node
  = match getComponentByType (type node) with
    | None => 0
    | Some _ =>
        (if String.eqb (name node) EmptyString then 1 else 0)
        + list_sum (map generatedNames (children node))
    end.
Proof.
  destruct node as [i t n p cs]; simpl.
  destruct (getComponentByType t); [|reflexivity]. f_equal.
  induction cs as [|c cs IH]; simpl; [reflexivity | now rewrite IH].
Qed.

Lemma generateChildren_counter (cs : list LvglNode) varName indent gc code counter :
  Forall (fun node => forall parentVar counter,
              snd (generateComponentCode node parentVar indent gc counter)
              = counter + generatedNames node) cs ->
  snd (generateChildren cs varName indent gc code counter)
  = counter + list_sum (map generatedNames cs).
Proof.
  intros H. revert code counter.
  induction H as [|c cs Hc _ IH]; intros code counter; simpl.
  - lia.
  - specialize (Hc varName counter).
    destruct (generateComponentCode c varName indent gc counter) as [cc c'].
    simpl in Hc. rewrite IH, Hc. lia.
Qed.

Lemma generateComponentCode_counter node parentVar indent gc counter :
  snd (generateComponentCode node parentVar indent gc counter)
  = counter + generatedNames node.
Proof.
  revert parentVar counter.
  induction node as [i t n p cs IH] using node_ind'. intros parentVar counter.
  rewrite generateComponentCode_unfold, generatedNames_unfold. cbn [type name children].
  destruct (getComponentByType t) as [def|]; [|simpl; lia].
  unfold chooseVarName. cbn [name type].
  destruct (String.eqb n EmptyString); cbn [negb];
    rewrite generateChildren_counter by exact IH; lia.
Qed.

(** X3.  The value that [generateCode] leaves in the counter is the number
    of names it has made up: one for each node of a registered kind with an
    empty name, the descendants of a node of an unregistered kind not
    counted.  The comments flag and the screen name play no part. *)
Theorem generateCode_counts_generated_names
        (rootNodes : list LvglNode) (screenName : string) (gc : bool) (counter0 : nat) :
  snd (generateCode rootNodes screenName gc counter0)
  = list_sum (map generatedNames rootNodes).
Proof.
  unfold generateCode. rewrite generateRoots_children.
  destruct (generateChildren rootNodes "parent" "    " gc
              (sourceProlog screenName gc) 0) as [src c] eqn:E.
  cbn [snd]. change c with (snd (src, c)). rewrite <- E.
  rewrite generateChildren_counter; [reflexivity|].
  apply Forall_forall. intros node _ parentVar counter.
  apply generateComponentCode_counter.
Qed.

Lemma generateChildren_endsLine (cs : list LvglNode) varName indent gc counter :
  Forall (fun node => forall parentVar counter,
              exists t, fst (generateComponentCode node parentVar indent gc counter)
                        = t ++ nl) cs ->
  endsLine (fst (generateChildren cs varName indent gc EmptyString counter)).
Proof.
  intros H. revert counter.
  induction H as [|c cs Hc _ IH]; intros counter; simpl.
  - now left.
  - destruct (Hc varName counter) as [t Ht].
    destruct (generateComponentCode c varName indent gc counter) as [cc c'].
    simpl in Ht. subst cc. rewrite generateChildren_acc. cbn [fst].
    apply endsLine_append; [right; now exists t | apply IH].
Qed.

(** X4.  The text of a node, of any kind, is not empty and ends with a line
    break: the texts of the nodes of a forest are joined line by line. *)
Theorem generateComponentCode_ends_with_line_break
        (node : LvglNode) (parentVar indent : string) (gc : bool) (counter : nat) :
  exists t,
    fst (generateComponentCode node parentVar indent gc counter) = t ++ nl.
Proof.
  revert parentVar counter.
  induction node as [i t n p cs IH] using node_ind'. intros parentVar counter.
  destruct (getComponentByType t) as [def|] eqn:Hdef.
  - rewrite (generateComponentCode_known _ def) by exact Hdef. cbn [fst children].
    set (own := ownStatements _ _ _ _ _ _).
    set (v := fst (chooseVarName _ _)). set (c1 := snd (chooseVarName _ _)).
    destruct (generateChildren_endsLine cs v indent gc c1 IH) as [E|[k E]];
      rewrite E.
    + exists own. now rewrite append_nil_r.
    + exists (own ++ nl ++ k). now rewrite !append_assoc.
  - rewrite generateComponentCode_unfold. cbn [type]. rewrite Hdef. cbn [fst].
    eexists. rewrite <- !append_assoc. reflexivity.
Qed.

Lemma generateChildren_app (a b : list LvglNode) varName indent gc code counter :
  generateChildren (a ++ b) varName indent gc code counter
  = generateChildren b varName indent gc
      (fst (generateChildren a varName indent gc code counter))
      (snd (generateChildren a varName indent gc code counter)).
Proof.
  revert code counter. induction a as [|c a IH]; intros code counter; simpl.
  - reflexivity.
  - destruct (generateComponentCode c varName indent gc counter). apply IH.
Qed.

(** X5.  A child of a registered kind is constructed on the variable of its
    parent: wherever the child stands among the children of a node of a
    registered kind, the text of the node holds the construction statement
    of the child with the variable name of the node as its argument; the
    counter from which the child takes its own name is the counter of the
    parent advanced by the names made up for the children before it. *)
Theorem child_is_created_on_parent_variable
        (node child : LvglNode) (def childDef : LvglComponent)
        (before after : list LvglNode)
        (parentVar indent : string) (gc : bool) (counter : nat) :
  getComponentByType (type node) = Some def ->
  getComponentByType (type child) = Some childDef ->
  children node = (before ++ child :: after)%list ->
  let varName := fst (chooseVarName node counter) in
  let childCounter :=
    snd (chooseVarName node counter) + list_sum (map generatedNames before) in
  exists head tail,
    fst (generateComponentCode node parentVar indent gc counter)
    = head
      ++ createStatement indent (fst (chooseVarName child childCounter))
           varName childDef
      ++ tail.
Proof.
  intros Hdef Hchild Hkids v childCounter.
  rewrite (generateComponentCode_known _ def) by exact Hdef.
  cbn [fst]. rewrite Hkids. fold v.
  set (c1 := snd (chooseVarName node counter)) in *.
  rewrite generateChildren_app.
  set (pre := fst (generateChildren before v indent gc EmptyString c1)).
  assert (E : snd (generateChildren before v indent gc EmptyString c1)
              = childCounter).
  { apply generateChildren_counter. apply Forall_forall.
    intros n _ pv c. apply generateComponentCode_counter. }
  rewrite E. cbn [generateChildren].
  rewrite (generateComponentCode_known child childDef) by exact Hchild.
  rewrite generateChildren_acc. cbn [fst].
  unfold ownStatements at 2.
  exists (ownStatements node def v parentVar indent gc ++ nl ++ pre
          ++ createComment gc indent childDef
               (fst (chooseVarName child childCounter))).
  eexists. rewrite !append_assoc. reflexivity.
Qed.

Lemma child_is_created_on_parent_variable_witness :
  exists head tail,
    fst (generateComponentCode sample_panel "parent" "    " false 0)
    = head
      ++ createStatement "    " "title" "panel"
           (mkComponent "lv_label" "Label" display false "lv_label_create")
      ++ tail.
Proof.
  exact (child_is_created_on_parent_variable sample_panel sample_label
           (mkComponent "lv_obj" "Object" basic true "lv_obj_create")
           (mkComponent "lv_label" "Label" display false "lv_label_create")
           [] [] "parent" "    " false 0 eq_refl eq_refl eq_refl).
Defined.

(** ** What the parser builds *)

Lemma JsVal_ind' (P : JsVal -> Prop) :
  P JUndef -> P JNull -> (forall b, P (JBool b)) -> (forall z, P (JNum z)) ->
  (forall s, P (JStr s)) ->
  (forall items, Forall P items -> P (JArr items)) ->
  (forall entries, Forall (fun kv => P (snd kv)) entries -> P (JObj entries)) ->
  forall v, P v.
Proof.
  intros Hu Hn Hb Hz Hs Ha Ho. fix IH 1.
  intros [| |b|z|s|items|entries];
    [exact Hu | exact Hn | apply Hb | apply Hz | apply Hs | | ].
  - apply Ha. induction items as [|x items IHi]; constructor; [apply IH | exact IHi].
  - apply Ho. induction entries as [|[k x] entries IHe]; constructor;
      [apply IH | exact IHe].
Qed.

Lemma nodesOf_unfold (node : LvglNode) :
  nodesOf node = node :: nodesOfForest (children node).
Proof. destruct node as [i t n p cs]. reflexivity. Qed.

Lemma nodesOfForest_app (a b : list LvglNode) :
  nodesOfForest (a ++ b) = (nodesOfForest a ++ nodesOfForest b)%list.
Proof. apply flat_map_app. Qed.

Section ParserInvariant.

Variable stamp : nat -> string.

(** A property of the nodes that [parseItem] builds, whatever their
    identifiers and children are. *)
Variable W : LvglNode -> Prop.

Hypothesis W_node :
  forall key item nodeId kids,
    isObject item = true ->
    W (mkNode nodeId (typeOfKey key)
         (toStr (js_or (getField item "name") (JStr key)))
         (extractProperties (entriesOf item) []) kids).

Let good (forest : list LvglNode) : Prop := Forall W (nodesOfForest forest).

Lemma good_app a b : good a -> good b -> good (a ++ b).
Proof.
  unfold good. rewrite nodesOfForest_app. intros Ha Hb.
  apply Forall_app. now split.
Qed.

Lemma itemsLoop_good item key items n :
  Forall (fun x => forall key n, good (fst (item key x n))) items ->
  good (fst (itemsLoop item key items n)).
Proof.
  intros H. revert n. induction H as [|x items Hx _ IH]; intros n; simpl.
  - constructor.
  - unfold bind, ret. specialize (Hx key n).
    destruct (item key x n) as [a n1]. specialize (IH n1).
    destruct (itemsLoop item key items n1) as [b n2]. now apply good_app.
Qed.

Lemma objectLoop_good item entries n :
  Forall (fun kv => forall key n, good (fst (valueLoop item key (snd kv) n)))
         entries ->
  good (fst (objectLoop item entries n)).
Proof.
  intros H. revert n. induction H as [|[k v] entries Hv _ IH]; intros n; simpl.
  - constructor.
  - destruct (skippedKey k); [apply IH|].
    unfold bind, ret. specialize (Hv k n). cbn [snd] in Hv.
    destruct (valueLoop item k v n) as [a n1]. specialize (IH n1).
    destruct (objectLoop item entries n1) as [b n2]. now apply good_app.
Qed.

Lemma arrayLoop_good item i items n :
  Forall (fun x => forall key n, good (fst (valueLoop item key x n))) items ->
  good (fst (arrayLoop item i items n)).
Proof.
  intros H. revert i n. induction H as [|v items Hv _ IH]; intros i n; simpl.
  - constructor.
  - destruct (skippedKey (ofNat i)); [apply IH|].
    unfold bind, ret. specialize (Hv (ofNat i) n).
    destruct (valueLoop item (ofNat i) v n) as [a n1]. specialize (IH (S i) n1).
    destruct (arrayLoop item (S i) items n1) as [b n2]. now apply good_app.
Qed.

Lemma parseItem_good (v : JsVal) :
  (forall key n, good (fst (parseItem stamp key v n)))
  /\ (forall key n, good (fst (valueLoop (parseItem stamp) key v n))).
Proof.
  induction v as [| |b|z|s|items IH|entries IH] using JsVal_ind';
    try solve [split; intros; constructor].
  - assert (Hitem : forall key n, good (fst (parseItem stamp key (JArr items) n))).
    { intros key n. rewrite parseItem_node by reflexivity.
      destruct (chooseId stamp key _ n) as [nodeId n1].
      assert (Hk : good (fst (parseChildren stamp (JArr items) n1))).
      { unfold parseChildren. cbn [entriesOf]. rewrite arrayLoop_indexed.
        apply arrayLoop_good.
        eapply Forall_impl; [|exact IH]. intros x [_ Hx]. exact Hx. }
      destruct (parseChildren stamp (JArr items) n1) as [kids n2].
      cbn [fst] in *. unfold good. cbn [nodesOfForest flat_map].
      rewrite nodesOf_unfold, app_nil_r. constructor; [now apply W_node | exact Hk]. }
    split; [exact Hitem|].
    intros key n. cbn [valueLoop]. apply itemsLoop_good.
    eapply Forall_impl; [|exact IH]. intros x [Hx _]. exact Hx.
  - assert (Hitem : forall key n, good (fst (parseItem stamp key (JObj entries) n))).
    { intros key n. rewrite parseItem_node by reflexivity.
      destruct (chooseId stamp key _ n) as [nodeId n1].
      assert (Hk : good (fst (parseChildren stamp (JObj entries) n1))).
      { unfold parseChildren. cbn [entriesOf]. apply objectLoop_good.
        eapply Forall_impl; [|exact IH]. intros kv [_ Hx]. exact Hx. }
      destruct (parseChildren stamp (JObj entries) n1) as [kids n2].
      cbn [fst] in *. unfold good. cbn [nodesOfForest flat_map].
      rewrite nodesOf_unfold, app_nil_r. constructor; [now apply W_node | exact Hk]. }
    split; [exact Hitem|]. intros key n. cbn [valueLoop]. apply Hitem.
Qed.

Lemma parseChildren_good (parent : JsVal) (n : nat) :
  good (fst (parseChildren stamp parent n)).
Proof.
  unfold parseChildren. apply objectLoop_good.
  apply Forall_forall. intros kv _. apply parseItem_good.
Qed.

Lemma parseXmlToNodes_good xmlParse xmlContent n :
  Forall W (nodesOfForest (fst (parseXmlToNodes stamp xmlParse xmlContent n))).
Proof.
  unfold parseXmlToNodes.
  destruct (xmlParse xmlContent) as [parsed|]; [|constructor].
  destruct parsed; try constructor;
    match goal with
    | |- context [if ?b then _ else _] =>
        destruct b; [constructor | apply parseChildren_good]
    end.
Qed.

End ParserInvariant.

(** X6.  Every node of a parsed forest, at any depth, has a type that
    begins with [lv_], whatever the library has answered. *)
Theorem parsed_types_are_prefixed
        (stamp : nat -> string) (xmlParse : string -> ParseResult)
        (xmlContent : string) (n : nat) :
  Forall (fun node => startsWith (type node) "lv_" = true)
         (nodesOfForest (fst (parseXmlToNodes stamp xmlParse xmlContent n))).
Proof.
  apply parseXmlToNodes_good. intros key item nodeId kids _. cbn [type].
  unfold typeOfKey. destruct (startsWith key "lv_") eqn:E; [exact E|].
  unfold startsWith. cbn. now destruct key.
Qed.

Lemma keys_assign k v (o : list (string * JsVal)) :
  map fst (assignOwn k v o)
  = if strIn k (map fst o) then map fst o else (map fst o ++ [k])%list.
Proof.
  unfold strIn. induction o as [|[k' v'] o IH]; simpl; [reflexivity|].
  rewrite (String.eqb_sym k k').
  destruct (String.eqb_spec k' k) as [->|Hne]; simpl; [reflexivity|].
  rewrite IH. now destruct (existsb (String.eqb k) (map fst o)).
Qed.

Lemma strIn_spec k (l : list string) : strIn k l = true <-> In k l.
Proof.
  unfold strIn. rewrite existsb_exists. split.
  - intros (x & Hx & E). apply String.eqb_eq in E. now subst.
  - intros H. exists k. split; [exact H | apply String.eqb_refl].
Qed.

Lemma NoDup_assign k v (o : list (string * JsVal)) :
  NoDup (map fst o) -> NoDup (map fst (assign k v o)).
Proof.
  intros H. unfold assign.
  destruct (String.eqb k "__proto__"); [exact H|]. rewrite keys_assign.
  destruct (strIn k (map fst o)) eqn:E; [exact H|].
  apply NoDup_app; [exact H | repeat constructor; intros [] |].
  intros x Hx [<-|[]]. apply strIn_spec in Hx. congruence.
Qed.

Lemma extractProperties_keys (entries props : list (string * JsVal)) :
  NoDup (map fst props) ->
  Forall (fun kv => fst kv <> "id" /\ fst kv <> "name") props ->
  NoDup (map fst (extractProperties entries props))
  /\ Forall (fun kv => fst kv <> "id" /\ fst kv <> "name")
            (extractProperties entries props).
Proof.
  revert props. induction entries as [|[k v] entries IH]; intros props Hn Hr; simpl.
  - now split.
  - destruct (String.eqb_spec k "id") as [->|Hid]; cbn [orb]; [now apply IH|].
    destruct (String.eqb_spec k "name") as [->|Hname]; [now apply IH|].
    destruct (isObject v); [now apply IH|].
    apply IH; [now apply NoDup_assign|].
    apply Forall_assign; [now split | exact Hr].
Qed.

(** X7.  In every node of a parsed forest the property names are pairwise
    distinct, none of them is [id] or [name], and no property value is an
    object or an array. *)
Theorem parsed_properties_are_scalar_and_unreserved
        (stamp : nat -> string) (xmlParse : string -> ParseResult)
        (xmlContent : string) (n : nat) :
  Forall (fun node =>
            NoDup (map fst (properties node))
            /\ Forall (fun kv => fst kv <> "id" /\ fst kv <> "name"
                                 /\ isObject (snd kv) = false)
                      (properties node))
         (nodesOfForest (fst (parseXmlToNodes stamp xmlParse xmlContent n))).
Proof.
  apply parseXmlToNodes_good. intros key item nodeId kids _. cbn [properties].
  destruct (extractProperties_keys (entriesOf item) [])
    as [Hn Hr]; [constructor | constructor |].
  split; [exact Hn|].
  pose proof (extractProperties_verbatim (entriesOf item) (entriesOf item) []
                (fun kv H => H) (Forall_nil _)) as Hv.
  rewrite Forall_forall in *. intros kv Hin.
  destruct (Hr kv Hin) as [A B]. destruct (Hv kv Hin) as [_ C]. auto.
Qed.

Lemma assign_fresh k v (o : list (string * JsVal)) :
  String.eqb k "__proto__" = false ->
  ~ In k (map fst o) -> assign k v o = (o ++ [(k, v)])%list.
Proof.
  intros Hk. unfold assign. rewrite Hk.
  induction o as [|[k' v'] o IH]; simpl; intros H; [reflexivity|].
  destruct (String.eqb_spec k' k) as [->|Hne]; [tauto|].
  rewrite IH; tauto.
Qed.

Lemma extractProperties_filter_acc (entries props : list (string * JsVal)) :
  NoDup (map fst props ++ map fst entries) ->
  extractProperties entries props = (props ++ filter isProperty entries)%list.
Proof.
  revert props. induction entries as [|[k v] entries IH]; intros props Hn; simpl.
  - now rewrite app_nil_r.
  - assert (Hrest : NoDup (map fst props ++ map fst entries)).
    { simpl in Hn. now apply NoDup_remove_1 in Hn. }
    unfold isProperty at 1. cbn [fst snd].
    destruct (String.eqb k "id" || String.eqb k "name"); cbn [negb andb];
      [now apply IH|].
    destruct (isObject v); cbn [negb andb]; [now apply IH|].
    destruct (String.eqb k "__proto__") eqn:Hk; cbn [negb].
    { unfold assign. rewrite Hk. now apply IH. }
    assert (Hfresh : ~ In k (map fst props)).
    { simpl in Hn. apply NoDup_remove_2 in Hn. intros H. apply Hn.
      apply in_or_app. now left. }
    rewrite assign_fresh by assumption.
    rewrite IH.
    + now rewrite <- app_assoc.
    + rewrite map_app. cbn [map fst]. rewrite <- app_assoc. exact Hn.
Qed.

(** X8.  For an element whose entries, in the order [Object.entries] gives
    them, have distinct keys, as those of a JavaScript object have, the
    properties of the node are its entries other than [id], [name], the
    child elements and an entry with the key [__proto__], which the
    assignment does not store; they stand in the order of the entries and
    with their values. *)
Theorem extractProperties_keeps_order (entries : list (string * JsVal)) :
  NoDup (map fst entries) ->
  extractProperties entries [] = filter isProperty entries.
Proof. intros H. now rewrite extractProperties_filter_acc. Qed.

Lemma extractProperties_keeps_order_witness :
  extractProperties
    [ ("label", JObj [("id", JStr "t")]); ("id", JStr "p");
      ("width", JStr "200"); ("__proto__", JStr "q");
      ("name", JStr "panel"); ("x", JStr "5") ] []
  = [ ("width", JStr "200"); ("x", JStr "5") ].
Proof.
  apply (extractProperties_keeps_order
           [ ("label", JObj [("id", JStr "t")]); ("id", JStr "p");
             ("width", JStr "200"); ("__proto__", JStr "q");
             ("name", JStr "panel"); ("x", JStr "5") ]).
  repeat constructor; simpl; intuition discriminate.
Defined.

Section StampIndependence.

Variables stamp1 stamp2 : nat -> string.

Let same (a b : list LvglNode) : Prop := map withoutIds a = map withoutIds b.

Lemma same_app a a' b b' : same a a' -> same b b' -> same (a ++ b) (a' ++ b').
Proof. unfold same. intros Ha Hb. now rewrite !map_app, Ha, Hb. Qed.

Lemma itemsLoop_same item1 item2 key items n1 n2 :
  Forall (fun x => forall key n1 n2,
              same (fst (item1 key x n1)) (fst (item2 key x n2))) items ->
  same (fst (itemsLoop item1 key items n1)) (fst (itemsLoop item2 key items n2)).
Proof.
  intros H. revert n1 n2.
  induction H as [|x items Hx _ IH]; intros n1 n2; simpl; [reflexivity|].
  unfold bind, ret. specialize (Hx key n1 n2).
  destruct (item1 key x n1) as [a m1]. destruct (item2 key x n2) as [a' m2].
  specialize (IH m1 m2).
  destruct (itemsLoop item1 key items m1). destruct (itemsLoop item2 key items m2).
  now apply same_app.
Qed.

Lemma objectLoop_same item1 item2 entries n1 n2 :
  Forall (fun kv => forall key n1 n2,
              same (fst (valueLoop item1 key (snd kv) n1))
                   (fst (valueLoop item2 key (snd kv) n2))) entries ->
  same (fst (objectLoop item1 entries n1)) (fst (objectLoop item2 entries n2)).
Proof.
  intros H. revert n1 n2.
  induction H as [|[k v] entries Hv _ IH]; intros n1 n2; simpl; [reflexivity|].
  destruct (skippedKey k); [apply IH|].
  unfold bind, ret. specialize (Hv k n1 n2). cbn [snd] in Hv.
  destruct (valueLoop item1 k v n1) as [a m1].
  destruct (valueLoop item2 k v n2) as [a' m2]. specialize (IH m1 m2).
  destruct (objectLoop item1 entries m1). destruct (objectLoop item2 entries m2).
  now apply same_app.
Qed.

Lemma arrayLoop_same item1 item2 i items n1 n2 :
  Forall (fun x => forall key n1 n2,
              same (fst (valueLoop item1 key x n1))
                   (fst (valueLoop item2 key x n2))) items ->
  same (fst (arrayLoop item1 i items n1)) (fst (arrayLoop item2 i items n2)).
Proof.
  intros H. revert i n1 n2.
  induction H as [|v items Hv _ IH]; intros i n1 n2; simpl; [reflexivity|].
  destruct (skippedKey (ofNat i)); [apply IH|].
  unfold bind, ret. specialize (Hv (ofNat i) n1 n2).
  destruct (valueLoop item1 (ofNat i) v n1) as [a m1].
  destruct (valueLoop item2 (ofNat i) v n2) as [a' m2].
  specialize (IH (S i) m1 m2).
  destruct (arrayLoop item1 (S i) items m1).
  destruct (arrayLoop item2 (S i) items m2).
  now apply same_app.
Qed.

Lemma parseItem_same_node key item n1 n2 :
  isObject item = true ->
  (forall m1 m2, same (fst (parseChildren stamp1 item m1))
                      (fst (parseChildren stamp2 item m2))) ->
  same (fst (parseItem stamp1 key item n1)) (fst (parseItem stamp2 key item n2)).
Proof.
  intros Hobj Hkids. rewrite !parseItem_node by exact Hobj.
  destruct (chooseId stamp1 key _ n1) as [i1 m1].
  destruct (chooseId stamp2 key _ n2) as [i2 m2].
  specialize (Hkids m1 m2).
  destruct (parseChildren stamp1 item m1) as [k1 ?].
  destruct (parseChildren stamp2 item m2) as [k2 ?].
  unfold same in *. cbn in *. now rewrite Hkids.
Qed.

Lemma parseItem_same (v : JsVal) :
  (forall key n1 n2,
      same (fst (parseItem stamp1 key v n1)) (fst (parseItem stamp2 key v n2)))
  /\ (forall key n1 n2,
         same (fst (valueLoop (parseItem stamp1) key v n1))
              (fst (valueLoop (parseItem stamp2) key v n2))).
Proof.
  induction v as [| |b|z|s|items IH|entries IH] using JsVal_ind';
    try solve [split; intros; reflexivity].
  - split.
    + intros key n1 n2. apply parseItem_same_node; [reflexivity|].
      intros m1 m2. unfold parseChildren. cbn [entriesOf].
      rewrite !arrayLoop_indexed. apply arrayLoop_same.
      eapply Forall_impl; [|exact IH]. intros x [_ Hx]. exact Hx.
    + intros key n1 n2. cbn [valueLoop]. apply itemsLoop_same.
      eapply Forall_impl; [|exact IH]. intros x [Hx _]. exact Hx.
  - assert (Hitem : forall key n1 n2,
               same (fst (parseItem stamp1 key (JObj entries) n1))
                    (fst (parseItem stamp2 key (JObj entries) n2))).
    { intros key n1 n2. apply parseItem_same_node; [reflexivity|].
      intros m1 m2. unfold parseChildren. cbn [entriesOf].
      apply objectLoop_same.
      eapply Forall_impl; [|exact IH]. intros kv [_ Hx]. exact Hx. }
    split; [exact Hitem|]. intros key n1 n2. cbn [valueLoop]. apply Hitem.
Qed.

Lemma parseChildren_same parent n1 n2 :
  same (fst (parseChildren stamp1 parent n1)) (fst (parseChildren stamp2 parent n2)).
Proof.
  unfold parseChildren. apply objectLoop_same.
  apply Forall_forall. intros kv _. apply parseItem_same.
Qed.

End StampIndependence.

(** X9.  The clock and the random generator decide nothing but
    identifiers: two runs of the parser on the same answer of the library,
    with any two clocks and any two counts of identifiers made so far, give
    forests that are equal once the identifiers are blanked. *)
Theorem parse_depends_on_stamps_for_ids_only
        (stamp1 stamp2 : nat -> string) (xmlParse : string -> ParseResult)
        (xmlContent : string) (n1 n2 : nat) :
  map withoutIds (fst (parseXmlToNodes stamp1 xmlParse xmlContent n1))
  = map withoutIds (fst (parseXmlToNodes stamp2 xmlParse xmlContent n2)).
Proof.
  unfold parseXmlToNodes.
  destruct (xmlParse xmlContent) as [parsed|]; [|reflexivity].
  destruct parsed; try reflexivity;
    match goal with
    | |- context [if ?b then _ else _] =>
        destruct b; [reflexivity | apply parseChildren_same]
    end.
Qed.

(** ** Tags and types *)

Lemma prefix_split (p s : string) :
  String.prefix p s = true -> s = p ++ slice (String.length p) s.
Proof.
  revert s. induction p as [|a p IH]; intros s H; [reflexivity|].
  destruct s as [|b s]; [discriminate|]. simpl in H.
  destruct (ascii_dec a b) as [->|]; [|discriminate].
  simpl. f_equal. now apply IH.
Qed.

Lemma prefix_append (p s : string) : String.prefix p (p ++ s) = true.
Proof.
  induction p as [|a p IH]; simpl; [now destruct s|].
  destruct (ascii_dec a a); [exact IH | congruence].
Qed.

(** X10.  The serializer writes the tag of a node by removing the first
    [lv_] of its type and the parser makes the type of a tag by putting
    [lv_] before it unless it is there already.  For a type that begins with
    [lv_] the two agree exactly when what follows the prefix does not begin
    with [lv_] again. *)
Theorem tag_of_type_gives_type_back (t : string) :
  startsWith t "lv_" = true ->
  (typeOfKey (replace t "lv_" EmptyString) = t
   <-> startsWith (slice 3 t) "lv_" = false).
Proof.
  unfold startsWith. intros Ht.
  pose proof (prefix_split _ _ Ht) as E. cbn [String.length] in E.
  assert (Hr : replace t "lv_" EmptyString = slice 3 t).
  { destruct t as [|a t]; [discriminate|]. cbn [replace]. now rewrite Ht. }
  rewrite Hr. unfold typeOfKey, startsWith.
  destruct (String.prefix "lv_" (slice 3 t)) eqn:Hs.
  - split; [|discriminate]. intros Heq. exfalso.
    apply (f_equal String.length) in Heq. rewrite E in Heq at 2.
    cbn in Heq. lia.
  - split; [reflexivity|]. intros _. now rewrite <- E.
Qed.

Lemma tag_of_type_gives_type_back_witness :
  typeOfKey (replace "lv_label" "lv_" EmptyString) = "lv_label"
  <-> startsWith (slice 3 "lv_label") "lv_" = false.
Proof. apply (tag_of_type_gives_type_back "lv_label"). reflexivity. Defined.

(** ** Attribute values *)








(** ** The registry *)

Lemma registry_cases (P : LvglComponent -> Prop) :
  Forall P lvglComponents -> forall def, In def lvglComponents -> P def.
Proof. intros H def Hin. now apply (proj1 (Forall_forall P _) H). Qed.

(** X12.  [getComponentByType] finds a component exactly when the registry
    has a component of that type, and then it is that component: no two
    components of the registry share a type.  The constructor of every
    component is its type followed by [_create]. *)
Theorem getComponentByType_finds_the_component :
  (forall t def,
      getComponentByType t = Some def
      <-> In def lvglComponents /\ ctype def = t)
  /\ (forall def, In def lvglComponents ->
                  createCode def = ctype def ++ "_create").
Proof.
  split.
  - intros t def. split.
    + intros H. unfold getComponentByType in H.
      apply find_some in H. destruct H as [Hin E].
      apply String.eqb_eq in E. now split.
    + intros [Hin <-]. revert def Hin. apply registry_cases.
      unfold lvglComponents.
      repeat (apply Forall_cons; [vm_compute; reflexivity|]). apply Forall_nil.
  - apply registry_cases. unfold lvglComponents.
    repeat (apply Forall_cons; [vm_compute; reflexivity|]). apply Forall_nil.
Qed.




(** ** The screen name *)

Lemma isWordChar_not_newline (c : ascii) :
  isWordChar c = true -> Ascii.eqb c (ascii_of_nat 10) = false.
Proof. destruct c as [[] [] [] [] [] [] [] []]; vm_compute; congruence. Qed.

(** X14.  The screen name that [handleGenerateCode] makes of a file name has
    the length of the file name and holds letters, digits and underscores
    only, so it holds no line break; a name made of such characters is left
    as it is, and making the screen name of a screen name changes
    nothing. *)
Theorem screenNameOf_is_made_of_word_characters (fileName : string) :
  Forall (fun c => isWordChar c = true)
         (list_ascii_of_string (screenNameOf fileName))
  /\ String.length (screenNameOf fileName) = String.length fileName
  /\ singleLine (screenNameOf fileName) = true
  /\ screenNameOf (screenNameOf fileName) = screenNameOf fileName
  /\ (Forall (fun c => isWordChar c = true) (list_ascii_of_string fileName) ->
      screenNameOf fileName = fileName).
Proof.
  induction fileName as [|c s (IH1 & IH2 & IH3 & IH4 & IH5)]; simpl.
  - repeat split; constructor.
  - destruct (isWordChar c) eqn:E; repeat split.
    + now constructor.
    + now rewrite IH2.
    + now rewrite (isWordChar_not_newline c E), IH3.
    + now rewrite E, IH4.
    + intros H. inversion H; subst. now rewrite IH5.
    + now constructor.
    + now rewrite IH2.
    + exact IH3.
    + now rewrite IH4.
    + intros H. inversion H; subst. congruence.
Qed.

(** ** Finding and deleting nodes *)

Lemma findNodeFrom_unfold (nodeId : string) (node : LvglNode) :
  findNodeFrom nodeId node
  = if String.eqb (id node) nodeId then Some node
    else findNode nodeId (children node).
Proof.
  destruct node as [i t n p cs]; simpl.
  destruct (String.eqb i nodeId); [reflexivity|].
  induction cs as [|c cs IH]; [reflexivity|]. cbn [findNode].
  destruct (findNodeFrom nodeId c); [reflexivity | exact IH].
Qed.

Lemma find_app {A} (f : A -> bool) (a b : list A) :
  find f (a ++ b) = match find f a with Some x => Some x | None => find f b end.
Proof.
  induction a as [|x a IH]; simpl; [reflexivity|]. now destruct (f x).
Qed.

Lemma findNode_forest (nodeId : string) (forest : list LvglNode) :
  Forall (fun node =>
            findNodeFrom nodeId node
            = find (fun n => String.eqb (id n) nodeId) (nodesOf node)) forest ->
  findNode nodeId forest
  = find (fun n => String.eqb (id n) nodeId) (nodesOfForest forest).
Proof.
  induction 1 as [|node rest Hn _ IH]; simpl; [reflexivity|].
  now rewrite find_app, Hn, IH.
Qed.

Lemma findNodeFrom_find (nodeId : string) (node : LvglNode) :
  findNodeFrom nodeId node
  = find (fun n => String.eqb (id n) nodeId) (nodesOf node).
Proof.
  induction node as [i t n p cs IH] using node_ind'.
  rewrite findNodeFrom_unfold, nodesOf_unfold. cbn [find id children].
  destruct (String.eqb i nodeId); [reflexivity|].
  now apply findNode_forest.
Qed.

Lemma findNode_find (nodeId : string) (nodeList : list LvglNode) :
  findNode nodeId nodeList
  = find (fun n => String.eqb (id n) nodeId) (nodesOfForest nodeList).
Proof.
  apply findNode_forest. apply Forall_forall. intros node _.
  apply findNodeFrom_find.
Qed.

(** X15.  [findNode] returns the first node, in document order, whose
    identifier is the one asked for, and [null] when the forest has no such
    node. *)
Theorem findNode_is_first_in_document_order
        (nodeId : string) (nodeList : list LvglNode) :
  findNode nodeId nodeList
  = find (fun n => String.eqb (id n) nodeId) (nodesOfForest nodeList).
Proof.
  apply findNode_forest. apply Forall_forall. intros node _.
  apply findNodeFrom_find.
Qed.

Lemma deleteNodeUnder_unfold (nodeId : string) (node : LvglNode) :
  deleteNodeUnder nodeId node
  = (mkNode (id node) (type node) (name node) (properties node)
       (fst (deleteNode nodeId (children node))),
     snd (deleteNode nodeId (children node))).
Proof.
  destruct node as [i t n p cs]; cbn [deleteNodeUnder id type name properties children].
  match goal with
  | |- (let '(_, _) := ?f cs in _) = _ =>
      assert (E : f cs = deleteNode nodeId cs)
  end.
  { induction cs as [|c cs IH]; [reflexivity|]. cbn [deleteNode].
    destruct (String.eqb (id c) nodeId); [reflexivity|].
    destruct (deleteNodeUnder nodeId c) as [c' d]. destruct d; [reflexivity|].
    now rewrite IH. }
  rewrite E. now destruct (deleteNode nodeId cs).
Qed.

Lemma headsOf_cons (node : LvglNode) (rest : list LvglNode) :
  headsOf (node :: rest)
  = (withoutChildren node :: headsOf (children node) ++ headsOf rest)%list.
Proof.
  unfold headsOf. cbn [nodesOfForest flat_map].
  now rewrite nodesOf_unfold, map_app.
Qed.

Lemma deleteNode_forest (nodeId : string) (forest : list LvglNode) :
  Forall (fun node =>
            String.eqb (id node) nodeId = false ->
            deletion nodeId (children node)
              (fst (deleteNode nodeId (children node)))
              (snd (deleteNode nodeId (children node)))) forest ->
  deletion nodeId forest
    (fst (deleteNode nodeId forest)) (snd (deleteNode nodeId forest)).
Proof.
  induction 1 as [|node rest Hn _ IH]; cbn [deleteNode].
  - left. repeat split. constructor.
  - destruct (String.eqb (id node) nodeId) eqn:E.
    + right. split; [reflexivity|]. exists [], node, (headsOf rest).
      apply String.eqb_eq in E. cbn [fst app].
      rewrite (headsOf_cons node rest), (headsOf_cons node []).
      change (headsOf []) with (@nil LvglNode). rewrite app_nil_r.
      repeat split; [exact E | constructor].
    + specialize (Hn eq_refl). rewrite deleteNodeUnder_unfold.
      destruct (deleteNode nodeId (children node)) as [kids d].
      cbn [fst snd] in Hn |- *.
      destruct Hn as [(-> & Hafter & Hnone)
                     |(-> & pre & n & post & Hb & Ha & Hid & Hpre)].
      * destruct (deleteNode nodeId rest) as [rest' d'].
        cbn [fst snd] in IH |- *.
        destruct IH as [(-> & Hafter' & Hnone')
                       |(-> & pre & n & post & Hb & Ha & Hid & Hpre)].
        -- left. rewrite Hafter'. repeat split. rewrite headsOf_cons.
           constructor; [exact E|]. apply Forall_app. now split.
        -- right. split; [reflexivity|].
           exists (withoutChildren node :: headsOf (children node) ++ pre)%list,
                  n, post.
           rewrite (headsOf_cons node rest), (headsOf_cons node rest'), Hb, Ha.
           repeat split.
           ++ cbn [app]. now rewrite <- !app_assoc.
           ++ cbn [app]. now rewrite <- !app_assoc.
           ++ exact Hid.
           ++ constructor; [exact E|]. apply Forall_app. now split.
      * right. split; [reflexivity|].
        exists (withoutChildren node :: pre), n, (post ++ headsOf rest)%list.
        cbn [fst]. rewrite (headsOf_cons node rest).
        rewrite (headsOf_cons (mkNode (id node) (type node) (name node)
                                      (properties node) kids) rest).
        cbn [children]. rewrite Hb, Ha. repeat split.
        -- cbn [app]. now rewrite <- !app_assoc.
        -- cbn [app]. now rewrite <- !app_assoc.
        -- exact Hid.
        -- constructor; assumption.
Qed.

Lemma deleteNode_children_deletion (nodeId : string) (node : LvglNode) :
  deletion nodeId (children node)
    (fst (deleteNode nodeId (children node)))
    (snd (deleteNode nodeId (children node))).
Proof.
  induction node as [i t n p cs IH] using node_ind'. cbn [children].
  apply deleteNode_forest.
  eapply Forall_impl; [|exact IH]. intros c Hc _. exact Hc.
Qed.

Lemma find_heads (nodeId : string) (forest : list LvglNode) :
  option_map withoutChildren
    (find (fun n => String.eqb (id n) nodeId) (nodesOfForest forest))
  = find (fun n => String.eqb (id n) nodeId) (headsOf forest).
Proof.
  unfold headsOf. induction (nodesOfForest forest) as [|x l IH]; [reflexivity|].
  cbn [find map]. cbn [withoutChildren id].
  destruct (String.eqb (id x) nodeId); [reflexivity | exact IH].
Qed.

Lemma find_none_all {A : Type} (f : A -> bool) (l : list A) :
  find f l = None <-> Forall (fun x => f x = false) l.
Proof.
  induction l as [|x l IH]; cbn [find].
  - split; [constructor | reflexivity].
  - destruct (f x) eqn:E.
    + split; [discriminate|]. intros H. inversion H; congruence.
    + rewrite IH. split; [now constructor | intros H; now inversion H].
Qed.

(** What [deleteNode] does to a forest, by what [findNode] finds in it. *)
Lemma deleteNode_removal_forest (nodeId : string) (forest : list LvglNode) :
  Forall (fun node =>
            (findNode nodeId (children node) = None ->
             deleteNode nodeId (children node) = (children node, false))
            /\ (forall removed,
                   findNode nodeId (children node) = Some removed ->
                   snd (deleteNode nodeId (children node)) = true
                   /\ removal nodeId removed (children node)
                        (fst (deleteNode nodeId (children node))))) forest ->
  (findNode nodeId forest = None -> deleteNode nodeId forest = (forest, false))
  /\ (forall removed,
         findNode nodeId forest = Some removed ->
         snd (deleteNode nodeId forest) = true
         /\ removal nodeId removed forest (fst (deleteNode nodeId forest))).
Proof.
  induction 1 as [|node rest [Hnone Hsome] _ [IHnone IHsome]].
  - split; [reflexivity | discriminate].
  - cbn [findNode deleteNode].
    rewrite findNodeFrom_unfold, deleteNodeUnder_unfold.
    destruct (String.eqb (id node) nodeId) eqn:E.
    + split; [discriminate|]. intros removed [= <-]. cbn [fst snd].
      split; [reflexivity|]. constructor. now apply String.eqb_eq.
    + destruct (findNode nodeId (children node)) as [found|] eqn:Hkids.
      * split; [discriminate|]. intros removed [= <-].
        destruct (Hsome found eq_refl) as [Hd Hr]. rewrite Hd. cbn [fst snd].
        split; [reflexivity|]. now constructor.
      * rewrite (Hnone eq_refl). cbn [fst snd].
        assert (Hnode : Forall (fun n => String.eqb (id n) nodeId = false)
                               (nodesOf node)).
        { apply find_none_all. rewrite <- findNodeFrom_find.
          now rewrite findNodeFrom_unfold, E. }
        destruct (findNode nodeId rest) as [found|] eqn:Hrest.
        -- split; [discriminate|]. intros removed [= <-].
           destruct (IHsome found eq_refl) as [Hd Hr].
           destruct (deleteNode nodeId rest) as [rest' d]. cbn [fst snd] in *.
           split; [exact Hd|]. now constructor.
        -- split; [|discriminate]. intros _. now rewrite (IHnone eq_refl).
Qed.

Lemma deleteNode_removal (nodeId : string) (forest : list LvglNode) :
  (findNode nodeId forest = None -> deleteNode nodeId forest = (forest, false))
  /\ (forall removed,
         findNode nodeId forest = Some removed ->
         snd (deleteNode nodeId forest) = true
         /\ removal nodeId removed forest (fst (deleteNode nodeId forest))).
Proof.
  apply deleteNode_removal_forest. apply Forall_forall. intros node _.
  induction node as [i t n p cs IH] using node_ind'. cbn [children].
  now apply deleteNode_removal_forest.
Qed.

(** X16.  [deleteNode] returns [false] and leaves the forest as it is when
    [findNode] finds no node with the identifier.  Otherwise it returns
    [true] and takes the node that [findNode] finds, the first in document
    order, out of the list that holds it, with its descendants: the
    ancestors of the node have the children that are left and are otherwise
    as they were, and every other node is as it was, at its place.  This
    fixes the forest that is left: no other forest stands in that relation
    to the forest before. *)
Theorem deleteNode_removes_first_match
        (nodeId : string) (nodeList : list LvglNode) :
  (findNode nodeId nodeList = None ->
   deleteNode nodeId nodeList = (nodeList, false))
  /\ (forall removed,
         findNode nodeId nodeList = Some removed ->
         snd (deleteNode nodeId nodeList) = true
         /\ removal nodeId removed nodeList (fst (deleteNode nodeId nodeList)))
  /\ (forall removed nodeList',
         removal nodeId removed nodeList nodeList' ->
         findNode nodeId nodeList = Some removed
         /\ nodeList' = fst (deleteNode nodeId nodeList)).
Proof.
  split; [apply deleteNode_removal|]. split; [apply deleteNode_removal|].
  intros removed nodeList' R.
  induction R as [rest Hid|parent kids' rest E _ [IHf IHd]
                 |node rest rest' Hnode _ [IHf IHd]];
    cbn [findNode deleteNode]; rewrite findNodeFrom_unfold.
  - apply String.eqb_eq in Hid. rewrite Hid. now split.
  - rewrite E, IHf, deleteNodeUnder_unfold.
    rewrite (proj1 (proj2 (deleteNode_removal nodeId (children parent))
                      removed IHf)).
    cbn [fst]. now rewrite IHd.
  - assert (E : String.eqb (id node) nodeId = false).
    { rewrite nodesOf_unfold in Hnode. now inversion Hnode. }
    assert (Hkids : findNode nodeId (children node) = None).
    { apply find_none_all in Hnode. rewrite <- findNodeFrom_find in Hnode.
      now rewrite findNodeFrom_unfold, E in Hnode. }
    rewrite E, Hkids, deleteNodeUnder_unfold.
    rewrite (proj1 (deleteNode_removal nodeId (children node)) Hkids).
    cbn [fst snd]. rewrite IHf. split; [reflexivity|].
    rewrite IHd. now destruct (deleteNode nodeId rest).
Qed.

Lemma deleteNode_removes_first_match_witness :
  snd (deleteNode "t" [sample_panel; sample_label]) = true
  /\ removal "t" sample_label [sample_panel; sample_label]
       (fst (deleteNode "t" [sample_panel; sample_label])).
Proof.
  exact (proj1 (proj2 (deleteNode_removes_first_match
                         "t" [sample_panel; sample_label]))
               sample_label eq_refl).
Defined.

Lemma NoDup_without_middle {A : Type} (a b c : list A) :
  NoDup (a ++ b ++ c) -> NoDup (a ++ c).
Proof.
  induction b as [|x b IH]; [trivial|].
  intros H. apply IH. cbn [app] in H. now apply NoDup_remove_1 in H.
Qed.

Lemma ids_of_heads (forest : list LvglNode) :
  map id (headsOf forest) = map id (nodesOfForest forest).
Proof. unfold headsOf. rewrite map_map. reflexivity. Qed.

(** X17.  In a forest whose identifiers are pairwise distinct, the forest
    that [deleteNode] leaves has no node with the identifier any more, and
    its identifiers are still distinct. *)
Theorem deleteNode_then_findNode_is_null
        (nodeId : string) (nodeList : list LvglNode) :
  NoDup (map id (nodesOfForest nodeList)) ->
  findNode nodeId (fst (deleteNode nodeId nodeList)) = None
  /\ NoDup (map id (nodesOfForest (fst (deleteNode nodeId nodeList)))).
Proof.
  intros Hnd. rewrite findNode_find.
  assert (D : deletion nodeId nodeList
                (fst (deleteNode nodeId nodeList))
                (snd (deleteNode nodeId nodeList))).
  { apply deleteNode_forest. apply Forall_forall. intros node _ _.
    apply deleteNode_children_deletion. }
  pose proof (find_heads nodeId (fst (deleteNode nodeId nodeList))) as F.
  rewrite <- !ids_of_heads in *.
  assert (Hno : forall l, Forall (fun n => String.eqb (id n) nodeId = false) l ->
                          find (fun n => String.eqb (id n) nodeId) l = None).
  { intros l Hl. destruct (find _ l) as [x|] eqn:E; [|reflexivity].
    apply find_some in E. destruct E as [Hin E].
    rewrite Forall_forall in Hl. rewrite (Hl x Hin) in E. discriminate. }
  destruct D as [(_ & Ha & Hnone)|(_ & pre & node & post & Hb & Ha & Hid & Hpre)].
  - rewrite Ha in *. split; [|exact Hnd].
    rewrite (Hno _ Hnone) in F.
    now destruct (find _ (nodesOfForest nodeList)).
  - rewrite Ha in *. rewrite Hb in Hnd. rewrite headsOf_cons in Hnd.
    rewrite !map_app in Hnd. cbn [map app withoutChildren id] in Hnd.
    assert (Hpost : Forall (fun n => String.eqb (id n) nodeId = false) post).
    { apply Forall_forall. intros x Hin. apply String.eqb_neq. intros Hx.
      apply NoDup_remove_2 in Hnd. apply Hnd.
      apply in_or_app. right. apply in_or_app. right.
      rewrite Hid, <- Hx. now apply in_map. }
    split.
    + rewrite (Hno (pre ++ post)%list) in F by (apply Forall_app; now split).
      now destruct (find _ (nodesOfForest (fst (deleteNode nodeId nodeList)))).
    + rewrite map_app. eapply NoDup_without_middle.
      change (id node :: ?l ++ ?r)%list with ((id node :: l) ++ r)%list in Hnd.
      exact Hnd.
Qed.

Lemma deleteNode_then_findNode_is_null_witness :
  findNode "t" (fst (deleteNode "t" [sample_panel])) = None
  /\ NoDup (map id (nodesOfForest (fst (deleteNode "t" [sample_panel])))).
Proof.
  apply (deleteNode_then_findNode_is_null "t" [sample_panel]).
  vm_compute. repeat constructor; simpl; intuition discriminate.
Defined.

(** ** Duplicating a node *)

Lemma nodesOf_jsonNode (node : LvglNode) :
  nodesOf (jsonNode node) = map jsonNode (nodesOf node).
Proof.
  induction node as [i t n p cs IH] using node_ind'.
  rewrite (nodesOf_unfold (mkNode i t n p cs)).
  cbn [jsonNode id type name properties children map].
  rewrite nodesOf_unfold. cbn [children]. f_equal.
  induction IH as [|c cs' Hc _ IH']; [reflexivity|].
  cbn [map nodesOfForest flat_map]. rewrite map_app. f_equal; [exact Hc | exact IH'].
Qed.

Lemma renewIds_unfold (stamp : nat -> string) (child : LvglNode) (n : nat) :
  renewIds stamp child n
  = (mkNode ("node_" ++ stamp n) (type child) (name child) (properties child)
       (fst (renewAll stamp (children child) (S n))),
     snd (renewAll stamp (children child) (S n))).
Proof.
  destruct child as [i t nm p cs].
  cbn [renewIds id type name properties children].
  unfold bind at 1. unfold generateId at 1. unfold bind at 1.
  generalize (S n) as m. intros m.
  match goal with
  | |- (let (a, n') := ?loop cs m in _) = _ =>
      assert (E : forall cs' k, loop cs' k = renewAll stamp cs' k)
  end.
  { induction cs' as [|c cs' IH]; intros k; [reflexivity|].
    cbn [renewAll]. unfold bind.
    destruct (renewIds stamp c k) as [c' k']. rewrite IH. reflexivity. }
  rewrite E. destruct (renewAll stamp cs m) as [kids m']. reflexivity.
Qed.

Lemma renewAll_cons (stamp : nat -> string) (c : LvglNode)
      (cs : list LvglNode) (n : nat) :
  renewAll stamp (c :: cs) n
  = (fst (renewIds stamp c n)
       :: fst (renewAll stamp cs (snd (renewIds stamp c n))),
     snd (renewAll stamp cs (snd (renewIds stamp c n)))).
Proof.
  cbn [renewAll]. unfold bind, ret.
  destruct (renewIds stamp c n) as [c' k]. cbn [fst snd].
  destruct (renewAll stamp cs k) as [cs' k']. reflexivity.
Qed.

Lemma seq_add (n a b : nat) :
  seq n (a + b) = (seq n a ++ seq (n + a) b)%list.
Proof. apply seq_app. Qed.

Lemma renewAll_renewed (stamp : nat -> string) (cs : list LvglNode) :
  Forall (fun c => forall n,
              renewed stamp [c] [fst (renewIds stamp c n)] n (snd (renewIds stamp c n)))
         cs ->
  forall n, renewed stamp cs (fst (renewAll stamp cs n)) n (snd (renewAll stamp cs n)).
Proof.
  induction 1 as [|c cs Hc _ IH]; intros n.
  - repeat split. cbn. now rewrite Nat.add_0_r.
  - rewrite renewAll_cons. cbn [fst snd].
    destruct (Hc n) as (Hn & Hids & Hsame).
    destruct (IH (snd (renewIds stamp c n))) as (Hn' & Hids' & Hsame').
    cbn [nodesOfForest flat_map] in Hn, Hids |- *.
    rewrite app_nil_r in Hn, Hids.
    unfold renewed. cbn [nodesOfForest flat_map].
    rewrite !length_app, !map_app, seq_add, map_app.
    repeat split.
    + rewrite Hn', Hn. fold (nodesOfForest cs). lia.
    + rewrite app_nil_r in Hids. rewrite Hids. f_equal.
      fold (nodesOfForest (fst (renewAll stamp cs (snd (renewIds stamp c n))))).
      rewrite Hids', Hn. reflexivity.
    + cbn [map] in Hsame |- *. injection Hsame as Hsame.
      rewrite Hsame, Hsame'. reflexivity.
Qed.

Lemma renewIds_renewed (stamp : nat -> string) (c : LvglNode) (n : nat) :
  renewed stamp [c] [fst (renewIds stamp c n)] n (snd (renewIds stamp c n)).
Proof.
  revert n. induction c as [i t nm p cs IH] using node_ind'. intros n.
  rewrite renewIds_unfold. cbn [fst snd type name properties children].
  destruct (renewAll_renewed stamp cs IH (S n)) as (Hn & Hids & Hsame).
  unfold renewed. cbn [nodesOfForest flat_map]. rewrite !app_nil_r.
  rewrite (nodesOf_unfold (mkNode i t nm p cs)), nodesOf_unfold.
  cbn [children length map seq id]. repeat split.
  - rewrite Hn. lia.
  - now rewrite Hids.
  - cbn [withoutIds type name properties children]. now rewrite Hsame.
Qed.

Lemma renewAll_spec (stamp : nat -> string) (cs : list LvglNode) (n : nat) :
  renewed stamp cs (fst (renewAll stamp cs n)) n (snd (renewAll stamp cs n)).
Proof.
  apply renewAll_renewed. apply Forall_forall. intros c _ k.
  apply renewIds_renewed.
Qed.

Lemma length_nodesOfForest_json (cs : list LvglNode) :
  length (nodesOfForest (map jsonNode cs)) = length (nodesOfForest cs).
Proof.
  induction cs as [|c cs IH]; [reflexivity|].
  cbn [map nodesOfForest flat_map]. rewrite !length_app, nodesOf_jsonNode, length_map.
  f_equal. exact IH.
Qed.

Lemma duplicateOf_unfold (stamp : nat -> string) (node : LvglNode) (n : nat) :
  duplicateOf stamp node n
  = (mkNode ("node_" ++ stamp n) (type node) (name node ++ "_copy")
       (assign "y" (plus20 (lookup "y" (properties node)))
          (assign "x" (plus20 (lookup "x" (properties node)))
             (jsonProperties (properties node))))
       (fst (renewAll stamp (map jsonNode (children node)) (S n))),
     snd (renewAll stamp (map jsonNode (children node)) (S n))).
Proof.
  destruct node as [i t nm p cs].
  unfold duplicateOf, updateChildIds.
  cbn [jsonNode id type name properties children].
  unfold bind at 1. unfold generateId at 1. unfold bind at 1.
  destruct (renewAll stamp (map jsonNode cs) (S n)) as [kids m]. reflexivity.
Qed.

(** X18.  The handler of the duplicate button, on a selected identifier that
    some node of the forest has: the forest gets one more root, placed last,
    and that root is selected.  The identifiers of the copy and of its
    descendants, in document order, are the next values of [generateId], as
    many as the duplicated node has nodes; the copy is named after the
    original with [_copy] appended, and its descendants are those of the
    original, after the JSON round trip, in all but their identifiers. *)
Theorem duplicateSelected_appends_a_copy_with_new_ids
        (stamp : nat -> string) (nodeId : string) (nodes : list LvglNode) (node : LvglNode) (n : nat) :
  nodeId <> EmptyString ->
  findNode nodeId nodes = Some node ->
  exists copy,
    duplicateSelected stamp (Some nodeId) nodes n
    = ((Some ("node_" ++ stamp n), (nodes ++ [copy])%list),
       n + length (nodesOf node))
    /\ map id (nodesOf copy)
       = map (fun k => "node_" ++ stamp k) (seq n (length (nodesOf node)))
    /\ type copy = type node
    /\ name copy = name node ++ "_copy"
    /\ map withoutIds (children copy)
       = map (fun c => withoutIds (jsonNode c)) (children node).
Proof.
  intros Hne Hfind. unfold duplicateSelected.
  apply String.eqb_neq in Hne. rewrite Hne, Hfind.
  unfold bind, ret. rewrite duplicateOf_unfold.
  destruct (renewAll_spec stamp (map jsonNode (children node)) (S n))
    as (Hn & Hids & Hsame).
  rewrite length_nodesOfForest_json in Hn, Hids.
  eexists. split; [|split; [|split; [|split]]].
  - cbn [id]. rewrite Hn, nodesOf_unfold. cbn [length].
    rewrite Nat.add_succ_r. reflexivity.
  - rewrite nodesOf_unfold, (nodesOf_unfold node).
    cbn [children id map length seq]. now rewrite Hids.
  - reflexivity.
  - reflexivity.
  - cbn [children]. rewrite Hsame, map_map. reflexivity.
Qed.

Lemma duplicateSelected_appends_a_copy_with_new_ids_witness :
  exists copy,
    duplicateSelected sample_stamp (Some "p") [sample_panel] 7
    = ((Some ("node_" ++ sample_stamp 7), ([sample_panel] ++ [copy])%list),
       7 + length (nodesOf sample_panel))
    /\ map id (nodesOf copy)
       = map (fun k => "node_" ++ sample_stamp k)
             (seq 7 (length (nodesOf sample_panel)))
    /\ type copy = type sample_panel
    /\ name copy = name sample_panel ++ "_copy"
    /\ map withoutIds (children copy)
       = map (fun c => withoutIds (jsonNode c)) (children sample_panel).
Proof.
  apply (duplicateSelected_appends_a_copy_with_new_ids
           sample_stamp "p" [sample_panel] sample_panel 7).
  - discriminate.
  - reflexivity.
Defined.

(** ** Dropping a component *)

Lemma registry_copyDefaults (year : Z) :
  Forall (fun component =>
            forall x y : Z,
              copyDefaults (snd component)
                [("x", JNum x); ("y", JNum y);
                 ("width", JNum 100); ("height", JNum 50)]
              = ([("x", JNum 0); ("y", JNum 0);
                  ("width", JNum 100); ("height", JNum 50)]
                 ++ otherDefaults (snd component))%list)
         (componentProperties year).
Proof.
  repeat (apply Forall_cons; [intros x y; vm_compute; reflexivity|]).
  apply Forall_nil.
Qed.

(** X19.  Dropping a component of the registry on the canvas adds one root,
    placed last and selected, with a new identifier, the type of the
    component, the name made of the type without [lv_] and of the number of
    roots, and no children.  Its properties are the geometry that the
    registry declares, [x] 0, [y] 0, [width] 100 and [height] 50, whatever
    the position of the drop, followed by the other declared defaults in the
    order of the declarations; the declared name is not among them. *)
Theorem dropped_component_takes_the_declared_defaults
        (stamp : nat -> string) (year : Z) (selectedNodeId : option string)
        (draggedType : string) (draggedProperties : list LvglProperty)
        (x y : Z) (nodes : list LvglNode) (n : nat) :
  In (draggedType, draggedProperties) (componentProperties year) ->
  dropOnCanvas stamp selectedNodeId (Some (draggedType, draggedProperties))
               x y nodes n
  = ((Some ("node_" ++ stamp n), None,
      (nodes
       ++ [mkNode ("node_" ++ stamp n) draggedType
             (replace draggedType "lv_" EmptyString ++ "_"
              ++ ofNat (length nodes + 1))
             ([("x", JNum 0); ("y", JNum 0);
               ("width", JNum 100); ("height", JNum 50)]
              ++ otherDefaults draggedProperties)
             []])%list),
     S n).
Proof.
  intros Hin.
  pose proof (proj1 (Forall_forall _ _) (registry_copyDefaults year)
                    (draggedType, draggedProperties) Hin x y) as H.
  cbn [snd] in H. unfold dropOnCanvas, bind, generateId, ret. cbn [id].
  rewrite H. reflexivity.
Qed.

Lemma dropped_component_takes_the_declared_defaults_witness :
  dropOnCanvas sample_stamp None
    (Some ("lv_switch",
           ([ mkProperty "name" string_type (Some (JStr "sw")) None None None basic_props;
              mkProperty "checked" boolean_type (Some (JBool false)) None None None basic_props ]
            ++ commonStyleProperties)%list))
    140 95 [sample_panel] 3
  = ((Some ("node_" ++ sample_stamp 3), None,
      ([sample_panel]
       ++ [mkNode ("node_" ++ sample_stamp 3) "lv_switch"
             (replace "lv_switch" "lv_" EmptyString ++ "_"
              ++ ofNat (length [sample_panel] + 1))
             ([("x", JNum 0); ("y", JNum 0);
               ("width", JNum 100); ("height", JNum 50)]
              ++ otherDefaults
                   ([ mkProperty "name" string_type (Some (JStr "sw")) None None None basic_props;
                      mkProperty "checked" boolean_type (Some (JBool false)) None None None basic_props ]
                    ++ commonStyleProperties)%list)
             []])%list),
     4).
Proof.
  apply (dropped_component_takes_the_declared_defaults
           sample_stamp 2024 None "lv_switch" _ 140 95 [sample_panel] 3).
  vm_compute. do 9 right. left. reflexivity.
Defined.

(** ** The declarations of the registry *)

Lemma registry_declarations (year : Z) :
  Forall (fun component =>
            forallb defaultAgrees (snd component) = true
            /\ nodup string_dec (map pname (snd component))
               = map pname (snd component)
            /\ firstIsName (snd component) = true)
         (componentProperties year).
Proof.
  repeat (apply Forall_cons;
          [split; [|split]; vm_compute; reflexivity|]).
  apply Forall_nil.
Qed.

(** X20.  The property declarations of the registry: there is one list of
    declarations for each component, in the order of the components; within
    a component the names are pairwise distinct and the first declaration is
    that of the name; every declaration has a default of its declared type,
    within [min] and [max] for a number, among the options for a select and
    of the form [#rrggbb] for a color.  This holds whatever the current year
    is, which is the default of one property. *)
Theorem registry_defaults_agree_with_declarations (year : Z) :
  map fst (componentProperties year) = map ctype lvglComponents
  /\ forall t props,
       In (t, props) (componentProperties year) ->
       NoDup (map pname props)
       /\ firstIsName props = true
       /\ forall prop, In prop props -> defaultAgrees prop = true.
Proof.
  split; [reflexivity|]. intros t props Hin.
  destruct (proj1 (Forall_forall _ _) (registry_declarations year)
                  (t, props) Hin) as (Hd & Hn & Hf).
  cbn [snd] in *. split; [|split].
  - rewrite <- Hn. apply NoDup_nodup.
  - exact Hf.
  - intros prop Hp. exact (proj1 (forallb_forall _ _) Hd prop Hp).
Qed.

(** ** Moving and resizing with the pointer *)

Lemma mathRound_integer (z : Z) : mathRound (QArith_base.inject_Z z) = z.
Proof.
  unfold mathRound, Qround.Qfloor, QArith_base.Qplus, QArith_base.inject_Z.
  cbn [QArith_base.Qnum QArith_base.Qden].
  change (Z.pos (1 * 2)) with 2%Z. change (Z.pos 1) with 1%Z.
  rewrite Z.mul_1_l. symmetry. apply (Z.div_unique _ 2 z 1); lia.
Qed.

Lemma mathRound_le (p q : QArith_base.Q) :
  QArith_base.Qle p q -> (mathRound p <= mathRound q)%Z.
Proof.
  intros H. unfold mathRound. apply Qround.Qfloor_resp_le.
  now apply QArith_base.Qplus_le_l.
Qed.

Lemma mathRound_eq (p q : QArith_base.Q) :
  QArith_base.Qeq p q -> mathRound p = mathRound q.
Proof.
  intros H. unfold mathRound. apply Qround.Qfloor_comp.
  now rewrite H.
Qed.

(** X21.  A component moved with the pointer stays on the canvas: the
    coordinate stored is at least 0 and at most the room that the canvas
    leaves to the element, or 0 when the element is larger than the canvas.
    A whole position within that room is stored as it is. *)
Theorem draggedTo_stays_on_the_canvas
        (wanted : QArith_base.Q) (canvasSize elSize : Z) :
  (0 <= draggedTo wanted canvasSize elSize <= Z.max 0 (canvasSize - elSize))%Z
  /\ forall z : Z,
       (0 <= z <= canvasSize - elSize)%Z ->
       draggedTo (QArith_base.inject_Z z) canvasSize elSize = z.
Proof.
  unfold draggedTo. split; [split|].
  - rewrite <- (mathRound_integer 0) at 1. apply mathRound_le.
    apply Qminmax.Q.le_max_l.
  - rewrite <- (mathRound_integer (Z.max 0 (canvasSize - elSize))).
    apply mathRound_le. apply Qminmax.Q.max_lub.
    + rewrite <- QArith_base.Zle_Qle. lia.
    + eapply QArith_base.Qle_trans; [apply Qminmax.Q.le_min_r|].
      rewrite <- QArith_base.Zle_Qle. lia.
  - intros z [Hz0 Hz1].
    transitivity (mathRound (QArith_base.inject_Z z));
      [|apply mathRound_integer].
    apply mathRound_eq.
    rewrite Qminmax.Q.min_l by (rewrite <- QArith_base.Zle_Qle; lia).
    apply Qminmax.Q.max_r. rewrite <- QArith_base.Zle_Qle. lia.
Qed.

(** X22.  A component resized with the pointer is never smaller than 20: the
    size stored is at least 20, and it is the size asked for when that is a
    whole number of at least 20. *)
Theorem resizedTo_is_at_least_20 (startSize : Z) (d : QArith_base.Q) :
  (20 <= resizedTo startSize d)%Z
  /\ forall dz : Z,
       (20 <= startSize + dz)%Z ->
       resizedTo startSize (QArith_base.inject_Z dz) = (startSize + dz)%Z.
Proof.
  unfold resizedTo. split.
  - rewrite <- (mathRound_integer 20) at 1. apply mathRound_le.
    apply Qminmax.Q.le_max_l.
  - intros dz H.
    transitivity (mathRound (QArith_base.inject_Z (startSize + dz)));
      [|apply mathRound_integer].
    apply mathRound_eq. rewrite QArith_base.inject_Z_plus.
    apply Qminmax.Q.max_r. rewrite <- QArith_base.inject_Z_plus.
    rewrite <- QArith_base.Zle_Qle. lia.
Qed.
